(** * environment-operator: planner and terraform steps

    A shallow embedding of [pkg/plan] (the planner: [NextStep], [buildPlan],
    [selectStep], ...) and of [pkg/step] (the [InfraStep] and [DestroyStep]
    drivers) together with the properties of the design document that concern
    them.

    Conventions.
    - Go strings are byte sequences: [string].
    - Go [int] and the terraform counters are [Z]; no arithmetic is performed
      on them besides comparison and printing.
    - A Go [map] is a [gmap]; the order in which [range] visits a map is left
      open (a parameter constrained to enumerate the map).
    - An [error] is the text returned by its [Error()] method; [nil] is [None].
    - A run-time panic is an explicit result, [Panicked].
    - A channel is the finite list of records it delivers before it is closed.
    - The Azure client is one object that the planner and the AKSPool steps
      it builds point at: its state is kept with the planner, the steps hold
      the pointer, and [SetSubscription] changes it for all of them.
    - [context.Context] arguments, the planner's mutex and the planner's log
      lines have no bearing on what is returned and are left out; the steps'
      log lines are part of their trace. *)

From Stdlib Require Import ZArith String List Lia.
From Stdlib Require Import Hexadecimal HexadecimalString.
From Stdlib Require Import HexadecimalN HexadecimalPos.
From stdpp Require Import gmap strings list fin_maps pretty.

(** ** Go run-time outcomes *)

Inductive Outcome (A : Type) : Type :=
| Returned (a : A)
| Panicked (msg : string).
Arguments Returned {A} a.
Arguments Panicked {A} msg.

Definition error := string.

Definition nil_deref : string :=
  "invalid memory address or nil pointer dereference".
Definition slice_bounds : string := "slice bounds out of range".

(** ** api/v1 *)

Module V1.

(** Modelled from the spec: the package api/v1 is not part of the sources at
    hand. [StepState] is a string type whose constants are spelled as in the
    persisted status; the zero value is the empty string. *)
Definition StepState := string.
Definition StateInitial : StepState := "Initial".
Definition StateRunning : StepState := "Running".
Definition StateReady : StepState := "Ready".
Definition StateError : StepState := "Error".

(** Modelled from the spec: one entry of [status.Steps]. *)
Record StepStatus := {
  State : StepState;
  Hash : string;
  Msg : string
}.

(** Modelled from the spec: the part of the environment status the planner
    reads. *)
Record EnvironmentStatus := {
  Steps : gmap string StepStatus
}.

(** Modelled from the spec: the budget limits are optional integers
    (nil-able pointers in Go, converted to [int] where they are compared). *)
Record InfraBudget := {
  AddLimit : option Z;
  UpdateLimit : option Z;
  DeleteLimit : option Z
}.

Record AZSpec := {
  Subscription : string;
  ResourceGroup : string
}.

Record StateSpec := {
  Access : string
}.

(** Modelled from the spec: the fields of [InfraSpec] the planner and the
    steps read. *)
Record InfraSpec := {
  EnvName : string;
  Main : string;
  AZ : AZSpec;
  State_ : StateSpec;
  Budget : InfraBudget
}.

Record ClusterInfraSpec := {
  Version : string
}.

Record ClusterAddonSpec := {
  MKV : string;
  Jobs : list string;
  X : gmap string string
}.

(** Modelled from the spec: the fields of [ClusterSpec] the planner reads. *)
Record ClusterSpec := {
  Name : string;
  Infra : ClusterInfraSpec;
  Addons : ClusterAddonSpec
}.

End V1.

(** ** k8s.io/apimachinery/pkg/types *)

Module Types.

Record NamespacedName := {
  Namespace : string;
  Name : string
}.

#[global] Instance NamespacedName_eq_dec : EqDecision NamespacedName.
Proof. solve_decision. Defined.

#[global] Instance NamespacedName_countable : Countable NamespacedName.
Proof.
  refine (inj_countable' (fun n => (Namespace n, Name n))
            (fun p => {| Namespace := fst p; Name := snd p |}) _).
  intros []; reflexivity.
Defined.

End Types.

(** ** pkg/client/terraform and pkg/cloud: the adapter contracts *)

Module Terraform.

(** Modelled from the spec: the package pkg/client/terraform is not part of
    the sources at hand. Result of the synchronous [Init] and [Plan]
    calls. *)
Record TFResult := {
  Text : string;
  Errors : list string;
  PlanAdded : Z;
  PlanChanged : Z;
  PlanDeleted : Z
}.

(** Modelled from the spec: one progress record of [StartApply] and
    [StartDestroy]. *)
Record TFApplyResult := {
  Object : string;
  Action : string;
  AText : string;
  AErrors : list string;
  TotalAdded : Z;
  TotalChanged : Z;
  TotalDestroyed : Z
}.

(** Modelled from the spec: the process handle; [Wait] reaps the exit
    status. *)
Record Cmd := {
  Wait : option error
}.

(** Modelled from the spec: what [StartApply] and [StartDestroy] return,
    [(cmd, ch, err)]. Fakes return a nil [cmd]. *)
Definition Started : Type :=
  (option Cmd * list TFApplyResult * option error)%type.

(** Modelled from the spec: the [Terraformer] interface, as far as the steps
    call it. *)
Record Terraformer := {
  Init : list string -> string -> TFResult;
  Plan : list string -> string -> TFResult;
  StartApply : list string -> string -> Started;
  StartDestroy : list string -> string -> Started
}.

End Terraform.

Module Cloud.

(** Modelled from the spec: the package pkg/cloud is not part of the sources
    at hand; the fields are those [terraformEnviron] reads. *)
Record ServicePrincipal := {
  ClientID : string;
  ClientSecret : string;
  Tenant : string
}.

(** Modelled from the spec: the [Cloud] interface; [Login] returns
    [(sp, err)] with [sp] a pointer. *)
Record Cloud := {
  Login : option ServicePrincipal * option error
}.

End Cloud.

(** ** pkg/step *)

Module Step.

(** Modelled from the spec: [Type] is a string type; its constants are the
    closed set of step kinds. *)
Definition StepType := string.
Definition TypeInfra : StepType := "Infra".
Definition TypeDestroy : StepType := "Destroy".
Definition TypeAKSPool : StepType := "AKSPool".
Definition TypeKubeconfig : StepType := "Kubeconfig".
Definition TypeAKSAddonPreflight : StepType := "AKSAddonPreflight".
Definition TypeAddons : StepType := "Addons".

(** The struct literal of [stepMeta] fixes the fields of [ID] and [Metaa];
    [State] and [Msg] are the fields [Execute] assigns. *)
Record ID := {
  Type_ : StepType;
  Namespace : string;
  Name : string;
  ClusterName : string
}.

Record Metaa := {
  ID_ : ID;
  Hash : string;
  State : V1.StepState;
  Msg : string
}.

Definition Metaa_with_State (m : Metaa) (s : V1.StepState) : Metaa :=
  {| ID_ := ID_ m; Hash := Hash m; State := s; Msg := Msg m |}.

Definition Metaa_with_Msg (m : Metaa) (s : string) : Metaa :=
  {| ID_ := ID_ m; Hash := Hash m; State := State m; Msg := s |}.

(** InfraValues hold the Specs that are needed during template expansion. *)
Record InfraValues := {
  Infra : V1.InfraSpec;
  Clusters : list V1.ClusterSpec
}.

(** InfraStep performs a terraform init, plan, apply. *)
Module InfraStep.
Record t := {
  Metaa_ : Metaa;
  Values : InfraValues;
  SourcePath : string;
  Cloud_ : Cloud.Cloud;
  Terraform_ : Terraform.Terraformer;
  Added : Z;
  Changed : Z;
  Deleted : Z
}.

Definition with_Metaa (st : t) (m : Metaa) : t :=
  {| Metaa_ := m; Values := Values st; SourcePath := SourcePath st;
     Cloud_ := Cloud_ st; Terraform_ := Terraform_ st;
     Added := Added st; Changed := Changed st; Deleted := Deleted st |}.

Definition with_counts (st : t) (a c d : Z) : t :=
  {| Metaa_ := Metaa_ st; Values := Values st; SourcePath := SourcePath st;
     Cloud_ := Cloud_ st; Terraform_ := Terraform_ st;
     Added := a; Changed := c; Deleted := d |}.

(** Meta returns a reference to the Metaa data of this Step. *)
Definition Meta (st : t) : Metaa := Metaa_ st.
End InfraStep.

(** DestroyStep performs a terraform destroy. The plan builder also fills a
    [Cloud] field, which [Execute] never reads. *)
Module DestroyStep.
Record t := {
  Metaa_ : Metaa;
  Values : InfraValues;
  SourcePath : string;
  Cloud_ : Cloud.Cloud;
  Terraform_ : Terraform.Terraformer;
  Added : Z;
  Changed : Z;
  Deleted : Z
}.

Definition with_Metaa (st : t) (m : Metaa) : t :=
  {| Metaa_ := m; Values := Values st; SourcePath := SourcePath st;
     Cloud_ := Cloud_ st; Terraform_ := Terraform_ st;
     Added := Added st; Changed := Changed st; Deleted := Deleted st |}.

Definition with_counts (st : t) (a c d : Z) : t :=
  {| Metaa_ := Metaa_ st; Values := Values st; SourcePath := SourcePath st;
     Cloud_ := Cloud_ st; Terraform_ := Terraform_ st;
     Added := a; Changed := c; Deleted := d |}.

(** Meta returns a reference to the Metaa data of this Step. *)
Definition Meta (st : t) : Metaa := Metaa_ st.
End DestroyStep.

(** *** What a step does to the outside world

    Everything [Execute] does besides changing the step itself is recorded,
    in program order: log lines, the [Infoer] and [Updater] sinks, calls of
    the external collaborators and file operations. [Update] holds the
    step's metadata and counters as they are when the sink is called. *)
Inductive Event :=
| LogInfo (msg : string) (err : option error)
| LogError (err : error) (msg : string)
| Update (m : Metaa) (added changed deleted : Z)
| Info (id : ID) (text : string)
| Warning (id : ID) (text : string)
| CallExpandAll (dir suffix : string)
| CallLogin
| CallInit (env : list string) (dir : string)
| CallPlan (env : list string) (dir : string)
| CallStartApply (env : list string) (dir : string)
| CallStartDestroy (env : list string) (dir : string)
| CallWait
| MkdirAll (path : string)
| WriteFile (path text : string).

#[global] Instance ID_eq_dec : EqDecision ID.
Proof. solve_decision. Defined.

#[global] Instance Metaa_eq_dec : EqDecision Metaa.
Proof. solve_decision. Defined.

#[global] Instance Event_eq_dec : EqDecision Event.
Proof. solve_decision. Defined.

(** A computation over a step of type [S]: it reads and changes the step,
    appends to the trace, and either returns or panics. *)
Definition M (S A : Type) : Type :=
  S -> list Event -> Outcome A * S * list Event.

Definition ret {S A} (a : A) : M S A := fun st tr => (Returned a, st, tr).

Definition bind {S A B} (c : M S A) (k : A -> M S B) : M S B :=
  fun st tr =>
    match c st tr with
    | (Returned a, st', tr') => k a st' tr'
    | (Panicked msg, st', tr') => (Panicked msg, st', tr')
    end.

Definition panic {S A} (msg : string) : M S A :=
  fun st tr => (Panicked msg, st, tr).

Definition emit {S} (e : Event) : M S unit :=
  fun st tr => (Returned tt, st, tr ++ [e]).

Definition get {S} : M S S := fun st tr => (Returned st, st, tr).

Definition modify {S} (f : S -> S) : M S unit :=
  fun st tr => (Returned tt, f st, tr).

Definition when {S} (b : bool) (c : M S unit) : M S unit :=
  if b then c else ret tt.

#[global] Instance M_ret {S} : MRet (M S) := fun A => @ret S A.
#[global] Instance M_bind {S} : MBind (M S) := fun A B k c => bind c k.

(** Reading through a pointer that may be nil. *)
Definition deref {S A} (p : option A) : M S A :=
  match p with
  | Some a => ret a
  | None => panic nil_deref
  end.

Definition log_if_err {S} (msg : string) (err : option error) : M S unit :=
  match err with
  | Some e => emit (LogInfo msg (Some e))
  | None => ret tt
  end.

(** [%d] *)
Definition fmt_d (n : Z) : string := pretty n.

(** The budget test [limit != nil && n > limit]: the limit that is
    exceeded, if any. *)
Definition exceeds (n : Z) (limit : option Z) : option Z :=
  match limit with
  | Some l => if (l <? n)%Z then Some l else None
  | None => None
  end.

Section Execute.

(** External collaborators of the package: the standard library's
    [filepath.Join], [os.MkdirAll] and [ioutil.WriteFile], the template
    expander, [util.KVSliceMergeMap], and the order in which [range]
    visits the environment map. *)
Variable filepath_Join : string -> string -> string.
Variable os_MkdirAll : string -> option error.
Variable ioutil_WriteFile : string -> string -> option error.
Variable tmplt_ExpandAll : string -> string -> InfraValues -> option error.
Variable KVSliceMergeMap : list string -> gmap string string -> list string.
Variable range_env : gmap string string -> list (string * string).

(** WriteText writes text to dir/log/name. Errors are logged. *)
Definition writeText {S} (text dir name : string) : M S unit :=
  let p := filepath_Join dir "log" in
  emit (MkdirAll p);;
  log_if_err "InitStep" (os_MkdirAll p);;
  emit (WriteFile (filepath_Join p name) text);;
  log_if_err "InitStep" (ioutil_WriteFile (filepath_Join p name) text).

(** WriteEnv writes env to dir/log/name. Errors are logged. *)
Definition writeEnv {S} (env : gmap string string) (dir name : string)
  : M S unit :=
  let s := fold_left (fun s kv => s +:+ " " +:+ kv.1 +:+ "=" +:+ kv.2)
             (range_env env) "export" in
  writeText s dir name.

(** TerraformEnviron returns terraform specific environment variables.
    [sp] is a pointer; reading its fields panics when it is nil. *)
Definition terraformEnviron {S} (sp : option Cloud.ServicePrincipal)
    (access : string) : M S (gmap string string) :=
  sp ← deref sp;
  let r : gmap string string := ∅ in
  let r := <["ARM_CLIENT_ID" := Cloud.ClientID sp]> r in
  let r := <["ARM_CLIENT_SECRET" := Cloud.ClientSecret sp]> r in
  let r := <["ARM_TENANT_ID" := Cloud.Tenant sp]> r in
  let r := <["ARM_ACCESS_KEY" := access]> r in
  mret r.

(** The loop [for r := range ch { ... last = &r }] of both [Execute]
    functions: every record with a non-empty [Object] is forwarded to the
    info sink; the result is the last record received, nil if none. *)
Fixpoint drain {S} (id : ID) (ch : list Terraform.TFApplyResult)
    (last : option Terraform.TFApplyResult)
  : M S (option Terraform.TFApplyResult) :=
  match ch with
  | [] => mret last
  | r :: ch' =>
      when (negb (String.eqb (Terraform.Object r) ""))
        (emit (Info id (Terraform.Object r +:+ " " +:+ Terraform.Action r)));;
      drain id ch' (Some r)
  end.

(** [if cmd != nil { err := cmd.Wait(); if err != nil { log.Error } }] *)
Definition wait_cmd {S} (cmd : option Terraform.Cmd) (msg : string)
  : M S unit :=
  match cmd with
  | Some c =>
      emit CallWait;;
      match Terraform.Wait c with
      | Some err => emit (LogError err msg)
      | None => mret tt
      end
  | None => mret tt
  end.

(** *** InfraStep.Execute *)

Definition Infra_set_State (s : V1.StepState) : M InfraStep.t unit :=
  modify (fun st =>
    InfraStep.with_Metaa st (Metaa_with_State (InfraStep.Metaa_ st) s)).

Definition Infra_set_Msg (s : string) : M InfraStep.t unit :=
  modify (fun st =>
    InfraStep.with_Metaa st (Metaa_with_Msg (InfraStep.Metaa_ st) s)).

Definition Infra_set_counts (a c d : Z) : M InfraStep.t unit :=
  modify (fun st => InfraStep.with_counts st a c d).

(** [usink.Update(st)] *)
Definition Infra_Update : M InfraStep.t unit :=
  st ← get;
  emit (Update (InfraStep.Metaa_ st) (InfraStep.Added st)
          (InfraStep.Changed st) (InfraStep.Deleted st)).

(** [st.State = v1.StateError; st.Msg = msg; usink.Update(st);
    return false] *)
Definition Infra_fail (msg : string) : M InfraStep.t bool :=
  Infra_set_State V1.StateError;;
  Infra_set_Msg msg;;
  Infra_Update;;
  mret false.

(** Lines 140-198: apply, drain the progress channel, report. *)
Definition InfraStep_Execute_apply (env : list string)
    (tfr : Terraform.TFResult) : M InfraStep.t bool :=
  st ← get;
  let dir := InfraStep.SourcePath st in
  let id := ID_ (InfraStep.Metaa_ st) in
  Infra_set_Msg ("terraform apply adds=" +:+ fmt_d (Terraform.PlanAdded tfr)
                 +:+ " changes=" +:+ fmt_d (Terraform.PlanChanged tfr)
                 +:+ " deletes=" +:+ fmt_d (Terraform.PlanDeleted tfr));;
  Infra_Update;;
  emit (CallStartApply env dir);;
  let '(cmd, ch, err) :=
    Terraform.StartApply (InfraStep.Terraform_ st) env dir in
  match err with
  | Some err =>
      emit (LogError err "start terraform apply");;
      emit (Warning id ("start terraform apply:" +:+ err));;
      Infra_fail ("start terraform apply:" +:+ err)
  | None =>
      (* notify sink while waiting for command completion. *)
      last ← drain id ch None;
      wait_cmd cmd "wait terraform apply";;
      text ← (r ← deref last; mret (Terraform.AText r));
      writeText text dir "apply.txt";;
      (* Return results. *)
      match last with
      | None =>
          Infra_fail "did not receive response from terraform apply"
      | Some last =>
          match Terraform.AErrors last with
          | _ :: _ =>
              let msg := String.concat ", " (Terraform.AErrors last) in
              Infra_set_State V1.StateError;;
              Infra_set_Msg msg;;
              writeText msg dir "apply.err"
          | [] =>
              Infra_set_State V1.StateReady;;
              Infra_set_Msg
                ("terraform apply errors=0 added="
                 +:+ fmt_d (Terraform.TotalAdded last)
                 +:+ " changed=" +:+ fmt_d (Terraform.TotalChanged last)
                 +:+ " deleted=" +:+ fmt_d (Terraform.TotalDestroyed last))
          end;;
          Infra_set_counts (Terraform.TotalAdded last)
            (Terraform.TotalChanged last) (Terraform.TotalDestroyed last);;
          Infra_Update;;
          st ← get;
          mret (bool_decide (State (InfraStep.Metaa_ st) = V1.StateReady))
      end
  end.

(** Lines 95-138: plan, the nothing-to-do exit and the budget gate. *)
Definition InfraStep_Execute_plan (env : list string) : M InfraStep.t bool :=
  st ← get;
  let dir := InfraStep.SourcePath st in
  Infra_set_Msg "terraform plan";;
  Infra_Update;;
  emit (CallPlan env dir);;
  let tfr := Terraform.Plan (InfraStep.Terraform_ st) env dir in
  writeText (Terraform.Text tfr) dir "plan.txt";;
  match Terraform.Errors tfr with
  | e0 :: _ =>
      Infra_set_State V1.StateError;;
      Infra_set_Msg ("terraform plan " +:+ e0);;
      Infra_Update;;
      writeText e0 dir "plan.err";;
      mret false
  | [] =>
      let a := Terraform.PlanAdded tfr in
      let c := Terraform.PlanChanged tfr in
      let d := Terraform.PlanDeleted tfr in
      Infra_set_counts a c d;;
      if ((a =? 0) && (c =? 0) && (d =? 0))%Z then
        Infra_set_State V1.StateReady;;
        Infra_set_Msg "terraform plan: nothing to do";;
        Infra_Update;;
        mret true
      else
        (* Check budget. *)
        let b := V1.Budget (Infra (InfraStep.Values st)) in
        match exceeds a (V1.AddLimit b) with
        | Some l =>
            Infra_fail ("plan added " +:+ fmt_d a
                        +:+ " exceeds addLimit " +:+ fmt_d l)
        | None =>
        match exceeds c (V1.UpdateLimit b) with
        | Some l =>
            Infra_fail ("plan changed " +:+ fmt_d c
                        +:+ " exceeds updateLimit " +:+ fmt_d l)
        | None =>
        match exceeds d (V1.DeleteLimit b) with
        | Some l =>
            Infra_fail ("plan deleted " +:+ fmt_d d
                        +:+ " exceeds deleteLimit " +:+ fmt_d l)
        | None => InfraStep_Execute_apply env tfr
        end end end
  end.

(** Run a step (lines 53-93, then [InfraStep_Execute_plan]). *)
Definition InfraStep_Execute (env : list string) : M InfraStep.t bool :=
  emit (LogInfo "start" None);;
  (* Init *)
  Infra_set_State V1.StateRunning;;
  Infra_set_Msg "terraform init";;
  Infra_Update;;
  st ← get;
  let dir := InfraStep.SourcePath st in
  emit (CallExpandAll dir ".tmplt");;
  match tmplt_ExpandAll dir ".tmplt" (InfraStep.Values st) with
  | Some err => Infra_fail err
  | None =>
      emit CallLogin;;
      let '(sp, err) := Cloud.Login (InfraStep.Cloud_ st) in
      match err with
      | Some err => Infra_fail err
      | None =>
          xenv ← terraformEnviron sp
                   (V1.Access (V1.State_ (Infra (InfraStep.Values st))));
          (* useful when invoking terraform manually. *)
          writeEnv xenv dir "infra.env";;
          let env := KVSliceMergeMap env xenv in
          emit (CallInit env dir);;
          let tfr := Terraform.Init (InfraStep.Terraform_ st) env dir in
          writeText (Terraform.Text tfr) dir "init.txt";;
          match Terraform.Errors tfr with
          | e0 :: _ =>
              Infra_set_State V1.StateError;;
              Infra_set_Msg ("terraform init " +:+ e0);;
              Infra_Update;;
              writeText e0 dir "init.err";;
              mret false
          | [] => InfraStep_Execute_plan env
          end
      end
  end.

(** *** DestroyStep.Execute *)

Definition Destroy_set_State (s : V1.StepState) : M DestroyStep.t unit :=
  modify (fun st =>
    DestroyStep.with_Metaa st (Metaa_with_State (DestroyStep.Metaa_ st) s)).

Definition Destroy_set_Msg (s : string) : M DestroyStep.t unit :=
  modify (fun st =>
    DestroyStep.with_Metaa st (Metaa_with_Msg (DestroyStep.Metaa_ st) s)).

Definition Destroy_set_counts (a c d : Z) : M DestroyStep.t unit :=
  modify (fun st => DestroyStep.with_counts st a c d).

(** [usink.Update(st)] *)
Definition Destroy_Update : M DestroyStep.t unit :=
  st ← get;
  emit (Update (DestroyStep.Metaa_ st) (DestroyStep.Added st)
          (DestroyStep.Changed st) (DestroyStep.Deleted st)).

(** [st.State = v1.StateError; st.Msg = msg; usink.Update(st);
    return false] *)
Definition Destroy_fail (msg : string) : M DestroyStep.t bool :=
  Destroy_set_State V1.StateError;;
  Destroy_set_Msg msg;;
  Destroy_Update;;
  mret false.

(** Execute terraform destroy. The calls of [writeText] pass their
    arguments in the order of the source: [(st.SourcePath, "init.txt",
    tfr.Text)] and [(st.SourcePath, "destroy.txt", last.Text)], against the
    parameters [(text, dir, name)]. *)
Definition DestroyStep_Execute (env : list string) : M DestroyStep.t bool :=
  emit (LogInfo "start" None);;
  (* Init *)
  Destroy_set_State V1.StateRunning;;
  Destroy_set_Msg "terraform init";;
  Destroy_Update;;
  st ← get;
  let dir := DestroyStep.SourcePath st in
  let id := ID_ (DestroyStep.Metaa_ st) in
  emit (CallExpandAll dir ".tmplt");;
  match tmplt_ExpandAll dir ".tmplt" (DestroyStep.Values st) with
  | Some err => Destroy_fail err
  | None =>
      emit (CallInit env dir);;
      let tfr := Terraform.Init (DestroyStep.Terraform_ st) env dir in
      writeText dir "init.txt" (Terraform.Text tfr);;
      match Terraform.Errors tfr with
      | e0 :: _ => Destroy_fail ("terraform init " +:+ e0)
      | [] =>
          (* Destroy *)
          Destroy_set_Msg "terraform destroy";;
          Destroy_Update;;
          emit (CallStartDestroy env dir);;
          let '(cmd, ch, err) :=
            Terraform.StartDestroy (DestroyStep.Terraform_ st) env dir in
          match err with
          | Some err =>
              emit (LogError err "start terraform destroy");;
              emit (Warning id ("start terraform destroy:" +:+ err));;
              Destroy_fail ("start terraform destroy:" +:+ err)
          | None =>
              Destroy_set_State V1.StateRunning;;
              Destroy_Update;;
              (* notify sink while waiting for command completion. *)
              last ← drain id ch None;
              wait_cmd cmd "wait terraform destroy";;
              text ← (r ← deref last; mret (Terraform.AText r));
              writeText dir "destroy.txt" text;;
              (* Return results. *)
              match last with
              | None =>
                  Destroy_fail
                    "did not receive response from terraform destroy"
              | Some last =>
                  match Terraform.AErrors last with
                  | _ :: _ =>
                      Destroy_set_State V1.StateError;;
                      Destroy_set_Msg
                        (String.concat ", " (Terraform.AErrors last))
                  | [] =>
                      Destroy_set_State V1.StateReady;;
                      Destroy_set_Msg
                        ("terraform destroy errors=0 added="
                         +:+ fmt_d (Terraform.TotalAdded last)
                         +:+ " changed="
                         +:+ fmt_d (Terraform.TotalChanged last)
                         +:+ " deleted="
                         +:+ fmt_d (Terraform.TotalDestroyed last))
                  end;;
                  Destroy_set_counts (Terraform.TotalAdded last)
                    (Terraform.TotalChanged last)
                    (Terraform.TotalDestroyed last);;
                  Destroy_Update;;
                  st ← get;
                  mret (bool_decide
                          (State (DestroyStep.Metaa_ st) = V1.StateReady))
              end
          end
      end
  end.

(** Running [Execute] on a step with an empty trace. *)
Definition run {S A} (c : M S A) (st : S) : Outcome A * S * list Event :=
  c st [].

(** *** Vocabulary for the properties of [Execute] *)

(** The trace [writeText] leaves. *)
Definition log_events (msg : string) (err : option error) : list Event :=
  match err with
  | Some e => [LogInfo msg (Some e)]
  | None => []
  end.

Definition writeText_events (text dir name : string) : list Event :=
  let p := filepath_Join dir "log" in
  [MkdirAll p] ++ log_events "InitStep" (os_MkdirAll p)
  ++ [WriteFile (filepath_Join p name) text]
  ++ log_events "InitStep" (ioutil_WriteFile (filepath_Join p name) text).

(** The info events of the progress loop. *)
Definition progress_events (id : ID) (ch : list Terraform.TFApplyResult)
  : list Event :=
  flat_map (fun r =>
    if String.eqb (Terraform.Object r) "" then []
    else [Info id (Terraform.Object r +:+ " " +:+ Terraform.Action r)]) ch.

(** The environment [InfraStep.Execute] hands to terraform after a login as
    [sp]. *)
Definition Infra_env (env : list string) (st : InfraStep.t)
    (sp : Cloud.ServicePrincipal) : list string :=
  KVSliceMergeMap env
    (<["ARM_ACCESS_KEY" := V1.Access (V1.State_ (Infra (InfraStep.Values st)))]>
       (<["ARM_TENANT_ID" := Cloud.Tenant sp]>
          (<["ARM_CLIENT_SECRET" := Cloud.ClientSecret sp]>
             (<["ARM_CLIENT_ID" := Cloud.ClientID sp]> ∅)))).

(** The execution of the Infra step [st] gets as far as a successful
    terraform plan: the templates expand, the login succeeds as [sp],
    [init] reports no error and [plan] reports [tfr] without error. *)
Definition Infra_plans (env : list string) (st : InfraStep.t)
    (sp : Cloud.ServicePrincipal) (tfr : Terraform.TFResult) : Prop :=
  tmplt_ExpandAll (InfraStep.SourcePath st) ".tmplt" (InfraStep.Values st)
    = None
  /\ Cloud.Login (InfraStep.Cloud_ st) = (Some sp, None)
  /\ Terraform.Errors
       (Terraform.Init (InfraStep.Terraform_ st) (Infra_env env st sp)
          (InfraStep.SourcePath st)) = []
  /\ Terraform.Plan (InfraStep.Terraform_ st) (Infra_env env st sp)
       (InfraStep.SourcePath st) = tfr
  /\ Terraform.Errors tfr = [].

(** The apply that follows succeeds: it starts, delivers at least one
    record, and the last record carries no error. *)
Definition Infra_apply_succeeds (env : list string) (st : InfraStep.t)
    (sp : Cloud.ServicePrincipal) : Prop :=
  exists cmd ch r,
    Terraform.StartApply (InfraStep.Terraform_ st) (Infra_env env st sp)
      (InfraStep.SourcePath st) = (cmd, ch, None)
    /\ last ch = Some r
    /\ Terraform.AErrors r = [].

(** The count [n] is within the limit; a nil limit is unbounded. *)
Definition within (n : Z) (limit : option Z) : Prop :=
  match limit with
  | Some l => (n <= l)%Z
  | None => True
  end.

(** The count [n] exceeds the non-nil limit: the test
    [limit != nil && n > limit] of the budget gate. *)
Definition over_limit (n : Z) (limit : option Z) : Prop :=
  exists l, limit = Some l /\ (l < n)%Z.

(** The step reached Ready: [Execute] returned true with the step in
    state Ready. *)
Definition Infra_ready (out : Outcome bool * InfraStep.t * list Event)
  : Prop :=
  out.1.1 = Returned true
  /\ State (InfraStep.Meta out.1.2) = V1.StateReady.

(** [StartApply] was never called. *)
Definition no_apply (tr : list Event) : Prop :=
  forall env dir, CallStartApply env dir ∉ tr.

(** The last thing reported through [usink.Update]. *)
Definition is_Update (e : Event) : bool :=
  match e with
  | Update _ _ _ _ => true
  | _ => false
  end.

Definition last_Update (tr : list Event) : option Event :=
  last (List.filter is_Update tr).

(** The trace of [if cmd != nil { cmd.Wait() ... }]. *)
Definition wait_events (cmd : option Terraform.Cmd) (msg : string)
  : list Event :=
  match cmd with
  | Some c =>
      CallWait :: match Terraform.Wait c with
                  | Some err => [LogError err msg]
                  | None => []
                  end
  | None => []
  end.

(** Events that are neither an update nor a call of [StartApply]. *)
Definition plain (e : Event) : Prop :=
  match e with
  | Update _ _ _ _ | CallStartApply _ _ => False
  | _ => True
  end.

(** Events other than a call of [StartApply] and an update that reports
    another state than Running. *)
Definition calm (e : Event) : Prop :=
  match e with
  | CallStartApply _ _ => False
  | Update m _ _ _ => State m = V1.StateRunning
  | _ => True
  end.

(** Events other than an update that reports another state than
    Running. *)
Definition steady (e : Event) : Prop :=
  match e with
  | Update m _ _ _ => State m = V1.StateRunning
  | _ => True
  end.

(** The file writes of a trace. *)
Definition is_write (e : Event) : bool :=
  match e with
  | WriteFile _ _ => true
  | _ => false
  end.

(** The execution gets past the budget gate: the plan succeeds with
    counts that are not all zero and within their limits. *)
Definition Infra_applies (env : list string) (st : InfraStep.t)
    (sp : Cloud.ServicePrincipal) (tfr : Terraform.TFResult) : Prop :=
  let b := V1.Budget (Infra (InfraStep.Values st)) in
  Infra_plans env st sp tfr
  /\ ~ (Terraform.PlanAdded tfr = 0 /\ Terraform.PlanChanged tfr = 0
        /\ Terraform.PlanDeleted tfr = 0)%Z
  /\ within (Terraform.PlanAdded tfr) (V1.AddLimit b)
  /\ within (Terraform.PlanChanged tfr) (V1.UpdateLimit b)
  /\ within (Terraform.PlanDeleted tfr) (V1.DeleteLimit b).

(** The execution of the Destroy step [st] gets as far as starting the
    destroy: the templates expand and [init] reports no error. *)
Definition Destroy_inits (env : list string) (st : DestroyStep.t) : Prop :=
  tmplt_ExpandAll (DestroyStep.SourcePath st) ".tmplt"
    (DestroyStep.Values st) = None
  /\ Terraform.Errors
       (Terraform.Init (DestroyStep.Terraform_ st) env
          (DestroyStep.SourcePath st)) = [].

(** *** More vocabulary *)

(** The events of writing a file with [writeText]: making the log
    directory, the write itself, and the log line of a failure of
    either. *)
Definition filing (e : Event) : Prop :=
  match e with
  | MkdirAll _ | WriteFile _ _ => True
  | LogInfo msg (Some _) => msg = "InitStep"
  | _ => False
  end.

(** How an execution reports: [final] is the step's metadata when
    [Execute] is done. When [Execute] returns, the step is Ready if it
    returns true and in Error if it returns false, one last update reported
    that state, every update before it reported Running and there is one,
    and after it nothing happens but the writing of files: no update, no
    call of a collaborator, nothing to the info sink. When [Execute]
    panics, it is on a nil pointer, with the step Running and nothing but
    Running reported. *)
Definition reported (final : Metaa) (out : Outcome bool) (tr : list Event)
  : Prop :=
  match out with
  | Returned b =>
      State final = (if b then V1.StateReady else V1.StateError)
      /\ exists evs a c d tail,
           tr = evs ++ Update final a c d :: tail
           /\ Forall steady evs
           /\ (exists m0 a0 c0 d0, Update m0 a0 c0 d0 ∈ evs)
           /\ Forall filing tail
  | Panicked msg =>
      msg = nil_deref
      /\ State final = V1.StateRunning
      /\ Forall steady tr
  end.

(** The calls of the collaborators in a trace: the template expander, the
    cloud, terraform and the handle of the terraform process. *)
Definition is_call (e : Event) : bool :=
  match e with
  | CallExpandAll _ _ | CallLogin | CallInit _ _ | CallPlan _ _
  | CallStartApply _ _ | CallStartDestroy _ _ | CallWait => true
  | _ => false
  end.

Definition calls (tr : list Event) : list Event := List.filter is_call tr.

(** What a trace sends to the info sink. *)
Definition is_Info (e : Event) : bool :=
  match e with
  | Info _ _ | Warning _ _ => true
  | _ => false
  end.

Definition infos (tr : list Event) : list Event := List.filter is_Info tr.

(** The files a trace writes, in order. *)
Definition writes (tr : list Event) : list Event := List.filter is_write tr.

(** The file [name] of the log directory under [dir]. *)
Definition log_file (dir name : string) : string :=
  filepath_Join (filepath_Join dir "log") name.

(** The Infra step [st] gets as far as terraform init: the templates
    expand and the login succeeds as [sp]. *)
Definition Infra_logs_in (st : InfraStep.t) (sp : Cloud.ServicePrincipal)
  : Prop :=
  tmplt_ExpandAll (InfraStep.SourcePath st) ".tmplt" (InfraStep.Values st)
    = None
  /\ Cloud.Login (InfraStep.Cloud_ st) = (Some sp, None).

(** The Destroy step reached Ready: [Execute] returned true with the step
    in state Ready. *)
Definition Destroy_ready (out : Outcome bool * DestroyStep.t * list Event)
  : Prop :=
  out.1.1 = Returned true
  /\ State (DestroyStep.Meta out.1.2) = V1.StateReady.

(** The destroy succeeds: it starts, delivers at least one record, and the
    last record carries no error. *)
Definition Destroy_succeeds (env : list string) (st : DestroyStep.t) : Prop :=
  exists cmd ch r,
    Terraform.StartDestroy (DestroyStep.Terraform_ st) env
      (DestroyStep.SourcePath st) = (cmd, ch, None)
    /\ last ch = Some r
    /\ Terraform.AErrors r = [].

(** What [Execute] leaves alone in an Infra step: its parameters and the
    identity and hash of its metadata. *)
Definition Infra_same_step (st st' : InfraStep.t) : Prop :=
  InfraStep.Values st' = InfraStep.Values st
  /\ InfraStep.SourcePath st' = InfraStep.SourcePath st
  /\ InfraStep.Cloud_ st' = InfraStep.Cloud_ st
  /\ InfraStep.Terraform_ st' = InfraStep.Terraform_ st
  /\ ID_ (InfraStep.Meta st') = ID_ (InfraStep.Meta st)
  /\ Hash (InfraStep.Meta st') = Hash (InfraStep.Meta st).

Definition Destroy_same_step (st st' : DestroyStep.t) : Prop :=
  DestroyStep.Values st' = DestroyStep.Values st
  /\ DestroyStep.SourcePath st' = DestroyStep.SourcePath st
  /\ DestroyStep.Cloud_ st' = DestroyStep.Cloud_ st
  /\ DestroyStep.Terraform_ st' = DestroyStep.Terraform_ st
  /\ ID_ (DestroyStep.Meta st') = ID_ (DestroyStep.Meta st)
  /\ Hash (DestroyStep.Meta st') = Hash (DestroyStep.Meta st).

(** The counters of a step. *)
Definition Infra_counts (st : InfraStep.t) : Z * Z * Z :=
  (InfraStep.Added st, InfraStep.Changed st, InfraStep.Deleted st).

Definition Destroy_counts (st : DestroyStep.t) : Z * Z * Z :=
  (DestroyStep.Added st, DestroyStep.Changed st, DestroyStep.Deleted st).

End Execute.

End Step.

(** ** pkg/source *)

Module Source.

(** Modelled from the spec: the workspace handle returned by the sourcer. *)
Record Workspace := {
  Path : string;
  Hash : string;
  Synced : bool
}.

End Source.

(** ** pkg/plan *)

Module Plan.

Import Types.

(** [Workspace(nsn, name)] returns [(workspace, ok)]. *)
Record Sourcer := {
  Workspace : NamespacedName -> string -> Source.Workspace * bool
}.

(** The arguments [hash] is called with ([args ...interface{}]). *)
Inductive HashArg :=
| HString (s : string)
| HInfraSpec (i : V1.InfraSpec)
| HClusterInfras (l : list V1.ClusterInfraSpec)
| HStrings (l : list string)
| HValues (m : gmap string string).

(** [range] over a map visits every entry once, in an unspecified order. *)
Definition enumerates {V}
    (range_map : gmap string V -> list (string * V)) : Prop :=
  forall m, range_map m ≡ₚ map_to_list m.

(** [strconv.FormatUint(i, 16)] *)
Definition FormatUint16 (i : N) : string :=
  NilZero.string_of_uint (N.to_hex_uint i).

(** [s[lo:]] on a string: panics unless [0 <= lo <= len(s)]. *)
Definition slice_from (s : string) (lo : Z) : Outcome string :=
  if ((lo <? 0) || (Z.of_nat (String.length s) <? lo))%Z
  then Panicked slice_bounds
  else Returned (String.substring (Z.to_nat lo)
                   (String.length s - Z.to_nat lo) s).

(** PrefixedClusterName returns the name as it's used in Azure.
    NB. the same algo is in terraform *)
Definition prefixedClusterName (resource env name : string) : Outcome string :=
  match slice_from env (Z.of_nat (String.length env) - 1) with
  | Panicked msg => Panicked msg
  | Returned t => Returned (t +:+ resource +:+ "001" +:+ env +:+ "-" +:+ name)
  end.

Definition stepMeta (nsn : NamespacedName) (clusterName : string)
    (typ : Step.StepType) (hash : string) : Step.Metaa :=
  {| Step.ID_ := {| Step.Type_ := typ;
                    Step.Namespace := Namespace nsn;
                    Step.Name := Name nsn;
                    Step.ClusterName := clusterName |};
     Step.Hash := hash;
     Step.State := "";
     Step.Msg := "" |}.

(** A pointer to a client of type [A] that the planner owns. The planner
    and the steps it builds hold the same pointer ([az := p.Azure] copies
    the pointer, not the client), so there is one client behind it; its
    state is kept with the planner. *)
Inductive ClientRef (A : Type) : Type := planner_client.

Arguments planner_client {A}.

Section Planner.

(** The clients the planner hands on to the steps it builds. [AZer] is the
    state of the Azure client, and [SetSubscription] what the one method
    the planner calls on it, [Azure.SetSubscription], does to that state;
    the other clients are only passed on. *)
Variables Kubectler AZer Addoner : Type.
Variable SetSubscription : AZer -> string -> AZer.

(** Modelled from the spec: the steps whose declarations are not part of
    the sources at hand; the fields are those of the struct literals in
    [buildCreatePlan]. *)
Record AKSPoolStep := {
  AKSPool_Metaa : Step.Metaa;
  AKSPool_ResourceGroup : string;
  AKSPool_Cluster : string;
  AKSPool_Version : string;
  AKSPool_Azure : ClientRef AZer
}.

Record KubeconfigStep := {
  Kubeconfig_Metaa : Step.Metaa;
  Kubeconfig_TFPath : string;
  Kubeconfig_ClusterName : string;
  Kubeconfig_KCPath : string;
  Kubeconfig_Access : string;
  Kubeconfig_Cloud : Cloud.Cloud;
  Kubeconfig_Terraform : Terraform.Terraformer;
  Kubeconfig_Kubectl : Kubectler
}.

Record AKSAddonPreflightStep := {
  Preflight_Metaa : Step.Metaa;
  Preflight_KCPath : string;
  Preflight_Kubectl : Kubectler
}.

Record AddonStep := {
  Addon_Metaa : Step.Metaa;
  Addon_SourcePath : string;
  Addon_KCPath : string;
  Addon_MasterVaultPath : string;
  Addon_JobPaths : list string;
  Addon_Values : gmap string string;
  Addon_Addon : Addoner
}.

(** The [step.Step] interface over its six implementations. *)
Inductive Step_ :=
| OfInfra (s : Step.InfraStep.t)
| OfDestroy (s : Step.DestroyStep.t)
| OfAKSPool (s : AKSPoolStep)
| OfKubeconfig (s : KubeconfigStep)
| OfAKSAddonPreflight (s : AKSAddonPreflightStep)
| OfAddon (s : AddonStep).

Definition Meta (st : Step_) : Step.Metaa :=
  match st with
  | OfInfra s => Step.InfraStep.Meta s
  | OfDestroy s => Step.DestroyStep.Meta s
  | OfAKSPool s => AKSPool_Metaa s
  | OfKubeconfig s => Kubeconfig_Metaa s
  | OfAKSAddonPreflight s => Preflight_Metaa s
  | OfAddon s => Addon_Metaa s
  end.

Definition plan := list Step_.

(** Modelled from the spec: the planner; [currentPlans] is the in-memory
    table of plans keyed by NSN, [AllowedStepTypes] the allow-list.
    [Azure_] is the state of the Azure client the planner points at, which
    is also the client of every AKSPool step the planner has built. *)
Record Planner := {
  Cloud_ : Cloud.Cloud;
  Terraform_ : Terraform.Terraformer;
  Kubectl_ : Kubectler;
  Azure_ : AZer;
  Addon_ : Addoner;
  AllowedStepTypes : gset Step.StepType;
  currentPlans : gmap NamespacedName plan
}.

Definition with_currentPlans (p : Planner)
    (m : gmap NamespacedName plan) : Planner :=
  {| Cloud_ := Cloud_ p; Terraform_ := Terraform_ p;
     Kubectl_ := Kubectl_ p; Azure_ := Azure_ p; Addon_ := Addon_ p;
     AllowedStepTypes := AllowedStepTypes p; currentPlans := m |}.

(** [p.Azure.SetSubscription(...)] through any copy of the pointer. *)
Definition with_Azure (p : Planner) (az : AZer) : Planner :=
  {| Cloud_ := Cloud_ p; Terraform_ := Terraform_ p;
     Kubectl_ := Kubectl_ p; Azure_ := az; Addon_ := Addon_ p;
     AllowedStepTypes := AllowedStepTypes p;
     currentPlans := currentPlans p |}.

(** What the package takes from elsewhere: [hashstructure.Hash],
    [filepath.Join], the secret resolution [vaultInfraValues], the status
    key [ID.ShortName] and the order in which [range] visits
    [status.Steps], which enumerates the map. *)
Variable hashstructure_Hash : list HashArg -> N * option error.
Variable filepath_Join : string -> string -> string.
Variable vaultInfraValues :
  V1.InfraSpec -> Cloud.Cloud -> V1.InfraSpec * option error.
Variable ShortName : Step.ID -> string.
Variable range_steps :
  gmap string V1.StepStatus -> list (string * V1.StepStatus).

(** Hash returns a string that is unique for args.
    Errors are logged but not returned. *)
Definition hash (args : list HashArg) : string :=
  let '(i, err) := hashstructure_Hash args in
  match err with
  | Some _ => "hasherror"
  | None => FormatUint16 i
  end.

(** StepFilter returns the names of the steps that match state. *)
Definition stepFilter (status : V1.EnvironmentStatus)
    (state : V1.StepState) : list string :=
  (filter (fun ns => V1.State ns.2 = state)
     (range_steps (V1.Steps status))).*1.

(** PlanFilter returns plan with only the steps that are allowed.
    If allowed is nil plan is returned as-is. *)
Definition planFilter (pl : plan) (allowed : gset Step.StepType) : plan :=
  if bool_decide (size allowed = 0) then pl
  else filter (fun v => Step.Type_ (Step.ID_ (Meta v)) ∈ allowed) pl.

(** BuildDestroyPlan builds a plan to delete a target environment.
    Returns false if workspaces are not prepped with sources. *)
Definition buildDestroyPlan (p : Planner) (nsn : NamespacedName)
    (src : Sourcer) (ispec : V1.InfraSpec) (cspec : list V1.ClusterSpec)
  : plan * bool :=
  let '(tfw, ok) := Workspace src nsn "" in
  if negb ok || bool_decide (Source.Hash tfw = "") then ([], false)
  else
    let tfPath := filepath_Join (Source.Path tfw) (V1.Main ispec) in
    let h := hash [HString (Source.Hash tfw)] in
    ([OfDestroy
        {| Step.DestroyStep.Metaa_ := stepMeta nsn "" Step.TypeDestroy h;
           Step.DestroyStep.Values :=
             {| Step.Infra := ispec; Step.Clusters := cspec |};
           Step.DestroyStep.SourcePath := tfPath;
           Step.DestroyStep.Cloud_ := Cloud_ p;
           Step.DestroyStep.Terraform_ := Terraform_ p;
           Step.DestroyStep.Added := 0;
           Step.DestroyStep.Changed := 0;
           Step.DestroyStep.Deleted := 0 |}], true).

(** The four steps [buildCreatePlan] appends for the cluster [cl] whose
    workspace is [cw]; [cluster] is the prefixed cluster name. The AKSPool
    step gets [az], the copy of the planner's pointer to the Azure
    client. *)
Definition clusterSteps (p : Planner) (nsn : NamespacedName)
    (ispec : V1.InfraSpec) (tfw : Source.Workspace) (tfPath h : string)
    (cl : V1.ClusterSpec) (cw : Source.Workspace) (cluster : string)
  : plan :=
  let kcPath := filepath_Join (Source.Path cw) "kubeconfig" in
  let mvPath := filepath_Join (Source.Path cw) (V1.MKV (V1.Addons cl)) in
  let az : ClientRef AZer := planner_client in
  [ OfAKSPool
      {| AKSPool_Metaa :=
           stepMeta nsn (V1.Name cl) Step.TypeAKSPool
             (hash [HString (Source.Hash tfw);
                    HString (V1.ResourceGroup (V1.AZ ispec));
                    HString (V1.Version (V1.Infra cl))]);
         AKSPool_ResourceGroup := V1.ResourceGroup (V1.AZ ispec);
         AKSPool_Cluster := cluster;
         AKSPool_Version := V1.Version (V1.Infra cl);
         AKSPool_Azure := az |};
    OfKubeconfig
      {| Kubeconfig_Metaa :=
           stepMeta nsn (V1.Name cl) Step.TypeKubeconfig
             (hash [HString (Source.Hash tfw)]);
         Kubeconfig_TFPath := tfPath;
         Kubeconfig_ClusterName := V1.Name cl;
         Kubeconfig_KCPath := kcPath;
         Kubeconfig_Access := V1.Access (V1.State_ ispec);
         Kubeconfig_Cloud := Cloud_ p;
         Kubeconfig_Terraform := Terraform_ p;
         Kubeconfig_Kubectl := Kubectl_ p |};
    OfAKSAddonPreflight
      {| Preflight_Metaa :=
           stepMeta nsn (V1.Name cl) Step.TypeAKSAddonPreflight h;
         Preflight_KCPath := kcPath;
         Preflight_Kubectl := Kubectl_ p |};
    OfAddon
      {| Addon_Metaa :=
           stepMeta nsn (V1.Name cl) Step.TypeAddons
             (hash [HString (Source.Hash cw);
                    HStrings (V1.Jobs (V1.Addons cl));
                    HValues (V1.X (V1.Addons cl))]);
         Addon_SourcePath := Source.Path cw;
         Addon_KCPath := kcPath;
         Addon_MasterVaultPath := mvPath;
         Addon_JobPaths := V1.Jobs (V1.Addons cl);
         Addon_Values := V1.X (V1.Addons cl);
         Addon_Addon := Addon_ p |} ].

(** The loop [for _, cl := range cspec] of [buildCreatePlan], [pl] being
    the plan built so far. [az.SetSubscription] changes the client the
    planner points at, for every cluster whose workspace is ready and
    before [prefixedClusterName] is called; the planner is returned as the
    loop leaves it, also when it returns false or panics. *)
Fixpoint buildCreatePlan_loop (p : Planner) (nsn : NamespacedName)
    (src : Sourcer) (ispec : V1.InfraSpec) (tfw : Source.Workspace)
    (tfPath h : string) (cspec : list V1.ClusterSpec) (pl : plan)
  : Outcome (plan * bool) * Planner :=
  match cspec with
  | [] => (Returned (pl, true), p)
  | cl :: rest =>
      let '(cw, ok) := Workspace src nsn (V1.Name cl) in
      if negb ok || bool_decide (Source.Hash cw = "")
      then (Returned ([], false), p)
      else
        let p :=
          with_Azure p
            (SetSubscription (Azure_ p) (V1.Subscription (V1.AZ ispec))) in
        match prefixedClusterName "aks" (V1.EnvName ispec) (V1.Name cl) with
        | Panicked msg => (Panicked msg, p)
        | Returned cluster =>
            buildCreatePlan_loop p nsn src ispec tfw tfPath h rest
              (pl ++ clusterSteps p nsn ispec tfw tfPath h cl cw cluster)
        end
  end.

(** BuildCreatePlan builds a plan to create or update a target
    environment. It returns the plan and the planner with its Azure
    client as the call leaves it. *)
Definition buildCreatePlan (p : Planner) (nsn : NamespacedName)
    (src : Sourcer) (ispec : V1.InfraSpec) (cspec : list V1.ClusterSpec)
  : Outcome (plan * bool) * Planner :=
  let '(tfw, ok) := Workspace src nsn "" in
  if negb ok || negb (Source.Synced tfw) then (Returned ([], false), p)
  else
    let tfPath := filepath_Join (Source.Path tfw) (V1.Main ispec) in
    let cspecInfra := map V1.Infra cspec in
    let h := hash [HString (Source.Hash tfw); HInfraSpec ispec;
                   HClusterInfras cspecInfra] in
    let pl :=
      [OfInfra
         {| Step.InfraStep.Metaa_ := stepMeta nsn "" Step.TypeInfra h;
            Step.InfraStep.Values :=
              {| Step.Infra := ispec; Step.Clusters := cspec |};
            Step.InfraStep.SourcePath := tfPath;
            Step.InfraStep.Cloud_ := Cloud_ p;
            Step.InfraStep.Terraform_ := Terraform_ p;
            Step.InfraStep.Added := 0;
            Step.InfraStep.Changed := 0;
            Step.InfraStep.Deleted := 0 |}] in
    buildCreatePlan_loop p nsn src ispec tfw tfPath h cspec pl.

(** BuildPlan builds a plan containing the steps to create/update/delete a
    target environment. An environment is identified by nsn.
    Returns false if not all prerequisites are fulfilled. What the builder
    did to the Azure client stays, whatever it returns. *)
Definition buildPlan (p : Planner) (nsn : NamespacedName) (src : Sourcer)
    (destroy : bool) (ispec : V1.InfraSpec) (cspec : list V1.ClusterSpec)
  : Outcome bool * Planner :=
  let '(built, p) :=
    if destroy then (Returned (buildDestroyPlan p nsn src ispec cspec), p)
    else buildCreatePlan p nsn src ispec cspec in
  match built with
  | Panicked msg => (Panicked msg, p)
  | Returned (pl, ok) =>
      if negb ok then (Returned false, p)
      else
        (Returned true,
         with_currentPlans p
           (<[nsn := planFilter pl (AllowedStepTypes p)]> (currentPlans p)))
  end.

(** Modelled from the spec: [currentPlan] is not part of the sources at
    hand; it looks the plan of [nsn] up in the in-memory table. *)
Definition currentPlan (p : Planner) (nsn : NamespacedName) : option plan :=
  currentPlans p !! nsn.

(** Modelled from the spec: [currentPlanStep] is not part of the sources
    at hand; it returns the step of the in-memory plan of [nsn] whose
    [ShortName] is [name], if there is one. *)
Definition currentPlanStep (p : Planner) (nsn : NamespacedName)
    (name : string) : option Step_ :=
  match currentPlan p nsn with
  | Some pl =>
      List.find (fun st => bool_decide (ShortName (Step.ID_ (Meta st)) = name))
        pl
  | None => None
  end.

(** The [return] statements of [selectStep]. *)
Inductive SelectExit :=
| NoPlan                      (* line 218: nil, "expected plan for" *)
| FirstSeen (st : Step_)      (* line 228: st, nil *)
| NoRetry                     (* line 245: nil, nil *)
| Changed (st : Step_)        (* line 248: st, nil *)
| WalkedAll.                  (* line 251: nil, nil *)

(** The values each [return] of [selectStep] hands back. *)
Definition SelectExit_values (nsn : NamespacedName) (e : SelectExit)
  : option Step_ * option error :=
  match e with
  | NoPlan =>
      (None, Some ("expected plan for: " +:+ Namespace nsn +:+ "/"
                   +:+ Name nsn))
  | FirstSeen st => (Some st, None)
  | NoRetry => (None, None)
  | Changed st => (Some st, None)
  | WalkedAll => (None, None)
  end.

(** The loop [for _, st := range pl] of [selectStep]. *)
Fixpoint selectStep_walk (status : V1.EnvironmentStatus) (pl : plan)
  : SelectExit :=
  match pl with
  | [] => WalkedAll
  | st :: rest =>
      let id := Step.ID_ (Meta st) in
      (* Get current step state. *)
      match V1.Steps status !! ShortName id with
      | None =>
          (* first time this step is seen *)
          FirstSeen st
      | Some current =>
          if bool_decide (V1.Hash current = Step.Hash (Meta st))
          then selectStep_walk status rest
          else if bool_decide (V1.State current = V1.StateError)
          then NoRetry (* no budget to retry *)
          else Changed st
      end
  end.

(** SelectStep returns the next step to execute from current plan, here
    with the [return] statement that is taken. *)
Definition selectStepAt (p : Planner) (nsn : NamespacedName)
    (status : V1.EnvironmentStatus) : SelectExit :=
  match currentPlan p nsn with
  | None => NoPlan
  | Some pl => selectStep_walk status pl
  end.

Definition selectStep (p : Planner) (nsn : NamespacedName)
    (status : V1.EnvironmentStatus) : option Step_ * option error :=
  SelectExit_values nsn (selectStepAt p nsn status).

(** The [return] statements of [NextStep]. *)
Inductive NextExit :=
| ErrorGate                       (* line 27: nil, nil *)
| RunningFound (st : Step_)       (* line 35: st, nil *)
| VaultError (err : error)        (* line 43: nil, "vault ref: ..." *)
| NotReady                        (* line 48: nil, nil *)
| RunningRebuilt (st : Step_)     (* line 55: st, nil *)
| Selected (e : SelectExit).      (* line 66: st, err of selectStep *)

Definition NextExit_values (nsn : NamespacedName) (e : NextExit)
  : option Step_ * option error :=
  match e with
  | ErrorGate => (None, None)
  | RunningFound st => (Some st, None)
  | VaultError err => (None, Some err)
  | NotReady => (None, None)
  | RunningRebuilt st => (Some st, None)
  | Selected e => SelectExit_values nsn e
  end.

(** [if len(running) > 0 { st, ok := p.currentPlanStep(nsn, running[0]) }] *)
Definition runningStep (p : Planner) (nsn : NamespacedName)
    (running : list string) : option Step_ :=
  match running with
  | r0 :: _ => currentPlanStep p nsn r0
  | [] => None
  end.

(** NextStep decides what Step should be executed next, here with the
    [return] statement that is taken and the planner as the call leaves
    it. *)
Definition NextStepAt (p : Planner) (nsn : NamespacedName) (src : Sourcer)
    (destroy : bool) (ispec : V1.InfraSpec) (cspec : list V1.ClusterSpec)
    (status : V1.EnvironmentStatus) : Outcome NextExit * Planner :=
  match stepFilter status V1.StateError with
  | _ :: _ =>
      (* a step is in error state (it needs to be reset to continue) *)
      (Returned ErrorGate, p)
  | [] =>
      let running := stepFilter status V1.StateRunning in
      match runningStep p nsn running with
      | Some st =>
          (* a step is already running, return it. *)
          (Returned (RunningFound st), p)
      | None =>
          (* Replace references to secret values with the value from
             vault. *)
          let '(ispec, err) := vaultInfraValues ispec (Cloud_ p) in
          match err with
          | Some err => (Returned (VaultError ("vault ref: " +:+ err)), p)
          | None =>
              match buildPlan p nsn src destroy ispec cspec with
              | (Panicked msg, p) => (Panicked msg, p)
              | (Returned false, p) => (Returned NotReady, p)
              | (Returned true, p) =>
                  match runningStep p nsn running with
                  | Some st =>
                      (* a step is already running and current plan is
                         just built. *)
                      (Returned (RunningRebuilt st), p)
                  | None => (Returned (Selected (selectStepAt p nsn status)), p)
                  end
              end
          end
      end
  end.

(** NextStep as its callers see it: the step and the error it returns. *)
Definition NextStep (p : Planner) (nsn : NamespacedName) (src : Sourcer)
    (destroy : bool) (ispec : V1.InfraSpec) (cspec : list V1.ClusterSpec)
    (status : V1.EnvironmentStatus)
  : Outcome (option Step_ * option error) * Planner :=
  match NextStepAt p nsn src destroy ispec cspec status with
  | (Returned e, p) => (Returned (NextExit_values nsn e), p)
  | (Panicked msg, p) => (Panicked msg, p)
  end.

(** No entry of [status.Steps] is in state [state]. *)
Definition no_step_in (status : V1.EnvironmentStatus)
    (state : V1.StepState) : Prop :=
  map_Forall (fun _ s => V1.State s <> state) (V1.Steps status).

(** The persisted entry of the step has the step's hash. *)
Definition up_to_date (status : V1.EnvironmentStatus) (st : Step_) : Prop :=
  exists cur,
    V1.Steps status !! ShortName (Step.ID_ (Meta st)) = Some cur
    /\ V1.Hash cur = Step.Hash (Meta st).

(** The step has no persisted entry, or one with another hash. *)
Definition to_run (status : V1.EnvironmentStatus) (st : Step_) : Prop :=
  V1.Steps status !! ShortName (Step.ID_ (Meta st)) = None
  \/ exists cur,
       V1.Steps status !! ShortName (Step.ID_ (Meta st)) = Some cur
       /\ V1.Hash cur <> Step.Hash (Meta st).

(** The Azure client after [k] calls of [SetSubscription] with the
    subscription [sub]. *)
Definition subscribed (sub : string) (k : nat) (az : AZer) : AZer :=
  Nat.iter k (fun az => SetSubscription az sub) az.

(** The kind and the cluster of a step. *)
Definition kind (st : Step_) : Step.StepType * string :=
  (Step.Type_ (Step.ID_ (Meta st)), Step.ClusterName (Step.ID_ (Meta st))).

(** The four kinds of step a cluster contributes, in plan order. *)
Definition cluster_kinds (cl : V1.ClusterSpec)
  : list (Step.StepType * string) :=
  [(Step.TypeAKSPool, V1.Name cl); (Step.TypeKubeconfig, V1.Name cl);
   (Step.TypeAKSAddonPreflight, V1.Name cl); (Step.TypeAddons, V1.Name cl)].

End Planner.

Arguments Meta {Kubectler AZer Addoner} st.
Arguments OfInfra {Kubectler AZer Addoner} s.
Arguments OfDestroy {Kubectler AZer Addoner} s.
Arguments currentPlans {Kubectler AZer Addoner} p.
Arguments AllowedStepTypes {Kubectler AZer Addoner} p.
Arguments Cloud_ {Kubectler AZer Addoner} p.
Arguments Azure_ {Kubectler AZer Addoner} p.
Arguments with_Azure {Kubectler AZer Addoner} p az.
Arguments currentPlan {Kubectler AZer Addoner} p nsn.
Arguments planFilter {Kubectler AZer Addoner} pl allowed.
Arguments NoPlan {Kubectler AZer Addoner}.
Arguments FirstSeen {Kubectler AZer Addoner} st.
Arguments NoRetry {Kubectler AZer Addoner}.
Arguments Changed {Kubectler AZer Addoner} st.
Arguments WalkedAll {Kubectler AZer Addoner}.
Arguments ErrorGate {Kubectler AZer Addoner}.
Arguments RunningFound {Kubectler AZer Addoner} st.
Arguments VaultError {Kubectler AZer Addoner} err.
Arguments NotReady {Kubectler AZer Addoner}.
Arguments RunningRebuilt {Kubectler AZer Addoner} st.
Arguments Selected {Kubectler AZer Addoner} e.
Arguments SelectExit_values {Kubectler AZer Addoner} nsn e.
Arguments NextExit_values {Kubectler AZer Addoner} nsn e.
Arguments kind {Kubectler AZer Addoner} st.

(** The workspace of cluster [cl] is there and has a hash. *)
Definition cluster_ready (src : Sourcer) (nsn : NamespacedName)
    (cl : V1.ClusterSpec) : Prop :=
  exists cw, Workspace src nsn (V1.Name cl) = (cw, true)
             /\ Source.Hash cw <> "".

(** The infrastructure workspace is there and synced. *)
Definition infra_synced (src : Sourcer) (nsn : NamespacedName) : Prop :=
  exists tfw, Workspace src nsn "" = (tfw, true)
              /\ Source.Synced tfw = true.

End Plan.

(** * Test doubles

    Concrete collaborators in the manner of the fakes that
    [controllers/main_test.go] wires into the planner (TerraformFake,
    cloud.Fake, ...), and the environments of the design document's
    scenarios. *)

Module Fixtures.

Import Types.

(** [filepath.Join] on clean, non-empty elements. *)
Definition join (a b : string) : string := a +:+ "/" +:+ b.

Definition mkdir_ok (path : string) : option error := None.
Definition write_ok (path text : string) : option error := None.
Definition expand_ok (dir suffix : string) (values : Step.InfraValues)
  : option error := None.

(** The entries of the map, as KEY=VALUE, after the given environment. *)
Definition merge (env : list string) (m : gmap string string) : list string :=
  env ++ ((fun kv => kv.1 +:+ "=" +:+ kv.2) <$> map_to_list m).

Definition range_listed {V} (m : gmap string V) : list (string * V) :=
  map_to_list m.

(** Modelled from the spec: [ShortName] is [<type>[.<clusterName>]]. *)
Definition shortName (id : Step.ID) : string :=
  if bool_decide (Step.ClusterName id = "") then Step.Type_ id
  else Step.Type_ id +:+ "." +:+ Step.ClusterName id.

(** A hash double: the number of arguments and the lengths of the strings
    among them. *)
Definition hash_fake (args : list Plan.HashArg) : N * option error :=
  (N.of_nat (fold_left (fun n a =>
       match a with
       | Plan.HString s => n + 1 + String.length s
       | _ => n + 1
       end) args 0), None).

Definition vault_ok (ispec : V1.InfraSpec) (cl : Cloud.Cloud)
  : V1.InfraSpec * option error := (ispec, None).

Definition vault_fails (ispec : V1.InfraSpec) (cl : Cloud.Cloud)
  : V1.InfraSpec * option error := (ispec, Some "secret not found").

Definition set_subscription (az : unit) (sub : string) : unit := az.

Definition cloud_fake : Cloud.Cloud :=
  {| Cloud.Login :=
       (Some {| Cloud.ClientID := "id"; Cloud.ClientSecret := "secret";
                Cloud.Tenant := "tenant" |}, None) |}.

(** A terraform double: [init] and [plan] succeed, [plan] reports the
    counts [(a, c, d)], and apply and destroy deliver the records [recs]
    with a nil [cmd]. *)
Definition tf_fake (a c d : Z) (recs : list Terraform.TFApplyResult)
  : Terraform.Terraformer :=
  {| Terraform.Init := fun _ _ =>
       {| Terraform.Text := "Initialized"; Terraform.Errors := [];
          Terraform.PlanAdded := 0; Terraform.PlanChanged := 0;
          Terraform.PlanDeleted := 0 |};
     Terraform.Plan := fun _ _ =>
       {| Terraform.Text := "Plan"; Terraform.Errors := [];
          Terraform.PlanAdded := a; Terraform.PlanChanged := c;
          Terraform.PlanDeleted := d |};
     Terraform.StartApply := fun _ _ => (None, recs, None);
     Terraform.StartDestroy := fun _ _ => (None, recs, None) |}.

Definition record_done (text : string) (a c d : Z) : Terraform.TFApplyResult :=
  {| Terraform.Object := ""; Terraform.Action := "";
     Terraform.AText := text; Terraform.AErrors := [];
     Terraform.TotalAdded := a; Terraform.TotalChanged := c;
     Terraform.TotalDestroyed := d |}.

Definition testNSN : NamespacedName :=
  {| Namespace := "default"; Name := "env314" |}.

Definition no_budget : V1.InfraBudget :=
  {| V1.AddLimit := None; V1.UpdateLimit := None; V1.DeleteLimit := None |}.

Definition delete_limit (l : Z) : V1.InfraBudget :=
  {| V1.AddLimit := None; V1.UpdateLimit := None; V1.DeleteLimit := Some l |}.

Definition add_limit (l : Z) : V1.InfraBudget :=
  {| V1.AddLimit := Some l; V1.UpdateLimit := None; V1.DeleteLimit := None |}.

Definition ispec (b : V1.InfraBudget) : V1.InfraSpec :=
  {| V1.EnvName := "env"; V1.Main := "main";
     V1.AZ := {| V1.Subscription := "sub"; V1.ResourceGroup := "rg" |};
     V1.State_ := {| V1.Access := "key" |};
     V1.Budget := b |}.

Definition cluster_k : V1.ClusterSpec :=
  {| V1.Name := "k";
     V1.Infra := {| V1.Version := "1.18" |};
     V1.Addons := {| V1.MKV := "mkv"; V1.Jobs := ["job"]; V1.X := ∅ |} |}.

Definition meta (typ : Step.StepType) : Step.Metaa :=
  Plan.stepMeta testNSN "" typ "1".

(** An Infra step on [/ws] with budget [b] whose terraform plans
    [(a, c, d)] and applies with the records [recs]. *)
Definition infra_step (b : V1.InfraBudget) (a c d : Z)
    (recs : list Terraform.TFApplyResult) : Step.InfraStep.t :=
  {| Step.InfraStep.Metaa_ := meta Step.TypeInfra;
     Step.InfraStep.Values :=
       {| Step.Infra := ispec b; Step.Clusters := [] |};
     Step.InfraStep.SourcePath := "/ws";
     Step.InfraStep.Cloud_ := cloud_fake;
     Step.InfraStep.Terraform_ := tf_fake a c d recs;
     Step.InfraStep.Added := 0; Step.InfraStep.Changed := 0;
     Step.InfraStep.Deleted := 0 |}.

(** A Destroy step on [/ws] whose terraform destroys with the records
    [recs]. *)
Definition destroy_step (recs : list Terraform.TFApplyResult)
  : Step.DestroyStep.t :=
  {| Step.DestroyStep.Metaa_ := meta Step.TypeDestroy;
     Step.DestroyStep.Values :=
       {| Step.Infra := ispec no_budget; Step.Clusters := [] |};
     Step.DestroyStep.SourcePath := "/ws";
     Step.DestroyStep.Cloud_ := cloud_fake;
     Step.DestroyStep.Terraform_ := tf_fake 0 0 0 recs;
     Step.DestroyStep.Added := 0; Step.DestroyStep.Changed := 0;
     Step.DestroyStep.Deleted := 0 |}.

Definition Infra_Execute (st : Step.InfraStep.t) :=
  Step.run (Step.InfraStep_Execute join mkdir_ok write_ok expand_ok merge
              range_listed []) st.

Definition Destroy_Execute (st : Step.DestroyStep.t) :=
  Step.run (Step.DestroyStep_Execute join mkdir_ok write_ok expand_ok []) st.

(** The sourcer of the first scenario: the infrastructure workspace
    [/ws] with hash abc, synced, and the workspace of cluster k with hash
    k1. *)
Definition no_workspace : Source.Workspace :=
  {| Source.Path := ""; Source.Hash := ""; Source.Synced := false |}.

Definition sourcer : Plan.Sourcer :=
  {| Plan.Workspace := fun nsn name =>
       if bool_decide (name = "") then
         ({| Source.Path := "/ws"; Source.Hash := "abc";
             Source.Synced := true |}, true)
       else if bool_decide (name = "k") then
         ({| Source.Path := "/ws/k"; Source.Hash := "k1";
             Source.Synced := true |}, true)
       else (no_workspace, false) |}.

(** A sourcer that has no workspace at all. *)
Definition sourcer_empty : Plan.Sourcer :=
  {| Plan.Workspace := fun nsn name => (no_workspace, false) |}.

Definition planner : Plan.Planner unit unit unit :=
  {| Plan.Cloud_ := cloud_fake;
     Plan.Terraform_ := tf_fake 0 0 0 [];
     Plan.Kubectl_ := tt; Plan.Azure_ := tt; Plan.Addon_ := tt;
     Plan.AllowedStepTypes := ∅;
     Plan.currentPlans := ∅ |}.

Definition status_of (l : list (string * V1.StepStatus))
  : V1.EnvironmentStatus :=
  {| V1.Steps := list_to_map l |}.

Definition entry (state : V1.StepState) (hash : string) : V1.StepStatus :=
  {| V1.State := state; V1.Hash := hash; V1.Msg := "" |}.

Definition NextStep (vault : V1.InfraSpec -> Cloud.Cloud ->
                             V1.InfraSpec * option error) :=
  Plan.NextStep unit unit unit set_subscription hash_fake join vault
    shortName range_listed.

Definition NextStepAt (vault : V1.InfraSpec -> Cloud.Cloud ->
                               V1.InfraSpec * option error) :=
  Plan.NextStepAt unit unit unit set_subscription hash_fake join vault
    shortName range_listed.

(** The planner after it has built the plan of the first scenario. *)
Definition planned : Plan.Planner unit unit unit :=
  (Plan.buildPlan unit unit unit set_subscription hash_fake join planner
     testNSN sourcer false (ispec no_budget) [cluster_k]).2.

(** The status once the Infra step of that plan is Ready. *)
Definition status_infra_ready : V1.EnvironmentStatus :=
  status_of [("Infra", entry V1.StateReady "6")].

(** What [cloud_fake] logs in as and what [tf_fake a c d] plans. *)
Definition sp_fake : Cloud.ServicePrincipal :=
  {| Cloud.ClientID := "id"; Cloud.ClientSecret := "secret";
     Cloud.Tenant := "tenant" |}.

Definition plan_result (a c d : Z) : Terraform.TFResult :=
  {| Terraform.Text := "Plan"; Terraform.Errors := [];
     Terraform.PlanAdded := a; Terraform.PlanChanged := c;
     Terraform.PlanDeleted := d |}.

(** The [return] statement [selectStep] takes on that plan and status. *)
Definition selected : Plan.SelectExit unit unit unit :=
  Plan.selectStepAt unit unit unit shortName planned testNSN
    status_infra_ready.

(** The run of a Destroy step whose terraform delivers one final record. *)
Definition destroyed
  : Outcome bool * Step.DestroyStep.t * list Step.Event :=
  Destroy_Execute (destroy_step [record_done "Destroy complete" 0 0 3]).

(** *** Doubles that fail *)

Definition expand_fails (dir suffix : string) (values : Step.InfraValues)
  : option error := Some "no templates".

(** A cloud whose login fails, and one whose login returns nothing. *)
Definition cloud_down : Cloud.Cloud :=
  {| Cloud.Login := (None, Some "login failed") |}.

Definition cloud_nil : Cloud.Cloud := {| Cloud.Login := (None, None) |}.

(** A terraform double: [init] and [plan] report the given errors, [plan]
    reports the counts (1, 0, 0), and apply and destroy start with the
    error [start] and deliver the records [recs] with a nil [cmd]. *)
Definition tf_failing (init_errs plan_errs : list string)
    (start : option error) (recs : list Terraform.TFApplyResult)
  : Terraform.Terraformer :=
  {| Terraform.Init := fun _ _ =>
       {| Terraform.Text := "Initialized"; Terraform.Errors := init_errs;
          Terraform.PlanAdded := 0; Terraform.PlanChanged := 0;
          Terraform.PlanDeleted := 0 |};
     Terraform.Plan := fun _ _ =>
       {| Terraform.Text := "Plan"; Terraform.Errors := plan_errs;
          Terraform.PlanAdded := 1; Terraform.PlanChanged := 0;
          Terraform.PlanDeleted := 0 |};
     Terraform.StartApply := fun _ _ => (None, recs, start);
     Terraform.StartDestroy := fun _ _ => (None, recs, start) |}.

(** The last record of a run that failed. *)
Definition record_failed (text : string) (errs : list string)
  : Terraform.TFApplyResult :=
  {| Terraform.Object := "azurerm_resource_group.env";
     Terraform.Action := "creating";
     Terraform.AText := text; Terraform.AErrors := errs;
     Terraform.TotalAdded := 0; Terraform.TotalChanged := 0;
     Terraform.TotalDestroyed := 0 |}.

(** An Infra step and a Destroy step on [/ws] with the given cloud and
    terraform. *)
Definition infra_step_on (cl : Cloud.Cloud) (tf : Terraform.Terraformer)
  : Step.InfraStep.t :=
  {| Step.InfraStep.Metaa_ := meta Step.TypeInfra;
     Step.InfraStep.Values :=
       {| Step.Infra := ispec no_budget; Step.Clusters := [] |};
     Step.InfraStep.SourcePath := "/ws";
     Step.InfraStep.Cloud_ := cl;
     Step.InfraStep.Terraform_ := tf;
     Step.InfraStep.Added := 0; Step.InfraStep.Changed := 0;
     Step.InfraStep.Deleted := 0 |}.

Definition destroy_step_on (tf : Terraform.Terraformer)
  : Step.DestroyStep.t :=
  {| Step.DestroyStep.Metaa_ := meta Step.TypeDestroy;
     Step.DestroyStep.Values :=
       {| Step.Infra := ispec no_budget; Step.Clusters := [] |};
     Step.DestroyStep.SourcePath := "/ws";
     Step.DestroyStep.Cloud_ := cloud_fake;
     Step.DestroyStep.Terraform_ := tf;
     Step.DestroyStep.Added := 0; Step.DestroyStep.Changed := 0;
     Step.DestroyStep.Deleted := 0 |}.

(** The run of an Infra step whose templates do not expand. *)
Definition Infra_Execute_unexpanded (st : Step.InfraStep.t) :=
  Step.run (Step.InfraStep_Execute join mkdir_ok write_ok expand_fails merge
              range_listed []) st.

(** A spec without environment name. *)
Definition ispec_unnamed : V1.InfraSpec :=
  {| V1.EnvName := ""; V1.Main := "main";
     V1.AZ := {| V1.Subscription := "sub"; V1.ResourceGroup := "rg" |};
     V1.State_ := {| V1.Access := "key" |};
     V1.Budget := no_budget |}.

(** An Azure client that keeps the subscriptions it was set to, the last
    one first, and a planner with such a client. *)
Definition subscribe (az : list string) (sub : string) : list string :=
  sub :: az.

Definition planner_az : Plan.Planner unit (list string) unit :=
  {| Plan.Cloud_ := cloud_fake;
     Plan.Terraform_ := tf_fake 0 0 0 [];
     Plan.Kubectl_ := tt; Plan.Azure_ := []; Plan.Addon_ := tt;
     Plan.AllowedStepTypes := ∅;
     Plan.currentPlans := ∅ |}.

(** The status while the Infra step of the first scenario runs. *)
Definition status_infra_running : V1.EnvironmentStatus :=
  status_of [("Infra", entry V1.StateRunning "6")].

(** The workspaces of the first scenario. *)
Definition ws_infra : Source.Workspace :=
  {| Source.Path := "/ws"; Source.Hash := "abc"; Source.Synced := true |}.

Definition ws_k : Source.Workspace :=
  {| Source.Path := "/ws/k"; Source.Hash := "k1"; Source.Synced := true |}.

(** A plan of an Infra step and a Destroy step, and the status in which
    the Infra step is recorded with its hash. *)
Definition two_steps : Plan.plan unit unit unit :=
  [Plan.OfInfra (infra_step no_budget 0 0 0 []);
   Plan.OfDestroy (destroy_step [])].

Definition status_infra_done : V1.EnvironmentStatus :=
  status_of [("Infra", entry V1.StateReady "1")].


End Fixtures.

(** * Properties of the planner *)

Module PlanFacts.

Import Types Plan.

Section Facts.

Variables Kubectler AZer Addoner : Type.
Variable SetSubscription : AZer -> string -> AZer.
Variable hashstructure_Hash : list HashArg -> N * option error.
Variable filepath_Join : string -> string -> string.
Variable vaultInfraValues :
  V1.InfraSpec -> Cloud.Cloud -> V1.InfraSpec * option error.
Variable ShortName : Step.ID -> string.
Variable range_steps :
  gmap string V1.StepStatus -> list (string * V1.StepStatus).
Hypothesis range_steps_enumerates : enumerates range_steps.

Abbreviation Planner := (Plan.Planner Kubectler AZer Addoner).
Abbreviation Step_ := (Plan.Step_ Kubectler AZer Addoner).
Abbreviation plan := (Plan.plan Kubectler AZer Addoner).
Abbreviation hash := (Plan.hash hashstructure_Hash).
Abbreviation stepFilter := (Plan.stepFilter range_steps).
Abbreviation buildDestroyPlan :=
  (Plan.buildDestroyPlan Kubectler AZer Addoner hashstructure_Hash
     filepath_Join).
Abbreviation buildCreatePlan_loop :=
  (Plan.buildCreatePlan_loop Kubectler AZer Addoner SetSubscription
     hashstructure_Hash filepath_Join).
Abbreviation buildCreatePlan :=
  (Plan.buildCreatePlan Kubectler AZer Addoner SetSubscription
     hashstructure_Hash filepath_Join).
Abbreviation buildPlan :=
  (Plan.buildPlan Kubectler AZer Addoner SetSubscription
     hashstructure_Hash filepath_Join).
Abbreviation currentPlanStep :=
  (Plan.currentPlanStep Kubectler AZer Addoner ShortName).
Abbreviation runningStep := (Plan.runningStep Kubectler AZer Addoner ShortName).
Abbreviation selectStep_walk :=
  (Plan.selectStep_walk Kubectler AZer Addoner ShortName).
Abbreviation selectStepAt := (Plan.selectStepAt Kubectler AZer Addoner ShortName).
Abbreviation selectStep := (Plan.selectStep Kubectler AZer Addoner ShortName).
Abbreviation up_to_date := (Plan.up_to_date Kubectler AZer Addoner ShortName).
Abbreviation to_run := (Plan.to_run Kubectler AZer Addoner ShortName).
Abbreviation NextStepAt :=
  (Plan.NextStepAt Kubectler AZer Addoner SetSubscription
     hashstructure_Hash filepath_Join vaultInfraValues ShortName
     range_steps).
Abbreviation NextStep :=
  (Plan.NextStep Kubectler AZer Addoner SetSubscription
     hashstructure_Hash filepath_Join vaultInfraValues ShortName
     range_steps).

Lemma elem_of_stepFilter status state n :
  n ∈ stepFilter status state
  <-> exists s, V1.Steps status !! n = Some s /\ V1.State s = state.
Proof.
  unfold Plan.stepFilter. rewrite list_elem_of_fmap. split.
  - intros [[n' s] [-> Hin]]. apply list_elem_of_filter in Hin as [Hst Hin].
    rewrite range_steps_enumerates in Hin.
    apply elem_of_map_to_list in Hin. eauto.
  - intros [s [Hl Hst]]. exists (n, s). split; [reflexivity|].
    apply list_elem_of_filter. split; [exact Hst|].
    rewrite range_steps_enumerates. by apply elem_of_map_to_list.
Qed.

Lemma stepFilter_nil status state :
  stepFilter status state = [] <-> no_step_in status state.
Proof.
  split.
  - intros Hnil n s Hl Hst.
    assert (n ∈ stepFilter status state) as Hin
      by (apply elem_of_stepFilter; eauto).
    rewrite Hnil in Hin. by apply not_elem_of_nil in Hin.
  - intros Hno. destruct (stepFilter status state) as [|n l] eqn:E; [done|].
    assert (n ∈ stepFilter status state) as Hin
      by (rewrite E; apply list_elem_of_here).
    apply elem_of_stepFilter in Hin as [s [Hl Hst]].
    by destruct (Hno n s Hl).
Qed.

Abbreviation subscribed := (Plan.subscribed AZer SetSubscription).

Lemma with_Azure_same (p : Planner) : with_Azure p (Azure_ p) = p.
Proof. by destruct p. Qed.

(** The planner after the loop of [buildCreatePlan]: only its Azure client
    has changed, by one call of [SetSubscription] for each cluster the loop
    got to with a workspace that is ready: for every cluster when the loop
    returns true. *)
Lemma buildCreatePlan_loop_planner nsn src ispec tfw tfPath h cspec :
  forall p pl0,
  exists k,
    k <= length cspec
    /\ (buildCreatePlan_loop p nsn src ispec tfw tfPath h cspec pl0).2
       = with_Azure p
           (subscribed (V1.Subscription (V1.AZ ispec)) k (Azure_ p))
    /\ (forall pl,
          (buildCreatePlan_loop p nsn src ispec tfw tfPath h cspec pl0).1
          = Returned (pl, true) -> k = length cspec).
Proof.
  induction cspec as [|cl rest IH]; intros p pl0; simpl.
  - exists 0. split; [lia|]. simpl. by rewrite with_Azure_same.
  - destruct (Workspace src nsn (V1.Name cl)) as [cw ok].
    destruct (negb ok || bool_decide (Source.Hash cw = "")).
    { exists 0. split; [lia|]. simpl. by rewrite with_Azure_same. }
    destruct (prefixedClusterName "aks" (V1.EnvName ispec) (V1.Name cl))
      as [cluster|msg].
    + match goal with
      | |- context [Plan.buildCreatePlan_loop _ _ _ _ _ _ ?p1 _ _ _ _ _ _ _ ?pl1] =>
          destruct (IH p1 pl1) as (k & Hk & -> & Hall)
      end.
      exists (S k). split; [lia|]. split.
      * unfold Plan.subscribed. by rewrite Nat.iter_succ_r.
      * intros pl Hpl. by rewrite (Hall pl Hpl).
    + exists 1. split; [lia|]. by split.
Qed.

(** The planner the builder of [buildPlan] leaves: that of
    [buildCreatePlan], or the planner as it was for a destroy plan. *)
Lemma buildPlan_builder p nsn src destroy ispec cspec :
  exists k,
    k <= length cspec
    /\ (destroy = true -> k = 0)
    /\ (if destroy
        then (Returned (buildDestroyPlan p nsn src ispec cspec), p)
        else buildCreatePlan p nsn src ispec cspec).2
       = with_Azure p
           (subscribed (V1.Subscription (V1.AZ ispec)) k (Azure_ p))
    /\ (destroy = false ->
        forall pl,
          (buildCreatePlan p nsn src ispec cspec).1 = Returned (pl, true) ->
          k = length cspec).
Proof.
  destruct destroy.
  - exists 0. split; [lia|]. split; [done|]. simpl.
    by rewrite with_Azure_same.
  - unfold Plan.buildCreatePlan.
    destruct (Workspace src nsn "") as [tfw ok].
    destruct (negb ok || negb (Source.Synced tfw)).
    + exists 0. split; [lia|]. split; [done|]. simpl.
      by rewrite with_Azure_same.
    + match goal with
      | |- context [Plan.buildCreatePlan_loop _ _ _ _ _ _ ?p1 _ _ _ ?w ?t ?h _ ?pl1] =>
          destruct (buildCreatePlan_loop_planner nsn src ispec w t h cspec
                      p1 pl1) as (k & Hk & Hp & Hall)
      end.
      exists k. split; [done|]. split; [done|]. split; [done|].
      intros _. exact Hall.
Qed.

(** The two ways [buildPlan] ends: it stores the builder's plan, filtered,
    under [nsn] and returns true, or it stores nothing. Either way the
    Azure client is as the builder left it. *)
Lemma buildPlan_cases p nsn src destroy ispec cspec :
  exists k,
    k <= length cspec
    /\ (destroy = true -> k = 0)
    /\ ((exists built,
           (if destroy then Returned (buildDestroyPlan p nsn src ispec cspec)
            else (buildCreatePlan p nsn src ispec cspec).1)
           = Returned (built, true)
           /\ (destroy = false -> k = length cspec)
           /\ buildPlan p nsn src destroy ispec cspec
              = (Returned true,
                 with_currentPlans _ _ _
                   (with_Azure p
                      (subscribed (V1.Subscription (V1.AZ ispec)) k
                         (Azure_ p)))
                   (<[nsn := planFilter built (AllowedStepTypes p)]>
                      (currentPlans p))))
        \/ ((buildPlan p nsn src destroy ispec cspec).1 <> Returned true
            /\ (buildPlan p nsn src destroy ispec cspec).2
               = with_Azure p
                   (subscribed (V1.Subscription (V1.AZ ispec)) k
                      (Azure_ p)))).
Proof.
  unfold Plan.buildPlan.
  destruct (buildPlan_builder p nsn src destroy ispec cspec)
    as (k & Hk & Hd & Hp & Hall).
  exists k. split; [done|]. split; [done|].
  destruct (if destroy then (_, p) else _) as [[[built ok]|msg] pb] eqn:Hb;
    simpl in Hp; subst pb; [|by right].
  destruct ok; simpl; [|by right].
  left. exists built.
  assert ((if destroy
           then Returned (buildDestroyPlan p nsn src ispec cspec)
           else (buildCreatePlan p nsn src ispec cspec).1)
          = Returned (built, true)) as Hbuilt.
  { destruct destroy; [by injection Hb as -> | by rewrite Hb]. }
  split; [exact Hbuilt|]. split; [|reflexivity].
  intros ->. by apply (Hall eq_refl built).
Qed.

(** What a successful [buildPlan] leaves behind: the plan of the builder
    that was chosen, filtered, stored under [nsn]. *)
Lemma buildPlan_true p nsn src destroy ispec cspec p' :
  buildPlan p nsn src destroy ispec cspec = (Returned true, p') ->
  exists built,
    (if destroy then Returned (buildDestroyPlan p nsn src ispec cspec)
     else (buildCreatePlan p nsn src ispec cspec).1) = Returned (built, true)
    /\ AllowedStepTypes p' = AllowedStepTypes p
    /\ currentPlan p' nsn = Some (planFilter built (AllowedStepTypes p)).
Proof.
  intros Hb.
  destruct (buildPlan_cases p nsn src destroy ispec cspec)
    as (k & _ & _ & [(built & Hbuilt & _ & Hrun)|[Hnot _]]).
  - rewrite Hrun in Hb. injection Hb as <-. exists built.
    split; [done|]. split; [reflexivity|].
    unfold Plan.currentPlan; simpl. apply lookup_insert_eq.
  - by rewrite Hb in Hnot.
Qed.

(** The walk of [selectStep] when no persisted step is in error: it stops
    at the first step that is to run, after skipping up-to-date ones. *)
Lemma selectStep_walk_spec status (pl : plan) :
  no_step_in status V1.StateError ->
  (exists pre st post,
      pl = pre ++ st :: post
      /\ Forall (up_to_date status) pre
      /\ to_run status st
      /\ (selectStep_walk status pl = FirstSeen st
          \/ selectStep_walk status pl = Changed st))
  \/ (Forall (up_to_date status) pl
      /\ selectStep_walk status pl = WalkedAll).
Proof.
  intros Hno. induction pl as [|st rest IH]; simpl.
  - right. split; [constructor | reflexivity].
  - destruct (V1.Steps status !! ShortName (Step.ID_ (Meta st)))
      as [cur|] eqn:Hcur.
    + case_bool_decide as Hh.
      * destruct IH as [(pre & st' & post & -> & Hpre & Hrun & Hsel)
                       |[Hall Hsel]].
        -- left. exists (st :: pre), st', post. repeat split; try done.
           constructor; [|done]. exists cur. by split.
        -- right. split; [|done]. constructor; [|done].
           exists cur. by split.
      * case_bool_decide as He; [by destruct (Hno _ _ Hcur)|].
        left. exists [], st, rest. repeat split; [constructor| |by right].
        right. exists cur. by split.
    + left. exists [], st, rest. repeat split; [constructor| |by left].
      by left.
Qed.

(** [NextStep] reaches [selectStep] only past the error gate, with the
    secrets resolved and a plan freshly built and stored. *)
Lemma NextStepAt_Selected p nsn src destroy ispec cspec status e p' :
  NextStepAt p nsn src destroy ispec cspec status
    = (Returned (Selected e), p') ->
  no_step_in status V1.StateError
  /\ e = selectStepAt p' nsn status
  /\ exists ispec',
       vaultInfraValues ispec (Cloud_ p) = (ispec', None)
       /\ buildPlan p nsn src destroy ispec' cspec = (Returned true, p').
Proof.
  unfold Plan.NextStepAt.
  destruct (stepFilter status V1.StateError) eqn:Herr; [|discriminate].
  apply stepFilter_nil in Herr.
  destruct (runningStep p nsn _); [discriminate|].
  destruct (vaultInfraValues ispec (Cloud_ p)) as [ispec' [err|]] eqn:Hv;
    [discriminate|].
  destruct (buildPlan p nsn src destroy ispec' cspec)
    as [[[]|msg] p''] eqn:Hb; try discriminate.
  destruct (runningStep p'' nsn _); [discriminate|].
  intros [= <- <-]. split; [done|]. split; [done|]. by exists ispec'.
Qed.

Lemma buildCreatePlan_loop_order nsn src ispec tfw tfPath h cspec :
  forall p pl0 pl,
    (buildCreatePlan_loop p nsn src ispec tfw tfPath h cspec pl0).1
    = Returned (pl, true) ->
    kind <$> pl = (kind <$> pl0) ++ flat_map cluster_kinds cspec.
Proof.
  induction cspec as [|cl rest IH]; intros p pl0 pl; simpl.
  - intros [= <-]. by rewrite app_nil_r.
  - destruct (Workspace src nsn (V1.Name cl)) as [cw ok].
    destruct (negb ok || bool_decide (Source.Hash cw = "")); [discriminate|].
    destruct (prefixedClusterName "aks" (V1.EnvName ispec) (V1.Name cl))
      as [cluster|msg]; [|discriminate].
    intros Hloop. rewrite (IH _ _ _ Hloop), fmap_app, <- app_assoc.
    reflexivity.
Qed.

(** Construction order of the create plan: the Infra step, then for each
    cluster, in the order of the spec, AKSPool, Kubeconfig, AKSAddonPreflight
    and Addons. *)
Lemma buildCreatePlan_order p nsn src ispec cspec pl :
  (buildCreatePlan p nsn src ispec cspec).1 = Returned (pl, true) ->
  kind <$> pl = (Step.TypeInfra, "") :: flat_map cluster_kinds cspec.
Proof.
  unfold Plan.buildCreatePlan.
  destruct (Workspace src nsn "") as [tfw ok].
  destruct (negb ok || negb (Source.Synced tfw)); [discriminate|].
  intros Hloop. by rewrite (buildCreatePlan_loop_order _ _ _ _ _ _ _ _ _ _ Hloop).
Qed.

(** C1. Error gate: whenever some entry of [status.Steps] has
    [State == Error], [NextStep] returns [(nil, nil)], whatever the plan,
    the destroy flag or the hashes of the other steps are; the planner is
    left as it was. *)
Theorem NextStep_error_gate p nsn src destroy ispec cspec status :
  (exists n s, V1.Steps status !! n = Some s
               /\ V1.State s = V1.StateError) ->
  NextStep p nsn src destroy ispec cspec status
    = (Returned (None, None), p).
Proof.
  intros (n & s & Hl & Hst). unfold Plan.NextStep, Plan.NextStepAt.
  destruct (stepFilter status V1.StateError) eqn:Herr; [|reflexivity].
  apply stepFilter_nil in Herr. by destruct (Herr n s Hl).
Qed.

(** C2. With no Error and no Running entry in the status, once the
    secrets are resolved and the plan is freshly built, [NextStep] walks
    that plan (the builder's plan, filtered, in its order) and returns the
    first step that has no entry under its [ShortName] or whose hash
    differs from the persisted one; the steps before it all have the
    persisted hash and are skipped; when every step is up to date the
    result is [(nil, nil)]. *)
Theorem NextStep_walks_fresh_plan
    p nsn src destroy ispec cspec status ispec' p' :
  no_step_in status V1.StateError ->
  no_step_in status V1.StateRunning ->
  vaultInfraValues ispec (Cloud_ p) = (ispec', None) ->
  buildPlan p nsn src destroy ispec' cspec = (Returned true, p') ->
  exists built pl,
    (if destroy then Returned (buildDestroyPlan p nsn src ispec' cspec)
     else (buildCreatePlan p nsn src ispec' cspec).1) = Returned (built, true)
    /\ pl = planFilter built (AllowedStepTypes p)
    /\ currentPlan p' nsn = Some pl
    /\ ((exists pre st post,
            pl = pre ++ st :: post
            /\ Forall (up_to_date status) pre
            /\ to_run status st
            /\ NextStep p nsn src destroy ispec cspec status
               = (Returned (Some st, None), p'))
        \/ (Forall (up_to_date status) pl
            /\ NextStep p nsn src destroy ispec cspec status
               = (Returned (None, None), p'))).
Proof.
  intros Herr Hrun Hv Hb.
  destruct (buildPlan_true _ _ _ _ _ _ _ Hb) as (built & Hbuilt & _ & Hcur).
  exists built, (planFilter built (AllowedStepTypes p)).
  split; [done|]. split; [done|]. split; [done|].
  assert (NextStepAt p nsn src destroy ispec cspec status
          = (Returned (Selected (selectStepAt p' nsn status)), p')) as Hat.
  { unfold Plan.NextStepAt.
    apply stepFilter_nil in Herr as ->. apply stepFilter_nil in Hrun as ->.
    simpl. rewrite Hv, Hb. reflexivity. }
  unfold Plan.NextStep. rewrite Hat.
  unfold Plan.selectStepAt. rewrite Hcur. simpl.
  destruct (selectStep_walk_spec status
              (planFilter built (AllowedStepTypes p)) Herr)
    as [(pre & st & post & Hpl & Hpre & Hst & [Hsel|Hsel])|[Hall Hsel]].
  - left. exists pre, st, post. by rewrite Hsel.
  - left. exists pre, st, post. by rewrite Hsel.
  - right. by rewrite Hsel.
Qed.

(** C9. Whenever [NextStep] gets to call [selectStep], no entry of
    [status.Steps] is in state Error, so [selectStep] does not leave
    through its no-retry [return nil, nil]; it finds the plan just stored
    and returns either a step or, at the end of the walk, [(nil, nil)]. *)
Theorem NextStep_selectStep_no_retry_exit
    p nsn src destroy ispec cspec status e p' :
  NextStepAt p nsn src destroy ispec cspec status
    = (Returned (Selected e), p') ->
  no_step_in status V1.StateError
  /\ e = selectStepAt p' nsn status
  /\ e <> NoRetry
  /\ e <> NoPlan
  /\ ((exists st, selectStep p' nsn status = (Some st, None))
      \/ (e = WalkedAll /\ selectStep p' nsn status = (None, None))).
Proof.
  intros Hat.
  destruct (NextStepAt_Selected _ _ _ _ _ _ _ _ _ Hat)
    as (Herr & -> & ispec' & _ & Hb).
  destruct (buildPlan_true _ _ _ _ _ _ _ Hb) as (built & _ & _ & Hcur).
  split; [done|]. split; [done|].
  unfold Plan.selectStep, Plan.selectStepAt. rewrite Hcur.
  destruct (selectStep_walk_spec status
              (planFilter built (AllowedStepTypes p)) Herr)
    as [(pre & st & post & _ & _ & _ & [Hsel|Hsel])|[_ Hsel]];
    rewrite Hsel; (split; [discriminate|]); (split; [discriminate|]);
    simpl; eauto.
Qed.


(** *** More on the planner *)

(** X1. [planFilter] keeps the order of the plan; with an empty allow-list it
    returns the plan as it is, otherwise exactly the steps whose type is
    allowed; filtering twice changes nothing more. *)
Theorem planFilter_keeps_allowed (pl : plan) (allowed : gset Step.StepType) :
  sublist (planFilter pl allowed) pl
  /\ (allowed = ∅ -> planFilter pl allowed = pl)
  /\ (allowed <> ∅ ->
      forall st, st ∈ planFilter pl allowed
                 <-> st ∈ pl /\ Step.Type_ (Step.ID_ (Meta st)) ∈ allowed)
  /\ planFilter (planFilter pl allowed) allowed = planFilter pl allowed.
Proof.
  unfold Plan.planFilter. case_bool_decide as Hsz.
  - apply size_empty_inv in Hsz. apply leibniz_equiv in Hsz.
    repeat split; try done.
  - assert (allowed <> ∅) as Hne by (intros ->; by rewrite size_empty in Hsz).
    split; [apply sublist_filter|]. split; [done|]. split.
    + intros _ st. rewrite list_elem_of_filter. tauto.
    + apply list_filter_filter_l. done.
Qed.

Lemma stepFilter_perm range' status state :
  enumerates range' ->
  Plan.stepFilter range' status state
  ≡ₚ (filter (fun ns => V1.State ns.2 = state)
        (map_to_list (V1.Steps status))).*1.
Proof.
  intros Hr. unfold Plan.stepFilter. by rewrite (Hr (V1.Steps status)).
Qed.

Lemma stepFilter_NoDup status state : NoDup (stepFilter status state).
Proof.
  rewrite (stepFilter_perm _ _ _ range_steps_enumerates).
  apply NoDup_fmap_fst.
  - intros n s1 s2 H1 H2.
    apply list_elem_of_filter in H1 as [_ H1], H2 as [_ H2].
    apply elem_of_map_to_list in H1, H2. congruence.
  - apply NoDup_filter, NoDup_map_to_list.
Qed.

(** X2. [stepFilter] returns the names of exactly the entries in the given
    state, each once, whatever the order in which the map is visited: two
    visiting orders give the same names up to order. *)
Theorem stepFilter_names status state :
  NoDup (stepFilter status state)
  /\ (forall n, n ∈ stepFilter status state
                <-> exists s, V1.Steps status !! n = Some s
                              /\ V1.State s = state)
  /\ (forall range', enumerates range' ->
        Plan.stepFilter range' status state ≡ₚ stepFilter status state).
Proof.
  split; [apply stepFilter_NoDup|]. split.
  - intros n. apply elem_of_stepFilter.
  - intros range' Hr.
    by rewrite (stepFilter_perm _ _ _ Hr),
      (stepFilter_perm _ _ _ range_steps_enumerates).
Qed.

(** X3. When [buildCreatePlan] succeeds, the plan is the Infra step followed,
    for each cluster in the order of the spec, by its AKSPool, Kubeconfig,
    AKSAddonPreflight and Addons steps: [1 + 4*len(cspec)] steps, the capacity
    the plan is made with. *)
Theorem buildCreatePlan_shape p nsn src ispec cspec pl :
  (buildCreatePlan p nsn src ispec cspec).1 = Returned (pl, true) ->
  kind <$> pl = (Step.TypeInfra, "") :: flat_map cluster_kinds cspec
  /\ length pl = 1 + 4 * length cspec.
Proof.
  intros Hb.
  pose proof (buildCreatePlan_order _ _ _ _ _ _ Hb)
    as Hk.
  split; [exact Hk|].
  rewrite <- (length_fmap kind pl), Hk. simpl. f_equal.
  clear. induction cspec as [|cl rest IH]; simpl; lia.
Qed.

(** With a non-empty environment name [prefixedClusterName] returns. *)
Lemma prefixedClusterName_returns resource env name :
  env <> "" ->
  exists r, prefixedClusterName resource env name = Returned r.
Proof.
  intros Hne. unfold prefixedClusterName, slice_from.
  assert (String.length env <> 0) as Hlen by (by destruct env).
  destruct (_ || _)%bool eqn:Hb; [|by eexists].
  apply orb_true_iff in Hb as [Hb|Hb]; apply Z.ltb_lt in Hb; lia.
Qed.

Lemma buildCreatePlan_loop_ready nsn src ispec tfw tfPath h cspec :
  V1.EnvName ispec <> "" ->
  forall p pl0,
    (Forall (cluster_ready src nsn) cspec
     /\ exists pl,
          (buildCreatePlan_loop p nsn src ispec tfw tfPath h cspec pl0).1
          = Returned (pl, true))
    \/ (~ Forall (cluster_ready src nsn) cspec
        /\ (buildCreatePlan_loop p nsn src ispec tfw tfPath h cspec pl0).1
           = Returned ([], false)).
Proof.
  intros Henv. induction cspec as [|cl rest IH]; intros p pl0; simpl.
  - left. split; [constructor | by eexists].
  - destruct (Workspace src nsn (V1.Name cl)) as [cw ok] eqn:Hw.
    destruct (prefixedClusterName_returns "aks" (V1.EnvName ispec)
                (V1.Name cl) Henv) as (pre & ->).
    destruct ok; simpl.
    + case_bool_decide as Hh.
      * right. split; [|done]. intros Hall.
        apply Forall_cons in Hall as [(cw' & Hw' & Hne) _].
        rewrite Hw in Hw'. congruence.
      * match goal with
        | |- context [Plan.buildCreatePlan_loop _ _ _ _ _ _ ?p1 _ _ _ _ _ _ _ ?pl1] =>
            destruct (IH p1 pl1) as [[Hall Hpl]|[Hnot Hpl]]
        end.
        -- left. split; [|done]. constructor; [by exists cw | done].
        -- right. split; [|done]. intros Hall.
           by apply Forall_cons in Hall as [_ Hall].
    + right. split; [|done]. intros Hall.
      apply Forall_cons in Hall as [(cw' & Hw' & _) _]. congruence.
Qed.

(** X4. With a non-empty environment name [buildCreatePlan] never panics and
    succeeds exactly when the infrastructure workspace is there and synced
    and every cluster's workspace is there with a hash; otherwise it returns
    no plan and false. *)
Theorem buildCreatePlan_ready_iff p nsn src ispec cspec :
  V1.EnvName ispec <> "" ->
  ((exists pl,
       (buildCreatePlan p nsn src ispec cspec).1 = Returned (pl, true))
   <-> infra_synced src nsn /\ Forall (cluster_ready src nsn) cspec)
  /\ ((forall pl,
         (buildCreatePlan p nsn src ispec cspec).1 <> Returned (pl, true))
      -> (buildCreatePlan p nsn src ispec cspec).1 = Returned ([], false)).
Proof.
  intros Henv. unfold Plan.buildCreatePlan, infra_synced.
  destruct (Workspace src nsn "") as [tfw ok] eqn:Hw.
  destruct ok; simpl.
  - destruct (Source.Synced tfw) eqn:Hs; simpl.
    + match goal with
      | |- context [Plan.buildCreatePlan_loop _ _ _ _ _ _ ?p1 _ _ _ ?w ?t ?h _ ?pl0] =>
          destruct (buildCreatePlan_loop_ready nsn src ispec w t h cspec
                      Henv p1 pl0) as [[Hall [pl Hpl]]|[Hnot Hpl]]
      end; rewrite Hpl.
      * split; [|intros Hn; by destruct (Hn pl)].
        split; [|by eexists]. intros _. split; [by exists tfw | done].
      * split; [|done].
        split; [intros [pl [=]] | intros [_ Hall]; done].
    + split; [|done].
      split; [intros [pl [=]] | intros [(tfw' & [= <-] & Hs') _]; congruence].
  - split; [|done].
    split; [intros [pl [=]] | intros [(tfw' & [=] & _) _]].
Qed.

(** X5. With an empty environment name the first cluster whose workspace is
    ready makes [buildCreatePlan] panic in [prefixedClusterName], and with it
    [NextStep], when it gets to build the plan. The plans and the rest of
    the planner are as they were, but the Azure client the planner shares
    with its steps is set to the subscription of the spec:
    [SetSubscription] is called before the cluster name is made. *)
Theorem NextStep_panics_on_empty_EnvName
    p nsn src ispec ispec' cl rest status :
  no_step_in status V1.StateError ->
  no_step_in status V1.StateRunning ->
  vaultInfraValues ispec (Cloud_ p) = (ispec', None) ->
  V1.EnvName ispec' = "" ->
  infra_synced src nsn ->
  cluster_ready src nsn cl ->
  let p' :=
    with_Azure p
      (SetSubscription (Azure_ p) (V1.Subscription (V1.AZ ispec'))) in
  buildCreatePlan p nsn src ispec' (cl :: rest) = (Panicked slice_bounds, p')
  /\ NextStep p nsn src false ispec (cl :: rest) status
     = (Panicked slice_bounds, p').
Proof.
  intros Herr Hrun Hv Henv (tfw & Hw & Hs) (cw & Hcw & Hh) p'.
  assert (buildCreatePlan p nsn src ispec' (cl :: rest)
          = (Panicked slice_bounds, p')) as Hb.
  { unfold Plan.buildCreatePlan. rewrite Hw, Hs. simpl. rewrite Hcw. simpl.
    rewrite bool_decide_eq_false_2 by done. by rewrite Henv. }
  split; [exact Hb|].
  unfold Plan.NextStep, Plan.NextStepAt.
  apply stepFilter_nil in Herr as ->.
  apply stepFilter_nil in Hrun as ->.
  simpl. rewrite Hv. unfold Plan.buildPlan. by rewrite Hb.
Qed.

Lemma buildPlan_other_plans p nsn src destroy ispec cspec :
  (forall nsn', nsn' <> nsn ->
     currentPlan (buildPlan p nsn src destroy ispec cspec).2 nsn'
     = currentPlan p nsn')
  /\ ((buildPlan p nsn src destroy ispec cspec).1 <> Returned true ->
      currentPlans (buildPlan p nsn src destroy ispec cspec).2
      = currentPlans p)
  /\ AllowedStepTypes (buildPlan p nsn src destroy ispec cspec).2
     = AllowedStepTypes p
  /\ Cloud_ (buildPlan p nsn src destroy ispec cspec).2 = Cloud_ p.
Proof.
  destruct (buildPlan_cases p nsn src destroy ispec cspec)
    as (k & _ & _ & [(built & _ & _ & ->)|[Hnot ->]]); simpl.
  - split; [|by split].
    intros nsn' Hne. unfold Plan.currentPlan; simpl.
    by rewrite lookup_insert_ne.
  - by repeat split.
Qed.

(** X6. [buildPlan] changes nothing of the planner but the plan stored for
    its [nsn] and the Azure client. When it does not return true no stored
    plan changes; the plans of the other environments, the allow-list and
    the cloud are never touched. The Azure client, which the planner shares
    with every AKSPool step it has built, is left after [k] calls of
    [SetSubscription] with the subscription of the spec, [k] at most the
    number of clusters: none for a destroy plan, one for each cluster when
    a create plan is built, and as many as the builder got to when it gave
    up. *)
Theorem buildPlan_touches_only_nsn p nsn src destroy ispec cspec :
  let r := buildPlan p nsn src destroy ispec cspec in
  (forall nsn', nsn' <> nsn -> currentPlan r.2 nsn' = currentPlan p nsn')
  /\ (r.1 <> Returned true -> currentPlans r.2 = currentPlans p)
  /\ AllowedStepTypes r.2 = AllowedStepTypes p
  /\ Cloud_ r.2 = Cloud_ p
  /\ exists k,
       k <= length cspec
       /\ Azure_ r.2
          = subscribed (V1.Subscription (V1.AZ ispec)) k (Azure_ p)
       /\ (destroy = true -> k = 0)
       /\ (destroy = false -> r.1 = Returned true -> k = length cspec).
Proof.
  intros r. subst r.
  destruct (buildPlan_other_plans p nsn src destroy ispec cspec)
    as (Hother & Hsame & Hallow & Hcloud).
  split; [exact Hother|]. split; [exact Hsame|].
  split; [exact Hallow|]. split; [exact Hcloud|].
  destruct (buildPlan_cases p nsn src destroy ispec cspec)
    as (k & Hk & Hd & [(built & _ & Hall & Hrun)|[Hnot Hrun]]);
    exists k; rewrite Hrun; simpl.
  - split; [exact Hk|]. split; [reflexivity|]. split; [exact Hd|].
    intros Hc _. exact (Hall Hc).
  - split; [exact Hk|]. split; [reflexivity|]. split; [exact Hd|].
    intros _ Htrue. by destruct Hnot.
Qed.

(** X7. [NextStep] changes the planner only by what [buildPlan] does to it
    on the secrets-resolved spec, whatever [buildPlan] returns: otherwise
    the planner is as it was. It never changes the plan of another
    environment, nor the allow-list. *)
Theorem NextStep_touches_only_nsn p nsn src destroy ispec cspec status :
  let p' := (NextStep p nsn src destroy ispec cspec status).2 in
  (p' = p
   \/ exists ispec',
        vaultInfraValues ispec (Cloud_ p) = (ispec', None)
        /\ p' = (buildPlan p nsn src destroy ispec' cspec).2)
  /\ (forall nsn', nsn' <> nsn -> currentPlan p' nsn' = currentPlan p nsn')
  /\ AllowedStepTypes p' = AllowedStepTypes p.
Proof.
  intros p'. subst p'. unfold Plan.NextStep, Plan.NextStepAt.
  destruct (stepFilter status V1.StateError); [|by split; [left|]].
  destruct (runningStep p nsn _); [by split; [left|]|].
  destruct (vaultInfraValues ispec (Cloud_ p)) as [ispec' [err|]] eqn:Hv;
    [by split; [left|]|].
  destruct (buildPlan_other_plans p nsn src destroy ispec' cspec)
    as (Hother & _ & Hallow & _).
  destruct (buildPlan p nsn src destroy ispec' cspec) as [[[]|msg] pb] eqn:Hb;
    simpl in *.
  - destruct (runningStep pb nsn _); simpl;
      (split; [right; exists ispec'; by rewrite Hb | by split]).
  - split; [right; exists ispec'; by rewrite Hb | by split].
  - split; [right; exists ispec'; by rewrite Hb | by split].
Qed.

Lemma stepFilter_single status state n :
  (exists s, V1.Steps status !! n = Some s /\ V1.State s = state) ->
  (forall n' s', V1.Steps status !! n' = Some s' -> V1.State s' = state ->
                 n' = n) ->
  stepFilter status state = [n].
Proof.
  intros Hn Huniq.
  pose proof (stepFilter_NoDup status state) as Hnd.
  pose proof (fun n => elem_of_stepFilter status state n) as Hin.
  assert (forall x, x ∈ stepFilter status state -> x = n) as Hall.
  { intros x Hx. apply Hin in Hx as (s & Hl & Hs). eauto. }
  apply Hin in Hn.
  destruct (stepFilter status state) as [|x l]; [by apply not_elem_of_nil in Hn|].
  rewrite (Hall x) by apply list_elem_of_here. f_equal.
  destruct l as [|y l]; [done|]. exfalso.
  apply NoDup_cons in Hnd as [Hx _]. apply Hx.
  rewrite (Hall x), (Hall y); [apply list_elem_of_here | | apply list_elem_of_here].
  apply list_elem_of_further, list_elem_of_here.
Qed.

(** X8. Running fast path: when no step is in Error, exactly one entry is
    Running and the plan in memory has a step under that name, [NextStep]
    returns that step at once: whatever the sourcer, the destroy flag and the
    specs are, without resolving secrets and without touching the planner. *)
Theorem NextStep_running_fast_path
    p nsn src destroy ispec cspec status n st :
  no_step_in status V1.StateError ->
  (exists s, V1.Steps status !! n = Some s /\ V1.State s = V1.StateRunning) ->
  (forall n' s', V1.Steps status !! n' = Some s' ->
                 V1.State s' = V1.StateRunning -> n' = n) ->
  currentPlanStep p nsn n = Some st ->
  NextStep p nsn src destroy ispec cspec status
  = (Returned (Some st, None), p).
Proof.
  intros Herr Hn Huniq Hst. unfold Plan.NextStep, Plan.NextStepAt.
  apply stepFilter_nil in Herr as ->.
  rewrite (stepFilter_single _ _ _ Hn Huniq). simpl. by rewrite Hst.
Qed.

(** X9. Secret resolution failure: past the error gate and the running fast
    path, an error of [vaultInfraValues] is returned wrapped as
    ["vault ref: ..."] with no step; no plan is built and the planner is left
    as it was. *)
Theorem NextStep_vault_error p nsn src destroy ispec cspec status ispec' err :
  no_step_in status V1.StateError ->
  runningStep p nsn (stepFilter status V1.StateRunning) = None ->
  vaultInfraValues ispec (Cloud_ p) = (ispec', Some err) ->
  NextStep p nsn src destroy ispec cspec status
  = (Returned (None, Some ("vault ref: " +:+ err)), p).
Proof.
  intros Herr Hrun Hv. unfold Plan.NextStep, Plan.NextStepAt.
  apply stepFilter_nil in Herr as ->.
  by rewrite Hrun, Hv.
Qed.

Lemma selectStep_walk_skip status (pre l : plan) :
  Forall (up_to_date status) pre ->
  selectStep_walk status (pre ++ l) = selectStep_walk status l.
Proof.
  induction 1 as [|st pre (cur & Hcur & Hh) _ IH]; [done|]. simpl.
  rewrite Hcur. by rewrite bool_decide_eq_true_2.
Qed.

(** X10. [selectStep] compares hashes before states: it skips every step
    whose persisted hash is the step's hash, also one whose persisted state is
    Error, and decides on the first other step: a step without entry is
    returned, a step whose entry is in Error yields [(nil, nil)] without
    looking further, a step with any other entry is returned. *)
Theorem selectStep_walk_first_changed status (pl : plan) :
  (exists pre st post,
      pl = pre ++ st :: post
      /\ Forall (up_to_date status) pre
      /\ to_run status st
      /\ selectStep_walk status pl
         = match V1.Steps status !! ShortName (Step.ID_ (Meta st)) with
           | None => FirstSeen st
           | Some cur =>
               if bool_decide (V1.State cur = V1.StateError) then NoRetry
               else Changed st
           end)
  \/ (Forall (up_to_date status) pl
      /\ selectStep_walk status pl = WalkedAll).
Proof.
  induction pl as [|st rest IH]; simpl.
  - right. split; [constructor | reflexivity].
  - destruct (V1.Steps status !! ShortName (Step.ID_ (Meta st)))
      as [cur|] eqn:Hcur.
    + case_bool_decide as Hh.
      * destruct IH as [(pre & st' & post & -> & Hpre & Hrun & Hsel)
                       |[Hall Hsel]].
        -- left. exists (st :: pre), st', post. repeat split; try done.
           constructor; [|done]. exists cur. by split.
        -- right. split; [|done]. constructor; [|done].
           exists cur. by split.
      * left. exists [], st, rest. rewrite Hcur.
        repeat split; [constructor|]. right. exists cur. by split.
    + left. exists [], st, rest. rewrite Hcur.
      repeat split; [constructor|]. by left.
Qed.

(** X11. Progress: once the status records the hash of the selected step
    under its name, a name no earlier step of the plan has, the next walk
    goes on after that step. *)
Theorem selectStep_walk_advances status (pre post : plan) st cur :
  Forall (up_to_date status) pre ->
  Forall (fun st' => ShortName (Step.ID_ (Meta st'))
                     <> ShortName (Step.ID_ (Meta st))) pre ->
  V1.Hash cur = Step.Hash (Meta st) ->
  selectStep_walk
    {| V1.Steps := <[ShortName (Step.ID_ (Meta st)) := cur]> (V1.Steps status) |}
    (pre ++ st :: post)
  = selectStep_walk
      {| V1.Steps := <[ShortName (Step.ID_ (Meta st)) := cur]> (V1.Steps status) |}
      post.
Proof.
  intros Hpre Hnames Hcur.
  change (pre ++ st :: post) with (pre ++ [st] ++ post).
  rewrite app_assoc. apply selectStep_walk_skip.
  apply Forall_app. split.
  - rewrite Forall_forall in Hpre, Hnames. apply Forall_forall.
    intros st' Hin. destruct (Hpre _ Hin) as (c & Hc & Hh).
    exists c. split; [|done]. simpl. rewrite lookup_insert_ne; [done|].
    intros Heq. by apply (Hnames _ Hin).
  - constructor; [|constructor]. exists cur. split; [|done].
    simpl. apply lookup_insert_eq.
Qed.

(** X12. The text [hash] returns is the sentinel ["hasherror"] exactly when
    [hashstructure.Hash] reports an error, and two hashes computed without
    error are the same text exactly when the hashed values are the same. *)
Theorem hash_sentinel_iff_error args :
  (hash args = "hasherror" <-> (hashstructure_Hash args).2 <> None)
  /\ forall args',
       (hashstructure_Hash args).2 = None ->
       (hashstructure_Hash args').2 = None ->
       (hash args = hash args'
        <-> (hashstructure_Hash args).1 = (hashstructure_Hash args').1).
Proof.
  assert (forall i, NilZero.uint_of_string (FormatUint16 i)
                    = Some (N.to_hex_uint i)) as Hparse.
  { intros i. unfold FormatUint16. apply NilZero.usu.
    destruct i; [discriminate|]. apply HexadecimalPos.Unsigned.to_uint_nonnil. }
  unfold Plan.hash. split.
  - destruct (hashstructure_Hash args) as [i [e|]]; simpl; [done|].
    split; [|done]. intros Heq. pose proof (Hparse i) as Hp.
    rewrite Heq in Hp. discriminate.
  - intros args'.
    destruct (hashstructure_Hash args) as [i [e|]],
             (hashstructure_Hash args') as [i' [e'|]]; simpl; try done.
    intros _ _. split; [|by intros ->].
    intros Heq. apply HexadecimalN.Unsigned.to_uint_inj.
    pose proof (Hparse i) as Hp. rewrite Heq, Hparse in Hp. congruence.
Qed.

End Facts.

Lemma substring_last env :
  env <> "" ->
  exists pre c,
    env = pre +:+ String c EmptyString
    /\ String.substring (String.length env - 1) 1 env = String c EmptyString.
Proof.
  induction env as [|a s IH]; [done|]. intros _.
  destruct s as [|b s'].
  - exists "", a. by split.
  - destruct IH as (pre & c & Hs & Hsub); [done|].
    exists (String a pre), c. split.
    + rewrite Hs. reflexivity.
    + simpl in *. by rewrite Nat.sub_0_r in *.
Qed.

(** C10. [prefixedClusterName] panics on the empty environment name (the
    slice [env[len(env)-1:]] is out of range); for a non-empty [env] it
    returns the last byte of [env], then [resource], ["001"], [env], ["-"]
    and [name]. *)
Theorem prefixedClusterName_total_iff_env_nonempty resource name :
  prefixedClusterName resource "" name = Panicked slice_bounds
  /\ forall env,
       env <> "" ->
       exists pre c,
         env = pre +:+ String c EmptyString
         /\ prefixedClusterName resource env name
            = Returned (String c EmptyString +:+ resource +:+ "001"
                        +:+ env +:+ "-" +:+ name).
Proof.
  split; [reflexivity|]. intros env Hne.
  destruct (substring_last env Hne) as (pre & c & Henv & Hsub).
  exists pre, c. split; [done|].
  unfold prefixedClusterName, slice_from.
  assert (String.length env <> 0) as Hlen by (by destruct env).
  destruct (_ || _)%bool eqn:Hb.
  { apply orb_true_iff in Hb as [Hb|Hb]; apply Z.ltb_lt in Hb; lia. }
  replace (Z.to_nat (Z.of_nat (String.length env) - 1))
    with (String.length env - 1) by lia.
  replace (String.length env - (String.length env - 1)) with 1 by lia.
  by rewrite Hsub.
Qed.

End PlanFacts.

(** * Properties of the terraform steps *)

Module StepFacts.

Import Step.

Section Facts.

Variable filepath_Join : string -> string -> string.
Variable os_MkdirAll : string -> option error.
Variable ioutil_WriteFile : string -> string -> option error.
Variable tmplt_ExpandAll : string -> string -> InfraValues -> option error.
Variable KVSliceMergeMap : list string -> gmap string string -> list string.
Variable range_env : gmap string string -> list (string * string).

Abbreviation writeText :=
  (Step.writeText filepath_Join os_MkdirAll ioutil_WriteFile).
Abbreviation writeText_events :=
  (Step.writeText_events filepath_Join os_MkdirAll ioutil_WriteFile).
Abbreviation InfraStep_Execute :=
  (Step.InfraStep_Execute filepath_Join os_MkdirAll ioutil_WriteFile
     tmplt_ExpandAll KVSliceMergeMap range_env).
Abbreviation DestroyStep_Execute :=
  (Step.DestroyStep_Execute filepath_Join os_MkdirAll ioutil_WriteFile
     tmplt_ExpandAll).
Abbreviation Infra_env := (Step.Infra_env KVSliceMergeMap).
Abbreviation Infra_plans := (Step.Infra_plans tmplt_ExpandAll KVSliceMergeMap).
Abbreviation Infra_apply_succeeds :=
  (Step.Infra_apply_succeeds KVSliceMergeMap).
Abbreviation Infra_applies :=
  (Step.Infra_applies tmplt_ExpandAll KVSliceMergeMap).
Abbreviation Destroy_inits := (Step.Destroy_inits tmplt_ExpandAll).

(** *** Running the primitives *)

Lemma run_emit {S B} (e : Event) (k : unit -> M S B) st tr :
  (emit e ≫= k) st tr = k tt st (tr ++ [e]).
Proof. reflexivity. Qed.

Lemma run_modify {S B} (f : S -> S) (k : unit -> M S B) st tr :
  (modify f ≫= k) st tr = k tt (f st) tr.
Proof. reflexivity. Qed.

Lemma run_get {S B} (k : S -> M S B) st tr :
  (get ≫= k) st tr = k st st tr.
Proof. reflexivity. Qed.

Lemma run_mret {S A B} (a : A) (k : A -> M S B) st tr :
  (mret a ≫= k) st tr = k a st tr.
Proof. reflexivity. Qed.

Lemma run_mret_end {S A} (a : A) (st : S) tr :
  (mret a : M S A) st tr = (Returned a, st, tr).
Proof. reflexivity. Qed.

Lemma run_assoc {S A B C} (c : M S A) (f : A -> M S B) (k : B -> M S C)
    st tr :
  ((c ≫= f) ≫= k) st tr = (c ≫= (fun a => f a ≫= k)) st tr.
Proof.
  unfold mbind, M_bind, bind.
  destruct (c st tr) as [[[a|msg] st'] tr']; reflexivity.
Qed.

Lemma run_deref_Some {S A B} (a : A) (k : A -> M S B) st tr :
  (deref (Some a) ≫= k) st tr = k a st tr.
Proof. reflexivity. Qed.

Lemma run_deref_None {S A B} (k : A -> M S B) st tr :
  (deref None ≫= k) st tr = (Panicked nil_deref, st, tr).
Proof. reflexivity. Qed.

Lemma run_writeText {S B} text dir name (k : unit -> M S B) st tr :
  (writeText text dir name ≫= k) st tr
  = k tt st (tr ++ writeText_events text dir name).
Proof.
  unfold Step.writeText, Step.writeText_events, mbind, M_bind, bind,
    log_if_err, log_events, emit, ret.
  destruct (os_MkdirAll _), (ioutil_WriteFile _ _); simpl;
    rewrite <- ?app_assoc; reflexivity.
Qed.

Lemma run_writeText_end {S} text dir name (st : S) tr :
  writeText text dir name st tr
  = (Returned tt, st, tr ++ writeText_events text dir name).
Proof.
  unfold Step.writeText, Step.writeText_events, mbind, M_bind, bind,
    log_if_err, log_events, emit, ret.
  destruct (os_MkdirAll _), (ioutil_WriteFile _ _); simpl;
    rewrite <- ?app_assoc; reflexivity.
Qed.

Lemma run_terraformEnviron {S B} sp access (k : _ -> M S B) st tr :
  (terraformEnviron (Some sp) access ≫= k) st tr
  = k (<["ARM_ACCESS_KEY" := access]>
         (<["ARM_TENANT_ID" := Cloud.Tenant sp]>
            (<["ARM_CLIENT_SECRET" := Cloud.ClientSecret sp]>
               (<["ARM_CLIENT_ID" := Cloud.ClientID sp]> ∅)))) st tr.
Proof. reflexivity. Qed.

Lemma run_drain {S B} id ch l0 (k : _ -> M S B) st tr :
  (drain id ch l0 ≫= k) st tr
  = k (match last ch with Some r => Some r | None => l0 end) st
      (tr ++ progress_events id ch).
Proof.
  revert l0 tr. induction ch as [|r ch IH]; intros l0 tr.
  - simpl. rewrite app_nil_r. reflexivity.
  - cbn [drain]. rewrite run_assoc. unfold when.
    destruct (String.eqb (Terraform.Object r) "") eqn:E;
      simpl negb; cbv iota.
    + change (ret tt) with (@mret (M S) _ _ tt). rewrite run_mret, IH.
      cbn [progress_events flat_map]. rewrite E, last_cons. simpl app.
      by destruct (last ch).
    + rewrite run_emit, IH. cbn [progress_events flat_map].
      rewrite E, last_cons, <- app_assoc. by destruct (last ch).
Qed.

Lemma run_wait_cmd {S B} cmd msg (k : unit -> M S B) st tr :
  (wait_cmd cmd msg ≫= k) st tr = k tt st (tr ++ wait_events cmd msg).
Proof.
  destruct cmd as [c|]; simpl.
  - unfold wait_cmd. rewrite run_assoc, run_emit.
    destruct (Terraform.Wait c); simpl.
    + by rewrite run_emit, <- app_assoc.
    + by rewrite run_mret.
  - unfold wait_cmd. rewrite run_mret. by rewrite app_nil_r.
Qed.

Ltac reduce_step :=
  cbn [InfraStep.SourcePath InfraStep.Values InfraStep.Cloud_
       InfraStep.Terraform_ InfraStep.Metaa_ InfraStep.Added
       InfraStep.Changed InfraStep.Deleted InfraStep.with_Metaa
       InfraStep.with_counts InfraStep.Meta
       DestroyStep.SourcePath DestroyStep.Values DestroyStep.Cloud_
       DestroyStep.Terraform_ DestroyStep.Metaa_ DestroyStep.Added
       DestroyStep.Changed DestroyStep.Deleted DestroyStep.with_Metaa
       DestroyStep.with_counts DestroyStep.Meta
       ID_ Hash State Msg Metaa_with_State Metaa_with_Msg].

(** Symbolic execution: run the computation at the head of the goal as
    far as its primitives determine it. *)
Ltac exec :=
  repeat first
    [ rewrite run_assoc | rewrite run_emit | rewrite run_modify
    | rewrite run_get | rewrite run_mret | rewrite run_writeText
    | rewrite run_drain | rewrite run_terraformEnviron
    | rewrite run_wait_cmd | rewrite run_deref_Some
    | rewrite run_deref_None | rewrite run_mret_end
    | rewrite run_writeText_end
    | progress reduce_step | progress cbv beta iota ].

(** *** Properties of traces *)

Lemma plain_calm e : plain e -> calm e.
Proof. by destruct e. Qed.

Lemma plain_steady e : plain e -> steady e.
Proof. by destruct e. Qed.

Lemma calm_steady e : calm e -> steady e.
Proof. by destruct e. Qed.

Lemma plain_writeText text dir name :
  Forall plain (writeText_events text dir name).
Proof.
  unfold Step.writeText_events, log_events.
  destruct (os_MkdirAll _), (ioutil_WriteFile _ _); repeat constructor.
Qed.

Lemma plain_progress id ch : Forall plain (progress_events id ch).
Proof.
  induction ch as [|r ch IH]; [constructor|].
  cbn [progress_events flat_map]. apply Forall_app. split; [|exact IH].
  destruct (String.eqb _ _); repeat constructor.
Qed.

Lemma plain_wait cmd msg : Forall plain (wait_events cmd msg).
Proof.
  destruct cmd as [c|]; [|constructor]. simpl.
  destruct (Terraform.Wait c); repeat constructor.
Qed.

Ltac plain_part :=
  first [ apply plain_writeText | apply plain_progress | apply plain_wait ].

Ltac trace_all :=
  lazymatch goal with
  | |- Forall _ (_ ++ _) => apply Forall_app; split; trace_all
  | |- Forall _ [] => constructor
  | |- Forall _ (_ :: _) =>
      constructor; [first [exact I | reflexivity] | trace_all]
  | |- Forall calm _ =>
      eapply Forall_impl; [plain_part | exact plain_calm]
  | |- Forall steady _ =>
      eapply Forall_impl; [plain_part | exact plain_steady]
  end.

Lemma filter_write_writeText text dir name :
  List.filter is_write (writeText_events text dir name)
  = [WriteFile (filepath_Join (filepath_Join dir "log") name) text].
Proof.
  unfold Step.writeText_events, log_events.
  destruct (os_MkdirAll _), (ioutil_WriteFile _ _); reflexivity.
Qed.

Lemma filter_write_progress id ch :
  List.filter is_write (progress_events id ch) = [].
Proof.
  unfold progress_events.
  induction ch as [|r ch IH]; [reflexivity|].
  cbn [flat_map]. rewrite List.filter_app, IH.
  by destruct (String.eqb _ _).
Qed.

Lemma filter_write_wait cmd msg :
  List.filter is_write (wait_events cmd msg) = [].
Proof.
  destruct cmd as [c|]; [|reflexivity]. simpl.
  by destruct (Terraform.Wait c).
Qed.

Lemma calm_no_apply evs m a c d :
  Forall calm evs -> no_apply (evs ++ [Update m a c d]).
Proof.
  intros H env dir Hin. apply elem_of_app in Hin as [Hin|Hin].
  - rewrite Forall_forall in H. exact (H _ Hin).
  - by apply list_elem_of_singleton in Hin.
Qed.

Lemma last_Update_snoc evs m a c d :
  last_Update (evs ++ [Update m a c d]) = Some (Update m a c d).
Proof.
  unfold last_Update. rewrite List.filter_app. simpl. apply last_snoc.
Qed.

Lemma exceeds_None n limit : exceeds n limit = None <-> within n limit.
Proof.
  unfold exceeds, within. destruct limit as [l|]; [|done].
  destruct (Z.ltb_spec l n); split; (done || lia).
Qed.

Lemma exceeds_Some n limit l :
  exceeds n limit = Some l <-> limit = Some l /\ (l < n)%Z.
Proof.
  unfold exceeds. destruct limit as [l'|].
  - destruct (Z.ltb_spec l' n); split.
    + by intros [= ->].
    + by intros [[= ->] _].
    + done.
    + intros [[= ->] ?]. lia.
  - split; [done | by intros [? _]].
Qed.

(** The zero test of [Execute] fails as soon as one count is not zero. *)
Lemma not_all_zero a c d :
  ~ (a = 0 /\ c = 0 /\ d = 0)%Z ->
  ((a =? 0) && (c =? 0) && (d =? 0))%Z = false.
Proof.
  intros H. apply not_true_is_false. intros Ht.
  apply andb_true_iff in Ht as [Ht Hd]. apply andb_true_iff in Ht as [Ha Hc].
  apply Z.eqb_eq in Ha, Hc, Hd. tauto.
Qed.

(** The final step and trace are read off the executed goal. *)
Ltac finish :=
  lazymatch goal with
  | |- exists st' evs, (_, ?s, ?tr ++ [_]) = @?r st' evs /\ @?Q st' evs =>
      exists s, tr; split; [reflexivity|]
  | |- exists st' evs, (_, ?s, ?tr) = @?r st' evs /\ @?Q st' evs =>
      exists s, tr; split; [reflexivity|]
  end.

Ltac finish_whole :=
  lazymatch goal with
  | |- exists st' evs, (_, ?s, ?tr) = @?r st' evs /\ @?Q st' evs =>
      exists s, tr; split; [reflexivity|]
  end.

(** The common prefix of every execution that gets to a successful plan:
    what is left to run is the part of [Execute] after the plan's error
    check, on a step that is Running. *)
Ltac run_to_plan env st sp Hx Hl Hi Hp He :=
  unfold run, Step.InfraStep_Execute, Step.InfraStep_Execute_plan,
    Step.InfraStep_Execute_apply, Infra_fail, Infra_set_State,
    Infra_set_Msg, Infra_set_counts, Infra_Update, Step.writeEnv;
  exec; rewrite Hx; exec; rewrite Hl; exec;
  fold (Infra_env env st sp); rewrite Hi; exec; rewrite Hp, He; exec.

Lemma Infra_run_nothing_to_do env st sp tfr :
  Infra_plans env st sp tfr ->
  Terraform.PlanAdded tfr = 0%Z ->
  Terraform.PlanChanged tfr = 0%Z ->
  Terraform.PlanDeleted tfr = 0%Z ->
  exists st' evs,
    run (InfraStep_Execute env) st
      = (Returned true, st', evs ++ [Update (InfraStep.Meta st') 0 0 0])
    /\ State (InfraStep.Meta st') = V1.StateReady
    /\ Msg (InfraStep.Meta st') = "terraform plan: nothing to do"
    /\ Forall calm evs.
Proof.
  intros (Hx & Hl & Hi & Hp & He) Ha Hc Hd.
  run_to_plan env st sp Hx Hl Hi Hp He.
  rewrite Ha, Hc, Hd. rewrite !Z.eqb_refl. cbn [andb]. exec.
  finish. split; [reflexivity|]. split; [reflexivity|]. trace_all.
Qed.

Lemma Infra_run_over_budget env st sp tfr :
  let a := Terraform.PlanAdded tfr in
  let c := Terraform.PlanChanged tfr in
  let d := Terraform.PlanDeleted tfr in
  let b := V1.Budget (Infra (InfraStep.Values st)) in
  Infra_plans env st sp tfr ->
  ~ (a = 0 /\ c = 0 /\ d = 0)%Z ->
  ~ (within a (V1.AddLimit b) /\ within c (V1.UpdateLimit b)
     /\ within d (V1.DeleteLimit b)) ->
  exists st' evs,
    run (InfraStep_Execute env) st
      = (Returned false, st', evs ++ [Update (InfraStep.Meta st') a c d])
    /\ State (InfraStep.Meta st') = V1.StateError
    /\ ((exists l, V1.AddLimit b = Some l /\ (l < a)%Z
                   /\ Msg (InfraStep.Meta st')
                      = "plan added " +:+ fmt_d a
                        +:+ " exceeds addLimit " +:+ fmt_d l)
        \/ (exists l, V1.UpdateLimit b = Some l /\ (l < c)%Z
                      /\ within a (V1.AddLimit b)
                      /\ Msg (InfraStep.Meta st')
                         = "plan changed " +:+ fmt_d c
                           +:+ " exceeds updateLimit " +:+ fmt_d l)
        \/ (exists l, V1.DeleteLimit b = Some l /\ (l < d)%Z
                      /\ within a (V1.AddLimit b)
                      /\ within c (V1.UpdateLimit b)
                      /\ Msg (InfraStep.Meta st')
                         = "plan deleted " +:+ fmt_d d
                           +:+ " exceeds deleteLimit " +:+ fmt_d l))
    /\ Forall calm evs.
Proof.
  intros a c d b (Hx & Hl & Hi & Hp & He) Hnz Hover.
  run_to_plan env st sp Hx Hl Hi Hp He.
  fold a c d. rewrite (not_all_zero a c d Hnz). fold b.
  destruct (exceeds a (V1.AddLimit b)) as [l|] eqn:Ea.
  { apply exceeds_Some in Ea as [Ea La]. exec.
    finish. split; [reflexivity|].
    split; [left; by exists l|]. trace_all. }
  apply exceeds_None in Ea.
  destruct (exceeds c (V1.UpdateLimit b)) as [l|] eqn:Ec.
  { apply exceeds_Some in Ec as [Ec Lc]. exec.
    finish. split; [reflexivity|].
    split; [right; left; by exists l|]. trace_all. }
  apply exceeds_None in Ec.
  destruct (exceeds d (V1.DeleteLimit b)) as [l|] eqn:Ed.
  { apply exceeds_Some in Ed as [Ed Ld]. exec.
    finish. split; [reflexivity|].
    split; [right; right; by exists l|]. trace_all. }
  apply exceeds_None in Ed. tauto.
Qed.

(** Past the budget gate: what is left to run is the apply. *)
Ltac run_to_apply env st sp tfr Hx Hl Hi Hp He Hnz Ha Hc Hd Hs :=
  run_to_plan env st sp Hx Hl Hi Hp He;
  rewrite (not_all_zero _ _ _ Hnz);
  rewrite (proj2 (exceeds_None _ _) Ha), (proj2 (exceeds_None _ _) Hc),
    (proj2 (exceeds_None _ _) Hd);
  exec; rewrite Hs; exec.

Lemma Infra_run_apply_ready env st sp tfr cmd ch r :
  Infra_applies env st sp tfr ->
  Terraform.StartApply (InfraStep.Terraform_ st) (Infra_env env st sp)
    (InfraStep.SourcePath st) = (cmd, ch, None) ->
  last ch = Some r ->
  Terraform.AErrors r = [] ->
  exists st' evs,
    run (InfraStep_Execute env) st
      = (Returned true, st',
         evs ++ [Update (InfraStep.Meta st') (Terraform.TotalAdded r)
                   (Terraform.TotalChanged r) (Terraform.TotalDestroyed r)])
    /\ State (InfraStep.Meta st') = V1.StateReady.
Proof.
  intros ((Hx & Hl & Hi & Hp & He) & Hnz & Ha & Hc & Hd) Hs Hlast Herr.
  run_to_apply env st sp tfr Hx Hl Hi Hp He Hnz Ha Hc Hd Hs.
  rewrite Hlast. exec. rewrite Herr. exec.
  finish. reflexivity.
Qed.

Lemma Infra_run_apply_errors env st sp tfr cmd ch r :
  Infra_applies env st sp tfr ->
  Terraform.StartApply (InfraStep.Terraform_ st) (Infra_env env st sp)
    (InfraStep.SourcePath st) = (cmd, ch, None) ->
  last ch = Some r ->
  Terraform.AErrors r <> [] ->
  exists st' evs,
    run (InfraStep_Execute env) st
      = (Returned false, st',
         evs ++ [Update (InfraStep.Meta st') (Terraform.TotalAdded r)
                   (Terraform.TotalChanged r) (Terraform.TotalDestroyed r)])
    /\ State (InfraStep.Meta st') = V1.StateError
    /\ Msg (InfraStep.Meta st') = String.concat ", " (Terraform.AErrors r).
Proof.
  intros ((Hx & Hl & Hi & Hp & He) & Hnz & Ha & Hc & Hd) Hs Hlast Herr.
  run_to_apply env st sp tfr Hx Hl Hi Hp He Hnz Ha Hc Hd Hs.
  rewrite Hlast. exec.
  destruct (Terraform.AErrors r) as [|e0 errs] eqn:E; [done|]. exec.
  finish. split; reflexivity.
Qed.

Lemma Infra_run_apply_not_started env st sp tfr cmd ch err :
  Infra_applies env st sp tfr ->
  Terraform.StartApply (InfraStep.Terraform_ st) (Infra_env env st sp)
    (InfraStep.SourcePath st) = (cmd, ch, Some err) ->
  exists st' evs,
    run (InfraStep_Execute env) st
      = (Returned false, st',
         evs ++ [Update (InfraStep.Meta st') (Terraform.PlanAdded tfr)
                   (Terraform.PlanChanged tfr) (Terraform.PlanDeleted tfr)])
    /\ State (InfraStep.Meta st') = V1.StateError
    /\ Msg (InfraStep.Meta st') = "start terraform apply:" +:+ err.
Proof.
  intros ((Hx & Hl & Hi & Hp & He) & Hnz & Ha & Hc & Hd) Hs.
  run_to_apply env st sp tfr Hx Hl Hi Hp He Hnz Ha Hc Hd Hs.
  finish. split; reflexivity.
Qed.

(** The apply channel closes without a record: [last] is nil when
    [last.Text] is read, and [Execute] panics with the step still
    Running; nothing but Running was ever reported. *)
Lemma Infra_run_no_progress env st sp tfr cmd ch :
  Infra_applies env st sp tfr ->
  Terraform.StartApply (InfraStep.Terraform_ st) (Infra_env env st sp)
    (InfraStep.SourcePath st) = (cmd, ch, None) ->
  last ch = None ->
  exists st' evs,
    run (InfraStep_Execute env) st = (Panicked nil_deref, st', evs)
    /\ State (InfraStep.Meta st') = V1.StateRunning
    /\ Forall steady evs.
Proof.
  intros ((Hx & Hl & Hi & Hp & He) & Hnz & Ha & Hc & Hd) Hs Hlast.
  run_to_apply env st sp tfr Hx Hl Hi Hp He Hnz Ha Hc Hd Hs.
  rewrite Hlast. exec.
  finish_whole. split; [reflexivity|]. trace_all.
Qed.

Ltac run_to_destroy Hx Hi Hs :=
  unfold run, Step.DestroyStep_Execute, Destroy_fail, Destroy_set_State,
    Destroy_set_Msg, Destroy_set_counts, Destroy_Update;
  exec; rewrite Hx; exec; rewrite Hi; exec; rewrite Hs; exec.

(** The destroy channel closes without a record: as for the apply. *)
Lemma Destroy_run_no_progress env st cmd ch :
  Destroy_inits env st ->
  Terraform.StartDestroy (DestroyStep.Terraform_ st) env
    (DestroyStep.SourcePath st) = (cmd, ch, None) ->
  last ch = None ->
  exists st' evs,
    run (DestroyStep_Execute env) st = (Panicked nil_deref, st', evs)
    /\ State (DestroyStep.Meta st') = V1.StateRunning
    /\ Forall steady evs.
Proof.
  intros (Hx & Hi) Hs Hlast.
  run_to_destroy Hx Hi Hs. rewrite Hlast. exec.
  finish_whole. split; [reflexivity|]. trace_all.
Qed.

(** Where the Destroy step writes: the source path is the text, the file
    name the directory and terraform's output the file name. *)
Lemma Destroy_run_ready env st cmd ch r :
  Destroy_inits env st ->
  Terraform.StartDestroy (DestroyStep.Terraform_ st) env
    (DestroyStep.SourcePath st) = (cmd, ch, None) ->
  last ch = Some r ->
  Terraform.AErrors r = [] ->
  let dir := DestroyStep.SourcePath st in
  let init := Terraform.Init (DestroyStep.Terraform_ st) env dir in
  exists st' evs,
    run (DestroyStep_Execute env) st = (Returned true, st', evs)
    /\ State (DestroyStep.Meta st') = V1.StateReady
    /\ List.filter is_write evs
       = [WriteFile
            (filepath_Join (filepath_Join "init.txt" "log")
               (Terraform.Text init)) dir;
          WriteFile
            (filepath_Join (filepath_Join "destroy.txt" "log")
               (Terraform.AText r)) dir].
Proof.
  intros (Hx & Hi) Hs Hlast Herr dir init.
  run_to_destroy Hx Hi Hs. rewrite Hlast. exec. rewrite Herr. exec.
  finish_whole. split; [reflexivity|].
  rewrite !List.filter_app, filter_write_progress, filter_write_wait,
    !filter_write_writeText. reflexivity.
Qed.

Lemma within_dec n limit : {within n limit} + {~ within n limit}.
Proof.
  destruct limit as [l|]; simpl; [apply Z_le_dec | by left].
Qed.

(** C6. When terraform plan succeeds with nothing to add, change or
    delete, [Execute] returns true with the step Ready and the message
    "terraform plan: nothing to do"; that is the last state reported to
    the update sink, and [StartApply] is never called. *)
Theorem InfraStep_nothing_to_do env st sp tfr :
  Infra_plans env st sp tfr ->
  Terraform.PlanAdded tfr = 0%Z ->
  Terraform.PlanChanged tfr = 0%Z ->
  Terraform.PlanDeleted tfr = 0%Z ->
  exists st' tr,
    run (InfraStep_Execute env) st = (Returned true, st', tr)
    /\ State (InfraStep.Meta st') = V1.StateReady
    /\ Msg (InfraStep.Meta st') = "terraform plan: nothing to do"
    /\ last_Update tr = Some (Update (InfraStep.Meta st') 0 0 0)
    /\ no_apply tr.
Proof.
  intros Hp Ha Hc Hd.
  destruct (Infra_run_nothing_to_do env st sp tfr Hp Ha Hc Hd)
    as (st' & evs & Hrun & Hst & Hmsg & Hevs).
  exists st', (evs ++ [Update (InfraStep.Meta st') 0 0 0]).
  split; [done|]. split; [done|]. split; [done|].
  split; [apply last_Update_snoc|]. by apply calm_no_apply.
Qed.

(** C5, as the code has it. When the plan succeeds with counts that are
    not all zero and some count exceeds its non-nil limit, [Execute]
    returns false with the step in state Error and the message of the
    first limit that is exceeded, in the order add, update, delete: "plan
    added N exceeds addLimit M", "plan changed N exceeds updateLimit M" or
    "plan deleted N exceeds deleteLimit M"; that is the last state
    reported to the update sink, and [StartApply] is never called. *)
Theorem InfraStep_budget_gate env st sp tfr :
  let a := Terraform.PlanAdded tfr in
  let c := Terraform.PlanChanged tfr in
  let d := Terraform.PlanDeleted tfr in
  let b := V1.Budget (Infra (InfraStep.Values st)) in
  Infra_plans env st sp tfr ->
  ~ (a = 0 /\ c = 0 /\ d = 0)%Z ->
  over_limit a (V1.AddLimit b) \/ over_limit c (V1.UpdateLimit b)
  \/ over_limit d (V1.DeleteLimit b) ->
  exists st' tr,
    run (InfraStep_Execute env) st = (Returned false, st', tr)
    /\ State (InfraStep.Meta st') = V1.StateError
    /\ ((exists l, V1.AddLimit b = Some l /\ (l < a)%Z
                   /\ Msg (InfraStep.Meta st')
                      = "plan added " +:+ fmt_d a
                        +:+ " exceeds addLimit " +:+ fmt_d l)
        \/ (exists l, V1.UpdateLimit b = Some l /\ (l < c)%Z
                      /\ within a (V1.AddLimit b)
                      /\ Msg (InfraStep.Meta st')
                         = "plan changed " +:+ fmt_d c
                           +:+ " exceeds updateLimit " +:+ fmt_d l)
        \/ (exists l, V1.DeleteLimit b = Some l /\ (l < d)%Z
                      /\ within a (V1.AddLimit b)
                      /\ within c (V1.UpdateLimit b)
                      /\ Msg (InfraStep.Meta st')
                         = "plan deleted " +:+ fmt_d d
                           +:+ " exceeds deleteLimit " +:+ fmt_d l))
    /\ last_Update tr = Some (Update (InfraStep.Meta st') a c d)
    /\ no_apply tr.
Proof.
  intros a c d b Hp Hnz Hover.
  assert (~ (within a (V1.AddLimit b) /\ within c (V1.UpdateLimit b)
             /\ within d (V1.DeleteLimit b))) as Hout.
  { unfold over_limit in Hover. intros (Ha & Hc & Hd).
    destruct Hover as [(l & E & ?)|[(l & E & ?)|(l & E & ?)]];
      rewrite E in *; simpl in *; lia. }
  destruct (Infra_run_over_budget env st sp tfr Hp Hnz Hout)
    as (st' & evs & Hrun & Hst & Hmsg & Hevs).
  exists st', (evs ++ [Update (InfraStep.Meta st') a c d]).
  split; [done|]. split; [done|]. split; [done|].
  split; [apply last_Update_snoc | by apply calm_no_apply].
Qed.

(** C3, as the code has it. When the plan succeeds with counts
    [(a, c, d)], none negative, the step reaches Ready if and only if
    either all three counts are zero (there is nothing to do and nothing
    is applied), or [a + c + d > 0], each count is within its non-nil
    limit and the apply that follows succeeds. *)
Theorem InfraStep_ready_iff env st sp tfr :
  let a := Terraform.PlanAdded tfr in
  let c := Terraform.PlanChanged tfr in
  let d := Terraform.PlanDeleted tfr in
  let b := V1.Budget (Infra (InfraStep.Values st)) in
  Infra_plans env st sp tfr ->
  (0 <= a)%Z -> (0 <= c)%Z -> (0 <= d)%Z ->
  Infra_ready (run (InfraStep_Execute env) st)
  <-> (a = 0 /\ c = 0 /\ d = 0)%Z
      \/ ((a + c + d > 0)%Z
          /\ within a (V1.AddLimit b) /\ within c (V1.UpdateLimit b)
          /\ within d (V1.DeleteLimit b)
          /\ Infra_apply_succeeds env st sp).
Proof.
  intros a c d b Hp Ha0 Hc0 Hd0. unfold Infra_ready.
  destruct (decide (a = 0 /\ c = 0 /\ d = 0)%Z) as [(Ha & Hc & Hd)|Hnz].
  { destruct (Infra_run_nothing_to_do env st sp tfr Hp Ha Hc Hd)
      as (st' & evs & -> & Hst & _). simpl. split; [by left | done]. }
  destruct (within_dec a (V1.AddLimit b)) as [Wa|Wa];
    [destruct (within_dec c (V1.UpdateLimit b)) as [Wc|Wc];
     [destruct (within_dec d (V1.DeleteLimit b)) as [Wd|Wd]|]|].
  2-4: destruct (Infra_run_over_budget env st sp tfr Hp Hnz)
         as (st' & evs & -> & _); [tauto|]; simpl;
       split; [intros [[=] _] | tauto].
  assert (Infra_applies env st sp tfr) as Happ by done.
  destruct (Terraform.StartApply (InfraStep.Terraform_ st)
              (Infra_env env st sp) (InfraStep.SourcePath st))
    as [[cmd ch] [err|]] eqn:Hs.
  { destruct (Infra_run_apply_not_started _ _ _ _ _ _ _ Happ Hs)
      as (st' & evs & -> & _). simpl. split; [intros [[=] _]|].
    intros [?|(_ & _ & _ & _ & cmd' & ch' & r & Hs' & _)]; [done|].
    unfold Step.Infra_env in *. congruence. }
  destruct (last ch) as [r|] eqn:Hlast.
  2: { destruct (Infra_run_no_progress _ _ _ _ _ _ Happ Hs Hlast)
         as (st' & evs & -> & _). simpl. split; [intros [[=] _]|].
       intros [?|(_ & _ & _ & _ & cmd' & ch' & r & Hs' & Hl' & _)];
         [done|].
       unfold Step.Infra_env in *. congruence. }
  destruct (Terraform.AErrors r) as [|e0 errs] eqn:Herr.
  - destruct (Infra_run_apply_ready _ _ _ _ _ _ _ Happ Hs Hlast Herr)
      as (st' & evs & -> & Hst). simpl. split; [|done].
    intros _. right. repeat split; try done; [lia|].
    by exists cmd, ch, r.
  - destruct (Infra_run_apply_errors _ _ _ _ _ _ r Happ Hs Hlast)
      as (st' & evs & -> & _); [by rewrite Herr|].
    simpl. split; [intros [[=] _]|].
    intros [?|(_ & _ & _ & _ & cmd' & ch' & r' & Hs' & Hl' & He')];
      [done|].
    unfold Step.Infra_env in *. congruence.
Qed.


(** *** Every way through [Execute] *)

Abbreviation log_file := (Step.log_file filepath_Join).
Abbreviation Infra_logs_in := (Step.Infra_logs_in tmplt_ExpandAll).

Lemma bind_ret_r {S A} (c : M S A) st tr : (c ≫= mret) st tr = c st tr.
Proof.
  unfold mbind, M_bind, bind. by destruct (c st tr) as [[[a|msg] st'] tr'].
Qed.

Lemma drain_end {S} id ch l0 (st : S) tr :
  drain id ch l0 st tr
  = (Returned (match last ch with Some r => Some r | None => l0 end), st,
     tr ++ progress_events id ch).
Proof. rewrite <- bind_ret_r. by rewrite run_drain. Qed.

Lemma wait_cmd_end {S} cmd msg (st : S) tr :
  wait_cmd cmd msg st tr = (Returned tt, st, tr ++ wait_events cmd msg).
Proof. rewrite <- bind_ret_r. by rewrite run_wait_cmd. Qed.

(** Symbolic execution by computation: the primitives are unfolded, and the
    calls whose trace depends on the file system, the channel or the process
    handle are replaced by their results. *)
Ltac crunch :=
  repeat (progress
    (cbv beta iota zeta delta
       [mbind mret M_bind M_ret bind ret emit modify get deref panic
        terraformEnviron];
     reduce_step;
     rewrite ?run_writeText_end, ?drain_end, ?wait_cmd_end)).

Ltac infra_start :=
  unfold run, Step.InfraStep_Execute, Step.InfraStep_Execute_plan,
    Step.InfraStep_Execute_apply, Infra_fail, Infra_set_State,
    Infra_set_Msg, Infra_set_counts, Infra_Update, Step.writeEnv;
  crunch.

(** One goal for each way through [InfraStep.Execute], with the tests
    taken on the way as hypotheses. *)
Ltac infra_paths leaf :=
  infra_start;
  destruct (tmplt_ExpandAll _ _ _) as [?err|] eqn:?Hx; crunch; [leaf|];
  destruct (Cloud.Login _) as [[?sp|] [?err|]] eqn:?Hl; crunch;
    [leaf| |leaf|leaf];
  destruct (Terraform.Errors (Terraform.Init _ _ _)) as [|?e0 ?es] eqn:?Hi;
    crunch; [|leaf];
  destruct (Terraform.Errors (Terraform.Plan _ _ _)) as [|?e0 ?es] eqn:?He;
    crunch; [|leaf];
  destruct ((_ =? 0) && (_ =? 0) && (_ =? 0))%Z eqn:?Hz; crunch; [leaf|];
  destruct (exceeds _ (V1.AddLimit _)) as [?l|] eqn:?Ea; crunch; [leaf|];
  destruct (exceeds _ (V1.UpdateLimit _)) as [?l|] eqn:?Ec; crunch; [leaf|];
  destruct (exceeds _ (V1.DeleteLimit _)) as [?l|] eqn:?Ed; crunch; [leaf|];
  destruct (Terraform.StartApply _ _ _) as [[?cmd ?ch] [?err|]] eqn:?Hs;
    crunch; [leaf|];
  destruct (last _) as [?r|] eqn:?Hlast; crunch; [|leaf];
  destruct (Terraform.AErrors _) as [|?e0 ?es] eqn:?Herr; crunch; leaf.

Ltac destroy_start :=
  unfold run, Step.DestroyStep_Execute, Destroy_fail, Destroy_set_State,
    Destroy_set_Msg, Destroy_set_counts, Destroy_Update;
  crunch.

(** The same for [DestroyStep.Execute]. *)
Ltac destroy_paths leaf :=
  destroy_start;
  destruct (tmplt_ExpandAll _ _ _) as [?err|] eqn:?Hx; crunch; [leaf|];
  destruct (Terraform.Errors (Terraform.Init _ _ _)) as [|?e0 ?es] eqn:?Hi;
    crunch; [|leaf];
  destruct (Terraform.StartDestroy _ _ _) as [[?cmd ?ch] [?err|]] eqn:?Hs;
    crunch; [leaf|];
  destruct (last _) as [?r|] eqn:?Hlast; crunch; [|leaf];
  destruct (Terraform.AErrors _) as [|?e0 ?es] eqn:?Herr; crunch; leaf.

Lemma filing_writeText text dir name :
  Forall filing (writeText_events text dir name).
Proof.
  unfold Step.writeText_events, log_events.
  destruct (os_MkdirAll _), (ioutil_WriteFile _ _); repeat constructor.
Qed.

(** The outcome of the final test [st.State == v1.StateReady]. *)
Ltac decide_state :=
  try rewrite (bool_decide_eq_true_2 (V1.StateReady = V1.StateReady))
    by reflexivity;
  try rewrite (bool_decide_eq_false_2 (V1.StateError = V1.StateReady))
    by discriminate.

Ltac trace_each :=
  lazymatch goal with
  | |- Forall _ (_ ++ _) => apply Forall_app; split; trace_each
  | |- Forall _ [] => constructor
  | |- Forall _ (_ :: _) =>
      constructor; [first [exact I | reflexivity] | trace_each]
  | |- Forall plain _ => plain_part
  | |- Forall filing _ => apply filing_writeText
  | |- Forall calm _ =>
      eapply Forall_impl; [plain_part | exact plain_calm]
  | |- Forall steady _ =>
      eapply Forall_impl; [plain_part | exact plain_steady]
  end.

Ltac find_update :=
  first [ apply elem_of_app; right; apply list_elem_of_singleton; reflexivity
        | apply elem_of_app; left; find_update ].

Ltac report_leaf :=
  cbn [fst snd]; decide_state;
  lazymatch goal with
  | |- reported _ (Returned _) (?tr ++ [Update ?m ?a ?c ?d]) =>
      split; [reflexivity|];
      exists tr, a, c, d, []; split; [reflexivity|];
      split; [trace_each|]; split; [eexists _, _, _, _; find_update|];
      constructor
  | |- reported _ (Returned _) ((?tr ++ [Update ?m ?a ?c ?d]) ++ ?tl) =>
      split; [reflexivity|];
      exists tr, a, c, d, tl; split; [by rewrite <- app_assoc|];
      split; [trace_each|]; split; [eexists _, _, _, _; find_update|];
      trace_each
  | |- reported _ (Panicked _) _ =>
      split; [reflexivity|]; split; [reflexivity|]; trace_each
  end.

(** The goal [exists out st' tr, run = (out, st', tr) /\ P out st' tr]
    on one path. *)
Ltac on_path tac :=
  eexists _, _, _; split; [reflexivity|]; tac.

Lemma Infra_run_reported env st :
  exists out st' tr,
    run (InfraStep_Execute env) st = (out, st', tr)
    /\ reported (InfraStep.Meta st') out tr.
Proof. infra_paths ltac:(on_path report_leaf). Qed.

Lemma Destroy_run_reported env st :
  exists out st' tr,
    run (DestroyStep_Execute env) st = (out, st', tr)
    /\ reported (DestroyStep.Meta st') out tr.
Proof. destroy_paths ltac:(on_path report_leaf). Qed.

Lemma Infra_run_same_step env st :
  exists out st' tr,
    run (InfraStep_Execute env) st = (out, st', tr)
    /\ Infra_same_step st st'.
Proof. infra_paths ltac:(on_path ltac:(by repeat split)). Qed.

Lemma Destroy_run_same_step env st :
  exists out st' tr,
    run (DestroyStep_Execute env) st = (out, st', tr)
    /\ Destroy_same_step st st'.
Proof. destroy_paths ltac:(on_path ltac:(by repeat split)). Qed.

(** *** Sifting a trace *)

Lemma calls_app tr1 tr2 : calls (tr1 ++ tr2) = calls tr1 ++ calls tr2.
Proof. apply List.filter_app. Qed.

Lemma infos_app tr1 tr2 : infos (tr1 ++ tr2) = infos tr1 ++ infos tr2.
Proof. apply List.filter_app. Qed.

Lemma writes_app tr1 tr2 : writes (tr1 ++ tr2) = writes tr1 ++ writes tr2.
Proof. apply List.filter_app. Qed.

Lemma writes_writeText text dir name :
  writes (writeText_events text dir name) = [WriteFile (log_file dir name) text].
Proof. apply filter_write_writeText. Qed.

Lemma writes_progress id ch : writes (progress_events id ch) = [].
Proof. apply filter_write_progress. Qed.

Lemma writes_wait cmd msg : writes (wait_events cmd msg) = [].
Proof. apply filter_write_wait. Qed.

Lemma calls_writeText text dir name :
  calls (writeText_events text dir name) = [].
Proof.
  unfold Step.writeText_events, log_events.
  destruct (os_MkdirAll _), (ioutil_WriteFile _ _); reflexivity.
Qed.

Lemma calls_progress id ch : calls (progress_events id ch) = [].
Proof.
  unfold progress_events.
  induction ch as [|r ch IH]; [reflexivity|].
  cbn [flat_map]. rewrite calls_app, IH. by destruct (String.eqb _ _).
Qed.

Lemma calls_wait cmd msg :
  calls (wait_events cmd msg)
  = match cmd with Some _ => [CallWait] | None => [] end.
Proof.
  destruct cmd as [c|]; [|reflexivity]. simpl.
  by destruct (Terraform.Wait c).
Qed.

Lemma infos_writeText text dir name :
  infos (writeText_events text dir name) = [].
Proof.
  unfold Step.writeText_events, log_events.
  destruct (os_MkdirAll _), (ioutil_WriteFile _ _); reflexivity.
Qed.

Lemma infos_progress id ch :
  infos (progress_events id ch) = progress_events id ch.
Proof.
  unfold progress_events.
  induction ch as [|r ch IH]; [reflexivity|].
  cbn [flat_map]. rewrite infos_app, IH. by destruct (String.eqb _ _).
Qed.

Lemma infos_wait cmd msg : infos (wait_events cmd msg) = [].
Proof.
  destruct cmd as [c|]; [|reflexivity]. simpl.
  by destruct (Terraform.Wait c).
Qed.

Lemma elem_of_calls e tr : is_call e = true -> e ∈ tr <-> e ∈ calls tr.
Proof.
  intros He. unfold calls. rewrite !list_elem_of_In, filter_In.
  rewrite He. intuition.
Qed.

Ltac sift :=
  rewrite ?calls_app, ?infos_app, ?writes_app;
  rewrite ?calls_writeText, ?calls_progress, ?calls_wait,
    ?infos_writeText, ?infos_progress, ?infos_wait,
    ?writes_writeText, ?writes_progress, ?writes_wait;
  cbn [calls infos writes List.filter is_call is_Info is_write app];
  rewrite ?app_nil_r.

(** *** The calls [Execute] makes *)

Lemma Infra_run_calls env st :
  let dir := InfraStep.SourcePath st in
  exists out st' tr,
    run (InfraStep_Execute env) st = (out, st', tr)
    /\ calls tr `prefix_of`
         CallExpandAll dir ".tmplt" :: CallLogin ::
         match (Cloud.Login (InfraStep.Cloud_ st)).1 with
         | Some sp =>
             [CallInit (Infra_env env st sp) dir;
              CallPlan (Infra_env env st sp) dir;
              CallStartApply (Infra_env env st sp) dir;
              CallWait]
         | None => []
         end.
Proof.
  intros dir. subst dir. unfold Step.Infra_env.
  infra_paths ltac:(on_path ltac:(
    sift; cbn [fst];
    try match goal with cmd : option Terraform.Cmd |- _ => destruct cmd end;
    eexists; reflexivity)).
Qed.

Lemma Destroy_run_calls env st :
  let dir := DestroyStep.SourcePath st in
  exists out st' tr,
    run (DestroyStep_Execute env) st = (out, st', tr)
    /\ calls tr `prefix_of`
         [CallExpandAll dir ".tmplt"; CallInit env dir;
          CallStartDestroy env dir; CallWait].
Proof.
  intros dir. subst dir.
  destroy_paths ltac:(on_path ltac:(
    sift;
    try match goal with cmd : option Terraform.Cmd |- _ => destruct cmd end;
    eexists; reflexivity)).
Qed.

(** The tests on the way to the apply, as the vocabulary has them. *)
Lemma all_zero a c d :
  ((a =? 0) && (c =? 0) && (d =? 0))%Z = true ->
  (a = 0 /\ c = 0 /\ d = 0)%Z.
Proof.
  intros Ht. apply andb_true_iff in Ht as [Ht Hd].
  apply andb_true_iff in Ht as [Ha Hc].
  apply Z.eqb_eq in Ha, Hc, Hd. tauto.
Qed.

Lemma some_not_zero a c d :
  ((a =? 0) && (c =? 0) && (d =? 0))%Z = false ->
  ~ (a = 0 /\ c = 0 /\ d = 0)%Z.
Proof. intros Hf (-> & -> & ->). discriminate Hf. Qed.

Lemma exceeds_not_within n limit l :
  exceeds n limit = Some l -> ~ within n limit.
Proof.
  intros H%exceeds_Some. destruct H as [-> H]. simpl. lia.
Qed.

(** A path that stops before the apply has no call of [StartApply], and
    its tests contradict [Infra_applies]. *)
Ltac stops_early :=
  split;
  [ intros (e & d & Hin); exfalso;
    apply elem_of_calls in Hin; [|reflexivity]; revert Hin; sift;
    intros Hin;
    repeat (apply elem_of_cons in Hin as [Hin|Hin]; [discriminate Hin|]);
    by apply elem_of_nil in Hin
  | intros (sp' & tfr' & (Hx' & Hl' & Hi' & Hp' & He') & Hnz' & Ha' & Hc' & Hd');
    exfalso; unfold Step.Infra_env in *;
    try congruence;
    try match goal with
        | H1 : Cloud.Login _ = (Some ?s, None),
          H2 : Cloud.Login _ = (Some ?s', None) |- _ =>
            assert (s' = s) as -> by congruence
        end;
    try (subst tfr');
    first
      [ congruence
      | match goal with H : (_ && _ && _)%bool = true |- _ =>
          apply all_zero in H; tauto end
      | match goal with H : exceeds _ _ = Some _ |- _ =>
          apply exceeds_not_within in H; tauto end ] ].

(** A path that gets to the apply. *)
Ltac gets_to_apply :=
  split;
  [ intros _; eexists _, _;
    repeat match goal with
    | H : (_ && _ && _)%bool = false |- _ => apply some_not_zero in H
    | H : exceeds _ _ = None |- _ => apply exceeds_None in H
    end;
    unfold Step.Infra_applies, Step.Infra_plans, Step.Infra_env;
    repeat split; eauto
  | intros _; eexists _, _;
    apply elem_of_calls; [reflexivity|]; sift;
    rewrite !elem_of_cons; eauto 10 ].

Lemma Infra_run_applies env st :
  exists out st' tr,
    run (InfraStep_Execute env) st = (out, st', tr)
    /\ ((exists e dir, CallStartApply e dir ∈ tr)
        <-> exists sp tfr, Infra_applies env st sp tfr).
Proof.
  infra_paths ltac:(on_path ltac:(first [solve [stops_early] | solve [gets_to_apply]])).
Qed.

(** *** What every execution does *)

(** X13. Every execution of the Infra step reports as the contract of
    [Execute] has it: when it returns, true goes with Ready and false with
    Error, that state is the one of the last update, all earlier updates
    (there is one) report Running, and after the last update nothing
    happens but the writing of files (the log directory is made, a file
    is written, a failure of either is logged); when it panics, it is on
    a nil pointer with the step Running and nothing but Running
    reported. *)
Theorem InfraStep_Execute_reports env st :
  reported (InfraStep.Meta (run (InfraStep_Execute env) st).1.2)
    (run (InfraStep_Execute env) st).1.1
    (run (InfraStep_Execute env) st).2.
Proof.
  destruct (Infra_run_reported env st) as (out & st' & tr & -> & H).
  exact H.
Qed.

(** X14. Every execution of the Destroy step reports in the same way:
    when it returns, true goes with Ready and false with Error, that state
    is the one of the last update, all earlier updates (there is one)
    report Running, and after the last update nothing happens but the
    writing of files; when it panics, it is on a nil pointer with the step
    Running and nothing but Running reported. *)
Theorem DestroyStep_Execute_reports env st :
  reported (DestroyStep.Meta (run (DestroyStep_Execute env) st).1.2)
    (run (DestroyStep_Execute env) st).1.1
    (run (DestroyStep_Execute env) st).2.
Proof.
  destruct (Destroy_run_reported env st) as (out & st' & tr & -> & H).
  exact H.
Qed.

(** X15. [Execute] changes nothing of a step but its state, message and
    counters: the values, source path, cloud, terraform, identity and hash
    of an Infra step and of a Destroy step are the same after every
    execution. *)
Theorem Execute_keeps_the_step env :
  (forall st, Infra_same_step st (run (InfraStep_Execute env) st).1.2)
  /\ (forall st, Destroy_same_step st (run (DestroyStep_Execute env) st).1.2).
Proof.
  split; intros st.
  - destruct (Infra_run_same_step env st) as (out & st' & tr & -> & H).
    exact H.
  - destruct (Destroy_run_same_step env st) as (out & st' & tr & -> & H).
    exact H.
Qed.

(** X16. The calls of the Infra step are, in this order and each at most
    once, a prefix of: expand the templates, log in, terraform init, plan
    and apply -- all three with the given environment merged with the
    credentials of the login, in the source directory -- and the wait for
    the terraform process. Terraform is never called when the login gives
    no principal, and destroy is never called. *)
Theorem InfraStep_calls_in_order env st :
  let dir := InfraStep.SourcePath st in
  calls (run (InfraStep_Execute env) st).2 `prefix_of`
    CallExpandAll dir ".tmplt" :: CallLogin ::
    match (Cloud.Login (InfraStep.Cloud_ st)).1 with
    | Some sp =>
        [CallInit (Infra_env env st sp) dir;
         CallPlan (Infra_env env st sp) dir;
         CallStartApply (Infra_env env st sp) dir;
         CallWait]
    | None => []
    end.
Proof.
  destruct (Infra_run_calls env st) as (out & st' & tr & -> & H).
  exact H.
Qed.

(** X17. The calls of the Destroy step are a prefix of: expand the
    templates, terraform init and destroy with the environment as given,
    and the wait for the terraform process. The Destroy step never logs
    in and never plans or applies. *)
Theorem DestroyStep_calls_in_order env st :
  let dir := DestroyStep.SourcePath st in
  calls (run (DestroyStep_Execute env) st).2 `prefix_of`
    [CallExpandAll dir ".tmplt"; CallInit env dir;
     CallStartDestroy env dir; CallWait].
Proof.
  destruct (Destroy_run_calls env st) as (out & st' & tr & -> & H).
  exact H.
Qed.

(** X18. The Infra step calls [StartApply] if and only if the plan
    succeeds with counts that are not all zero and are each within their
    non-nil limit. *)
Theorem InfraStep_applies_iff env st :
  (exists e dir, CallStartApply e dir ∈ (run (InfraStep_Execute env) st).2)
  <-> exists sp tfr, Infra_applies env st sp tfr.
Proof.
  destruct (Infra_run_applies env st) as (out & st' & tr & -> & H).
  exact H.
Qed.

(** *** The ways an Infra step fails *)

Ltac on_run tac :=
  eexists _, _; split; [reflexivity|]; tac.

(** X19. When the templates do not expand, or the login fails, [Execute]
    returns false with the step in Error and the error as its message;
    the counters are as they were, nothing is written and terraform is
    not called. *)
Theorem InfraStep_setup_failure env st err :
  let dir := InfraStep.SourcePath st in
  tmplt_ExpandAll dir ".tmplt" (InfraStep.Values st) = Some err
  \/ (tmplt_ExpandAll dir ".tmplt" (InfraStep.Values st) = None
      /\ exists sp, Cloud.Login (InfraStep.Cloud_ st) = (sp, Some err)) ->
  exists st' tr,
    run (InfraStep_Execute env) st = (Returned false, st', tr)
    /\ State (InfraStep.Meta st') = V1.StateError
    /\ Msg (InfraStep.Meta st') = err
    /\ Infra_counts st' = Infra_counts st
    /\ writes tr = []
    /\ calls tr `prefix_of` [CallExpandAll dir ".tmplt"; CallLogin].
Proof.
  intros dir [Hx|(Hx & sp & Hl)]; subst dir; infra_start; rewrite Hx; crunch.
  2: rewrite Hl; crunch.
  all: on_run ltac:(repeat split; sift; try reflexivity;
                    eexists; reflexivity).
Qed.

(** X20. When the login returns neither an error nor a principal,
    [terraformEnviron] reads through the nil principal: [Execute] panics
    with the step Running, before anything is written or terraform is
    called. *)
Theorem InfraStep_nil_principal_panics env st :
  let dir := InfraStep.SourcePath st in
  tmplt_ExpandAll dir ".tmplt" (InfraStep.Values st) = None ->
  Cloud.Login (InfraStep.Cloud_ st) = (None, None) ->
  exists st' tr,
    run (InfraStep_Execute env) st = (Panicked nil_deref, st', tr)
    /\ State (InfraStep.Meta st') = V1.StateRunning
    /\ writes tr = []
    /\ calls tr = [CallExpandAll dir ".tmplt"; CallLogin].
Proof.
  intros dir Hx Hl; subst dir; infra_start; rewrite Hx; crunch.
  rewrite Hl; crunch.
  on_run ltac:(repeat split; sift; reflexivity).
Qed.

(** X21. When terraform init reports errors, [Execute] returns false with
    the step in Error and the message "terraform init " followed by the
    first error only; that error is the last file written, as init.err,
    after infra.env and init.txt; the counters are as they were and plan
    is not called. *)
Theorem InfraStep_init_errors env st sp e0 es :
  let dir := InfraStep.SourcePath st in
  let init := Terraform.Init (InfraStep.Terraform_ st) (Infra_env env st sp)
                dir in
  Infra_logs_in st sp ->
  Terraform.Errors init = e0 :: es ->
  exists st' tr,
    run (InfraStep_Execute env) st = (Returned false, st', tr)
    /\ State (InfraStep.Meta st') = V1.StateError
    /\ Msg (InfraStep.Meta st') = "terraform init " +:+ e0
    /\ Infra_counts st' = Infra_counts st
    /\ (exists text,
          writes tr = [WriteFile (log_file dir "infra.env") text;
                       WriteFile (log_file dir "init.txt")
                         (Terraform.Text init);
                       WriteFile (log_file dir "init.err") e0])
    /\ calls tr = [CallExpandAll dir ".tmplt"; CallLogin;
                   CallInit (Infra_env env st sp) dir].
Proof.
  intros dir init (Hx & Hl) Hi; subst dir init. unfold Step.Infra_env in *.
  infra_start; rewrite Hx; crunch. rewrite Hl; crunch. rewrite Hi; crunch.
  on_run ltac:(repeat split; sift; try reflexivity;
               eexists; reflexivity).
Qed.

(** X22. When terraform plan reports errors, [Execute] returns false with
    the step in Error and the message "terraform plan " followed by the
    first error only; that error is the last file written, as plan.err;
    the counters are as they were and apply is not called. *)
Theorem InfraStep_plan_errors env st sp e0 es :
  let dir := InfraStep.SourcePath st in
  let e := Infra_env env st sp in
  let init := Terraform.Init (InfraStep.Terraform_ st) e dir in
  let plan := Terraform.Plan (InfraStep.Terraform_ st) e dir in
  Infra_logs_in st sp ->
  Terraform.Errors init = [] ->
  Terraform.Errors plan = e0 :: es ->
  exists st' tr,
    run (InfraStep_Execute env) st = (Returned false, st', tr)
    /\ State (InfraStep.Meta st') = V1.StateError
    /\ Msg (InfraStep.Meta st') = "terraform plan " +:+ e0
    /\ Infra_counts st' = Infra_counts st
    /\ (exists text,
          writes tr = [WriteFile (log_file dir "infra.env") text;
                       WriteFile (log_file dir "init.txt")
                         (Terraform.Text init);
                       WriteFile (log_file dir "plan.txt")
                         (Terraform.Text plan);
                       WriteFile (log_file dir "plan.err") e0])
    /\ calls tr = [CallExpandAll dir ".tmplt"; CallLogin; CallInit e dir;
                   CallPlan e dir].
Proof.
  intros dir e init plan (Hx & Hl) Hi Hp; subst dir e init plan.
  unfold Step.Infra_env in *.
  infra_start; rewrite Hx; crunch. rewrite Hl; crunch. rewrite Hi; crunch.
  rewrite Hp; crunch.
  on_run ltac:(repeat split; sift; try reflexivity;
               eexists; reflexivity).
Qed.

(** Past the budget gate, by computation. *)
Ltac infra_to_apply Hx Hl Hi Hp He Hnz Ha Hc Hd Hs :=
  unfold Step.Infra_env in *;
  infra_start; rewrite Hx; crunch; rewrite Hl; crunch; rewrite Hi; crunch;
  rewrite Hp, He; crunch;
  rewrite (not_all_zero _ _ _ Hnz); crunch;
  rewrite (proj2 (exceeds_None _ _) Ha), (proj2 (exceeds_None _ _) Hc),
    (proj2 (exceeds_None _ _) Hd);
  crunch; rewrite Hs; crunch.

(** X23. When the apply does not start, [Execute] warns the info sink
    with "start terraform apply:" and the error, and returns false with
    the step in Error and the same text as its message; the counters are
    those of the plan; the process is not waited for and apply.txt is not
    written. *)
Theorem InfraStep_apply_not_started env st sp tfr cmd ch err :
  let dir := InfraStep.SourcePath st in
  let e := Infra_env env st sp in
  Infra_applies env st sp tfr ->
  Terraform.StartApply (InfraStep.Terraform_ st) e dir = (cmd, ch, Some err) ->
  exists st' tr,
    run (InfraStep_Execute env) st = (Returned false, st', tr)
    /\ State (InfraStep.Meta st') = V1.StateError
    /\ Msg (InfraStep.Meta st') = "start terraform apply:" +:+ err
    /\ Infra_counts st'
       = (Terraform.PlanAdded tfr, Terraform.PlanChanged tfr,
          Terraform.PlanDeleted tfr)
    /\ infos tr = [Warning (ID_ (InfraStep.Meta st))
                     ("start terraform apply:" +:+ err)]
    /\ LogError err "start terraform apply" ∈ tr
    /\ length (writes tr) = 3
    /\ calls tr = [CallExpandAll dir ".tmplt"; CallLogin; CallInit e dir;
                   CallPlan e dir; CallStartApply e dir].
Proof.
  intros dir e ((Hx & Hl & Hi & Hp & He) & Hnz & Ha & Hc & Hd) Hs.
  subst dir e.
  infra_to_apply Hx Hl Hi Hp He Hnz Ha Hc Hd Hs.
  on_run ltac:(repeat split; try find_update; sift; reflexivity).
Qed.

(** X24. When the last record of the apply carries errors, [Execute]
    returns false with the step in Error and the errors, joined by ", ",
    as its message; the message is the last file written, as apply.err,
    after apply.txt with the text of the record; the counters are the
    totals of the record, and the info sink got the progress of the
    apply. *)
Theorem InfraStep_apply_errors env st sp tfr cmd ch r :
  let dir := InfraStep.SourcePath st in
  let e := Infra_env env st sp in
  Infra_applies env st sp tfr ->
  Terraform.StartApply (InfraStep.Terraform_ st) e dir = (cmd, ch, None) ->
  last ch = Some r ->
  Terraform.AErrors r <> [] ->
  exists st' tr,
    run (InfraStep_Execute env) st = (Returned false, st', tr)
    /\ State (InfraStep.Meta st') = V1.StateError
    /\ Msg (InfraStep.Meta st') = String.concat ", " (Terraform.AErrors r)
    /\ Infra_counts st'
       = (Terraform.TotalAdded r, Terraform.TotalChanged r,
          Terraform.TotalDestroyed r)
    /\ infos tr = progress_events (ID_ (InfraStep.Meta st)) ch
    /\ (exists text,
          writes tr
          = [WriteFile (log_file dir "infra.env") text;
             WriteFile (log_file dir "init.txt")
               (Terraform.Text (Terraform.Init (InfraStep.Terraform_ st) e
                                  dir));
             WriteFile (log_file dir "plan.txt") (Terraform.Text tfr);
             WriteFile (log_file dir "apply.txt") (Terraform.AText r);
             WriteFile (log_file dir "apply.err")
               (String.concat ", " (Terraform.AErrors r))]).
Proof.
  intros dir e ((Hx & Hl & Hi & Hp & He) & Hnz & Ha & Hc & Hd) Hs Hlast Herr.
  subst dir e.
  infra_to_apply Hx Hl Hi Hp He Hnz Ha Hc Hd Hs.
  rewrite Hlast; crunch.
  destruct (Terraform.AErrors r) as [|e0 errs] eqn:E; [done|]. crunch.
  on_run ltac:(decide_state; repeat split; sift; try reflexivity).
  eexists. reflexivity.
Qed.

(** X25. When the last record of the apply carries no error, [Execute]
    returns true with the message "terraform apply errors=0 added=A
    changed=C deleted=D" of the record's totals, which are the step's
    counters; the info sink got the progress of the apply, and the files
    written are infra.env, init.txt, plan.txt and apply.txt, in this
    order. A failing wait for the terraform process changes none of
    this. *)
Theorem InfraStep_apply_ready env st sp tfr cmd ch r :
  let dir := InfraStep.SourcePath st in
  let e := Infra_env env st sp in
  Infra_applies env st sp tfr ->
  Terraform.StartApply (InfraStep.Terraform_ st) e dir = (cmd, ch, None) ->
  last ch = Some r ->
  Terraform.AErrors r = [] ->
  exists st' tr,
    run (InfraStep_Execute env) st = (Returned true, st', tr)
    /\ Msg (InfraStep.Meta st')
       = "terraform apply errors=0 added=" +:+ fmt_d (Terraform.TotalAdded r)
         +:+ " changed=" +:+ fmt_d (Terraform.TotalChanged r)
         +:+ " deleted=" +:+ fmt_d (Terraform.TotalDestroyed r)
    /\ Infra_counts st'
       = (Terraform.TotalAdded r, Terraform.TotalChanged r,
          Terraform.TotalDestroyed r)
    /\ infos tr = progress_events (ID_ (InfraStep.Meta st)) ch
    /\ (exists text,
          writes tr
          = [WriteFile (log_file dir "infra.env") text;
             WriteFile (log_file dir "init.txt")
               (Terraform.Text (Terraform.Init (InfraStep.Terraform_ st) e
                                  dir));
             WriteFile (log_file dir "plan.txt") (Terraform.Text tfr);
             WriteFile (log_file dir "apply.txt") (Terraform.AText r)]).
Proof.
  intros dir e ((Hx & Hl & Hi & Hp & He) & Hnz & Ha & Hc & Hd) Hs Hlast Herr.
  subst dir e.
  infra_to_apply Hx Hl Hi Hp He Hnz Ha Hc Hd Hs.
  rewrite Hlast; crunch. rewrite Herr; crunch.
  on_run ltac:(decide_state; repeat split; sift; try reflexivity).
  eexists. reflexivity.
Qed.

(** *** The Destroy step *)

Lemma Destroy_run_ready_iff env st :
  exists out st' tr,
    run (DestroyStep_Execute env) st = (out, st', tr)
    /\ (out = Returned true /\ State (DestroyStep.Meta st') = V1.StateReady
        <-> Destroy_inits env st /\ Destroy_succeeds env st).
Proof.
  destroy_paths ltac:(on_path ltac:(
    decide_state;
    first
      [ split; [intros [[=] _]|];
        intros ((Hx' & Hi') & cmd' & ch' & r' & Hs' & Hl' & He');
        congruence
      | split; [|by intros _];
        intros _; split; [by split|]; by eexists _, _, _ ])).
Qed.

(** X26. The Destroy step reaches Ready if and only if the templates
    expand, terraform init reports no error, the destroy starts and
    delivers at least one record, and the last record carries no error. *)
Theorem DestroyStep_ready_iff env st :
  Destroy_ready (run (DestroyStep_Execute env) st)
  <-> Destroy_inits env st /\ Destroy_succeeds env st.
Proof.
  unfold Destroy_ready.
  destruct (Destroy_run_ready_iff env st) as (out & st' & tr & -> & H).
  exact H.
Qed.

(** X27. When terraform init reports errors, the Destroy step returns
    false in Error with the message "terraform init " followed by the
    first error only; destroy is not started, the counters are as they
    were, and--unlike the Infra step--no file follows the one written for
    the output of init. *)
Theorem DestroyStep_init_errors env st e0 es :
  let dir := DestroyStep.SourcePath st in
  tmplt_ExpandAll dir ".tmplt" (DestroyStep.Values st) = None ->
  Terraform.Errors (Terraform.Init (DestroyStep.Terraform_ st) env dir)
    = e0 :: es ->
  exists st' tr,
    run (DestroyStep_Execute env) st = (Returned false, st', tr)
    /\ State (DestroyStep.Meta st') = V1.StateError
    /\ Msg (DestroyStep.Meta st') = "terraform init " +:+ e0
    /\ Destroy_counts st' = Destroy_counts st
    /\ length (writes tr) = 1
    /\ calls tr = [CallExpandAll dir ".tmplt"; CallInit env dir].
Proof.
  intros dir Hx Hi; subst dir.
  destroy_start; rewrite Hx; crunch. rewrite Hi; crunch.
  on_run ltac:(repeat split; sift; reflexivity).
Qed.

(** X28. When the last record of the destroy carries errors, the Destroy
    step returns false in Error with the errors, joined by ", ", as its
    message; the counters are the totals of the record and the info sink
    got the progress of the destroy. *)
Theorem DestroyStep_destroy_errors env st cmd ch r :
  let dir := DestroyStep.SourcePath st in
  Destroy_inits env st ->
  Terraform.StartDestroy (DestroyStep.Terraform_ st) env dir
    = (cmd, ch, None) ->
  last ch = Some r ->
  Terraform.AErrors r <> [] ->
  exists st' tr,
    run (DestroyStep_Execute env) st = (Returned false, st', tr)
    /\ State (DestroyStep.Meta st') = V1.StateError
    /\ Msg (DestroyStep.Meta st') = String.concat ", " (Terraform.AErrors r)
    /\ Destroy_counts st'
       = (Terraform.TotalAdded r, Terraform.TotalChanged r,
          Terraform.TotalDestroyed r)
    /\ infos tr = progress_events (ID_ (DestroyStep.Meta st)) ch
    /\ length (writes tr) = 2.
Proof.
  intros dir (Hx & Hi) Hs Hlast Herr; subst dir.
  destroy_start; rewrite Hx; crunch. rewrite Hi; crunch.
  rewrite Hs; crunch. rewrite Hlast; crunch.
  destruct (Terraform.AErrors r) as [|e1 errs] eqn:E; [done|]. crunch.
  on_run ltac:(decide_state; repeat split; sift; reflexivity).
Qed.

(** *** Writing the log files *)

(** X29. [writeText] always returns and leaves the step alone. It asks
    for the directory dir/log and then writes the text to dir/log/name,
    also when the directory could not be made; it logs one line for each
    of the two operations that fails, and does nothing else. *)
Theorem writeText_always_writes {S} text dir name (st : S) tr :
  let p := filepath_Join dir "log" in
  let failed (err : option error) : nat :=
    match err with Some _ => 1 | None => 0 end in
  exists evs,
    writeText text dir name st tr = (Returned tt, st, tr ++ evs)
    /\ head evs = Some (MkdirAll p)
    /\ writes evs = [WriteFile (filepath_Join p name) text]
    /\ Forall (fun e => e = MkdirAll p
                        \/ e = WriteFile (filepath_Join p name) text
                        \/ exists err, e = LogInfo "InitStep" (Some err)) evs
    /\ length evs
       = 2 + failed (os_MkdirAll p)
         + failed (ioutil_WriteFile (filepath_Join p name) text).
Proof.
  intros p failed. exists (writeText_events text dir name).
  split; [apply run_writeText_end|].
  unfold Step.writeText_events, log_events. fold p.
  destruct (os_MkdirAll p), (ioutil_WriteFile (filepath_Join p name) text);
    (split; [reflexivity|]); (split; [reflexivity|]);
    (split; [|reflexivity]);
    repeat (apply List.Forall_cons; [eauto 6|]); apply List.Forall_nil.
Qed.


End Facts.

End StepFacts.

(** * Scenarios

    The theorems at the concrete environments of the design document. *)

Module Scenarios.

Import Types Fixtures.

Lemma range_listed_enumerates : Plan.enumerates (@range_listed V1.StepStatus).
Proof. intros m. reflexivity. Qed.

(** Error stickiness: AKSPool is in Error and the hash of Addons differs
    from the status; [NextStep] returns [(nil, nil)]. *)
Lemma NextStep_error_gate_witness :
  Fixtures.NextStep vault_ok planner testNSN sourcer false (ispec no_budget)
    [cluster_k]
    (status_of [("Infra", entry V1.StateReady "6");
                ("AKSPool.k", entry V1.StateError "c");
                ("Addons.k", entry V1.StateReady "stale")])
  = (Returned (None, None), planner).
Proof.
  apply (PlanFacts.NextStep_error_gate unit unit unit set_subscription
           hash_fake join vault_ok shortName range_listed
           range_listed_enumerates).
  exists "AKSPool.k", (entry V1.StateError "c"). split; reflexivity.
Defined.

(** Fresh environment, Infra already Ready with the hash of the plan: the
    walk skips Infra and returns the next step of the plan. *)
Lemma NextStep_walks_fresh_plan_witness :
  exists st,
    Fixtures.NextStep vault_ok planner testNSN sourcer false
      (ispec no_budget) [cluster_k] status_infra_ready
    = (Returned (Some st, None), planned)
    /\ Plan.to_run unit unit unit shortName status_infra_ready st.
Proof.
  destruct (PlanFacts.NextStep_walks_fresh_plan unit unit unit
              set_subscription hash_fake join vault_ok shortName
              range_listed range_listed_enumerates planner testNSN sourcer
              false (ispec no_budget) [cluster_k] status_infra_ready
              (ispec no_budget) planned)
    as (built & pl & _ & _ & _ & [(pre & st & post & _ & _ & Hrun & Hnext)
                                |[_ Hnext]]).
  - unfold Plan.no_step_in. refine (bool_decide_unpack _ _).
    vm_compute. exact I.
  - unfold Plan.no_step_in. refine (bool_decide_unpack _ _).
    vm_compute. exact I.
  - reflexivity.
  - vm_compute. reflexivity.
  - exists st. split; [exact Hnext | exact Hrun].
  - exfalso. revert Hnext. vm_compute. discriminate.
Defined.

(** The same call with the [return] statement it takes. *)
Lemma NextStep_selectStep_no_retry_exit_witness :
  selected <> Plan.NoRetry
  /\ ((exists st, Plan.selectStep unit unit unit shortName planned testNSN
                   status_infra_ready = (Some st, None))
      \/ (selected = Plan.WalkedAll
          /\ Plan.selectStep unit unit unit shortName planned testNSN
               status_infra_ready = (None, None))).
Proof.
  destruct (PlanFacts.NextStep_selectStep_no_retry_exit unit unit unit
              set_subscription hash_fake join vault_ok shortName
              range_listed range_listed_enumerates planner testNSN sourcer
              false (ispec no_budget) [cluster_k] status_infra_ready
              selected planned)
    as (_ & _ & Hno & _ & Hret).
  - vm_compute. reflexivity.
  - split; [exact Hno | exact Hret].
Defined.


Example prefixedClusterName_env :
  Plan.prefixedClusterName "aks" "env" "k" = Returned "vaks001env-k".
Proof. reflexivity. Qed.

Lemma prefixedClusterName_total_iff_env_nonempty_witness :
  exists pre c,
    "env" = pre +:+ String c EmptyString
    /\ Plan.prefixedClusterName "aks" "env" "k"
       = Returned (String c EmptyString +:+ "aks" +:+ "001" +:+ "env"
                   +:+ "-" +:+ "k").
Proof.
  apply (proj2 (PlanFacts.prefixedClusterName_total_iff_env_nonempty
                  "aks" "k") "env").
  discriminate.
Defined.

(** *** The terraform steps *)

(** Nothing to do: a plan of (0, 0, 0). *)
Lemma InfraStep_nothing_to_do_witness :
  exists st' tr,
    Infra_Execute (infra_step no_budget 0 0 0 []) = (Returned true, st', tr)
    /\ Step.State (Step.InfraStep.Meta st') = V1.StateReady
    /\ Step.Msg (Step.InfraStep.Meta st') = "terraform plan: nothing to do"
    /\ Step.last_Update tr = Some (Step.Update (Step.InfraStep.Meta st') 0 0 0)
    /\ Step.no_apply tr.
Proof.
  apply (StepFacts.InfraStep_nothing_to_do join mkdir_ok write_ok expand_ok
           merge range_listed [] (infra_step no_budget 0 0 0 []) sp_fake
           (plan_result 0 0 0)).
  - repeat split.
  - reflexivity.
  - reflexivity.
  - reflexivity.
Defined.

(** Budget trip: DeleteLimit = 2 and PlanDeleted = 5. *)
Lemma InfraStep_budget_gate_witness :
  exists st' tr,
    Infra_Execute (infra_step (delete_limit 2) 0 0 5 [])
      = (Returned false, st', tr)
    /\ Step.State (Step.InfraStep.Meta st') = V1.StateError
    /\ Step.Msg (Step.InfraStep.Meta st')
       = "plan deleted 5 exceeds deleteLimit 2"
    /\ Step.last_Update tr = Some (Step.Update (Step.InfraStep.Meta st') 0 0 5)
    /\ Step.no_apply tr.
Proof.
  destruct (StepFacts.InfraStep_budget_gate join mkdir_ok write_ok expand_ok
              merge range_listed [] (infra_step (delete_limit 2) 0 0 5 [])
              sp_fake (plan_result 0 0 5))
    as (st' & tr & Hrun & Hst & Hmsg & Hlast & Hno).
  - repeat split.
  - simpl. lia.
  - right; right. exists 2%Z. simpl. split; [reflexivity | lia].
  - exists st', tr. split; [exact Hrun|]. split; [exact Hst|].
    split; [|by split].
    destruct Hmsg as [(l & Hl & _)|[(l & Hl & _)|(l & Hl & _ & _ & _ & Hmsg)]];
      [discriminate Hl | discriminate Hl |].
    injection Hl as <-. exact Hmsg.
Defined.

(** A limit of -1 on additions and a plan of (0, 0, 0): the count exceeds
    its limit, yet [Execute] returns true with the step Ready, since the
    test for nothing to do comes before the budget gate. *)
Lemma InfraStep_over_limit_nothing_to_do :
  Step.over_limit 0 (V1.AddLimit (add_limit (-1)))
  /\ (Infra_Execute (infra_step (add_limit (-1)) 0 0 0 [])).1.1
     = Returned true
  /\ Step.State
       (Step.InfraStep.Meta
          (Infra_Execute (infra_step (add_limit (-1)) 0 0 0 [])).1.2)
     = V1.StateReady
  /\ Step.Msg
       (Step.InfraStep.Meta
          (Infra_Execute (infra_step (add_limit (-1)) 0 0 0 [])).1.2)
     = "terraform plan: nothing to do".
Proof.
  split; [exists (-1)%Z; split; [reflexivity | lia]|].
  split; [vm_compute; reflexivity|].
  split; vm_compute; reflexivity.
Qed.

(** A limit of -1 on additions and a plan of (0, 1, 0): the added count,
    zero, exceeds its limit and trips the gate. *)
Example budget_trip_negative_limit :
  Step.Msg (Step.InfraStep.Meta
              (Infra_Execute (infra_step (add_limit (-1)) 0 1 0 [])).1.2)
  = "plan added 0 exceeds addLimit -1".
Proof. vm_compute. reflexivity. Qed.

Example budget_trip_message :
  Step.Msg (Step.InfraStep.Meta
              (Infra_Execute (infra_step (delete_limit 2) 0 0 5 [])).1.2)
  = "plan deleted 5 exceeds deleteLimit 2".
Proof. vm_compute. reflexivity. Qed.

(** A plan of (1, 0, 0) within budget whose apply delivers one record
    without errors reaches Ready. *)
Lemma InfraStep_ready_iff_witness :
  Step.Infra_ready
    (Infra_Execute
       (infra_step no_budget 1 0 0 [record_done "Apply complete" 1 0 0])).
Proof.
  apply (StepFacts.InfraStep_ready_iff join mkdir_ok write_ok expand_ok
           merge range_listed []
           (infra_step no_budget 1 0 0 [record_done "Apply complete" 1 0 0])
           sp_fake (plan_result 1 0 0)).
  - repeat split.
  - simpl; lia.
  - simpl; lia.
  - simpl; lia.
  - right. simpl. repeat split; try lia.
    exists None, [record_done "Apply complete" 1 0 0],
      (record_done "Apply complete" 1 0 0).
    repeat split.
Defined.

(** A plan of (0, 0, 0) reaches Ready although [a + c + d > 0] fails: the
    equivalence of the budget property does not hold as it is stated. *)
Lemma InfraStep_ready_without_changes :
  ~ (Step.Infra_ready (Infra_Execute (infra_step no_budget 0 0 0 []))
     <-> ((0 + 0 + 0 > 0)%Z
          /\ Step.within 0 (V1.AddLimit no_budget)
          /\ Step.within 0 (V1.UpdateLimit no_budget)
          /\ Step.within 0 (V1.DeleteLimit no_budget)
          /\ Step.Infra_apply_succeeds merge []
               (infra_step no_budget 0 0 0 []) sp_fake)).
Proof.
  intros [Hto _].
  assert (Step.Infra_ready (Infra_Execute (infra_step no_budget 0 0 0 [])))
    as Hready by (split; vm_compute; reflexivity).
  destruct (Hto Hready) as [Hpos _]. lia.
Qed.

(** C4. No-progress apply and destroy: the channel closes without a
    record. The sentinel message is what the code aims at, but [last.Text]
    is read before [last == nil] is tested: [Execute] panics, the step is
    left Running, and the last state reported to the update sink is
    Running, not Error. *)
Theorem Execute_no_progress_panics :
  (exists st' tr m a c d,
      Infra_Execute (infra_step no_budget 1 0 0 [])
        = (Panicked nil_deref, st', tr)
      /\ Step.State (Step.InfraStep.Meta st') = V1.StateRunning
      /\ Step.last_Update tr = Some (Step.Update m a c d)
      /\ Step.State m = V1.StateRunning
      /\ Step.Msg m = "terraform apply adds=1 changes=0 deletes=0")
  /\ (exists st' tr m a c d,
         Destroy_Execute (destroy_step [])
           = (Panicked nil_deref, st', tr)
         /\ Step.State (Step.DestroyStep.Meta st') = V1.StateRunning
         /\ Step.last_Update tr = Some (Step.Update m a c d)
         /\ Step.State m = V1.StateRunning
         /\ Step.Msg m = "terraform destroy").
Proof.
  split.
  - eexists _, _, _, _, _, _. split; [vm_compute; reflexivity|].
    repeat split.
  - eexists _, _, _, _, _, _. split; [vm_compute; reflexivity|].
    repeat split.
Qed.

(** C8. Where the Destroy step writes. With the source path [/ws], the
    init output "Initialized" and the last record "Destroy complete", the
    files written are [init.txt/log/Initialized] and
    [destroy.txt/log/Destroy complete], both holding the text [/ws]:
    neither [/ws/log/init.txt] nor [/ws/log/destroy.txt] is written. The
    Infra step, on the same terraform, writes [/ws/log/init.txt]. *)
Theorem DestroyStep_writes_swapped :
  destroyed.1.1 = Returned true
  /\ List.filter Step.is_write destroyed.2
     = [Step.WriteFile "init.txt/log/Initialized" "/ws";
        Step.WriteFile "destroy.txt/log/Destroy complete" "/ws"]
  /\ (Step.WriteFile "/ws/log/init.txt" "Initialized" ∉ destroyed.2)
  /\ (Step.WriteFile "/ws/log/destroy.txt" "Destroy complete" ∉ destroyed.2)
  /\ (Step.WriteFile "/ws/log/init.txt" "Initialized"
      ∈ (Infra_Execute (infra_step no_budget 0 0 0 [])).2).
Proof.
  split; [vm_compute; reflexivity|].
  split; [vm_compute; reflexivity|].
  split; [|split].
  - apply (bool_decide_unpack _). vm_compute. exact I.
  - apply (bool_decide_unpack _). vm_compute. exact I.
  - apply (bool_decide_unpack _). vm_compute. exact I.
Qed.

(** *** More of the planner *)

(** The entry of the Ready Infra step is what [stepFilter] finds. *)
Lemma stepFilter_names_witness :
  "Infra" ∈ Plan.stepFilter range_listed status_infra_ready V1.StateReady.
Proof.
  apply (proj1 (proj2 (PlanFacts.stepFilter_names range_listed
                         range_listed_enumerates status_infra_ready
                         V1.StateReady))).
  exists (entry V1.StateReady "6"). split; reflexivity.
Defined.

(** The plan of the first scenario: Infra and the four steps of cluster
    k. *)
Lemma buildCreatePlan_shape_witness :
  exists pl,
    (Plan.buildCreatePlan unit unit unit set_subscription hash_fake join
       planner testNSN sourcer (ispec no_budget) [cluster_k]).1
    = Returned (pl, true)
    /\ length pl = 5.
Proof.
  destruct (Plan.buildCreatePlan unit unit unit set_subscription hash_fake
              join planner testNSN sourcer (ispec no_budget) [cluster_k]).1
    as [[pl ok]|msg] eqn:Hb.
  - assert (ok = true) as ->.
    { revert Hb. vm_compute. intros [= _ <-]. reflexivity. }
    exists pl. split; [reflexivity|].
    exact (proj2 (PlanFacts.buildCreatePlan_shape unit unit unit
                    set_subscription hash_fake join planner testNSN sourcer
                    (ispec no_budget) [cluster_k] pl Hb)).
  - exfalso. revert Hb. vm_compute. discriminate.
Defined.

Lemma buildCreatePlan_ready_iff_witness :
  exists pl,
    (Plan.buildCreatePlan unit unit unit set_subscription hash_fake join
       planner testNSN sourcer (ispec no_budget) [cluster_k]).1
    = Returned (pl, true).
Proof.
  refine (proj2 (proj1 (PlanFacts.buildCreatePlan_ready_iff unit unit unit
                          set_subscription hash_fake join planner testNSN
                          sourcer (ispec no_budget) [cluster_k] _)) _).
  - discriminate.
  - split.
    + exists ws_infra. split; reflexivity.
    + constructor; [|constructor]. exists ws_k. split; [reflexivity|].
      discriminate.
Defined.

(** The first scenario without environment name, on a planner whose Azure
    client keeps what it is set to: [NextStep] panics, and the client has
    been set to the subscription. *)
Lemma NextStep_panics_on_empty_EnvName_witness :
  Plan.NextStep unit (list string) unit subscribe hash_fake join vault_ok
    shortName range_listed planner_az testNSN sourcer false ispec_unnamed
    [cluster_k] (status_of [])
  = (Panicked slice_bounds, Plan.with_Azure planner_az ["sub"]).
Proof.
  refine (proj2 (PlanFacts.NextStep_panics_on_empty_EnvName unit
                   (list string) unit subscribe hash_fake join vault_ok
                   shortName range_listed range_listed_enumerates planner_az
                   testNSN sourcer ispec_unnamed ispec_unnamed cluster_k []
                   (status_of []) _ _ _ _ _ _)).
  - unfold Plan.no_step_in. refine (bool_decide_unpack _ _).
    vm_compute. exact I.
  - unfold Plan.no_step_in. refine (bool_decide_unpack _ _).
    vm_compute. exact I.
  - reflexivity.
  - reflexivity.
  - exists ws_infra. split; reflexivity.
  - exists ws_k. split; [reflexivity | discriminate].
Defined.

(** The Infra step of the plan in memory is Running: it is returned
    although the secret store fails and the workspaces are gone. *)
Lemma NextStep_running_fast_path_witness :
  exists st,
    Fixtures.NextStep vault_fails planned testNSN sourcer_empty true
      (ispec no_budget) [] status_infra_running
    = (Returned (Some st, None), planned).
Proof.
  destruct (Plan.currentPlanStep unit unit unit shortName planned testNSN
              "Infra") as [st|] eqn:Hst.
  - exists st.
    apply (PlanFacts.NextStep_running_fast_path unit unit unit
             set_subscription hash_fake join vault_fails shortName
             range_listed range_listed_enumerates planned testNSN
             sourcer_empty true (ispec no_budget) [] status_infra_running
             "Infra" st).
    + unfold Plan.no_step_in. refine (bool_decide_unpack _ _).
      vm_compute. exact I.
    + exists (entry V1.StateRunning "6"). split; reflexivity.
    + intros n' s' Hl _. simpl in Hl.
      apply lookup_insert_Some in Hl as [[<- _]|[_ Hl]]; [reflexivity|].
      by rewrite lookup_empty in Hl.
    + exact Hst.
  - exfalso. revert Hst. vm_compute. discriminate.
Defined.

Lemma NextStep_vault_error_witness :
  Fixtures.NextStep vault_fails planner testNSN sourcer false
    (ispec no_budget) [cluster_k] (status_of [])
  = (Returned (None, Some "vault ref: secret not found"), planner).
Proof.
  apply (PlanFacts.NextStep_vault_error unit unit unit set_subscription
           hash_fake join vault_fails shortName range_listed
           range_listed_enumerates planner testNSN sourcer false
           (ispec no_budget) [cluster_k] (status_of []) (ispec no_budget)
           "secret not found").
  - unfold Plan.no_step_in. refine (bool_decide_unpack _ _).
    vm_compute. exact I.
  - reflexivity.
  - reflexivity.
Defined.

(** Once the Destroy step is recorded with its hash, after the Infra step
    that already is, the walk is through. *)
Lemma selectStep_walk_advances_witness :
  Plan.selectStep_walk unit unit unit shortName
    {| V1.Steps := <["Destroy" := entry V1.StateReady "1"]>
                     (V1.Steps status_infra_done) |}
    two_steps
  = Plan.WalkedAll.
Proof.
  apply (PlanFacts.selectStep_walk_advances unit unit unit shortName
           status_infra_done [Plan.OfInfra (infra_step no_budget 0 0 0 [])]
           [] (Plan.OfDestroy (destroy_step []))
           (entry V1.StateReady "1")).
  - constructor; [|constructor].
    exists (entry V1.StateReady "1"). split; reflexivity.
  - constructor; [|constructor]. discriminate.
  - reflexivity.
Defined.

(** *** More of the terraform steps *)

Lemma InfraStep_setup_failure_witness :
  exists st' tr,
    Infra_Execute_unexpanded (infra_step no_budget 1 0 0 [])
    = (Returned false, st', tr)
    /\ Step.Msg (Step.InfraStep.Meta st') = "no templates"
    /\ Step.writes tr = [].
Proof.
  destruct (StepFacts.InfraStep_setup_failure join mkdir_ok write_ok
              expand_fails merge range_listed []
              (infra_step no_budget 1 0 0 []) "no templates")
    as (st' & tr & Hrun & _ & Hmsg & _ & Hw & _).
  - left. reflexivity.
  - exists st', tr. repeat split; assumption.
Defined.

Lemma InfraStep_nil_principal_panics_witness :
  exists st' tr,
    Infra_Execute (infra_step_on cloud_nil (tf_fake 1 0 0 []))
    = (Panicked nil_deref, st', tr)
    /\ Step.writes tr = [].
Proof.
  destruct (StepFacts.InfraStep_nil_principal_panics join mkdir_ok write_ok
              expand_ok merge range_listed []
              (infra_step_on cloud_nil (tf_fake 1 0 0 [])))
    as (st' & tr & Hrun & _ & Hw & _).
  - reflexivity.
  - reflexivity.
  - exists st', tr. split; assumption.
Defined.

Lemma InfraStep_init_errors_witness :
  exists st' tr,
    Infra_Execute
      (infra_step_on cloud_fake
         (tf_failing ["no backend"; "no provider"] [] None []))
    = (Returned false, st', tr)
    /\ Step.Msg (Step.InfraStep.Meta st') = "terraform init no backend"
    /\ Step.calls tr
       = [Step.CallExpandAll "/ws" ".tmplt"; Step.CallLogin;
          Step.CallInit
            (Step.Infra_env merge []
               (infra_step_on cloud_fake
                  (tf_failing ["no backend"; "no provider"] [] None []))
               sp_fake) "/ws"].
Proof.
  destruct (StepFacts.InfraStep_init_errors join mkdir_ok write_ok expand_ok
              merge range_listed []
              (infra_step_on cloud_fake
                 (tf_failing ["no backend"; "no provider"] [] None []))
              sp_fake "no backend" ["no provider"])
    as (st' & tr & Hrun & _ & Hmsg & _ & _ & Hcalls).
  - split; reflexivity.
  - reflexivity.
  - exists st', tr. repeat split; assumption.
Defined.

Lemma InfraStep_plan_errors_witness :
  exists st' tr,
    Infra_Execute
      (infra_step_on cloud_fake (tf_failing [] ["cycle"] None []))
    = (Returned false, st', tr)
    /\ Step.Msg (Step.InfraStep.Meta st') = "terraform plan cycle"
    /\ Step.Infra_counts st' = (0, 0, 0)%Z.
Proof.
  destruct (StepFacts.InfraStep_plan_errors join mkdir_ok write_ok expand_ok
              merge range_listed []
              (infra_step_on cloud_fake (tf_failing [] ["cycle"] None []))
              sp_fake "cycle" [])
    as (st' & tr & Hrun & _ & Hmsg & Hcounts & _).
  - split; reflexivity.
  - reflexivity.
  - reflexivity.
  - exists st', tr. repeat split; assumption.
Defined.

Lemma InfraStep_apply_not_started_witness :
  exists st' tr,
    Infra_Execute
      (infra_step_on cloud_fake (tf_failing [] [] (Some "no binary") []))
    = (Returned false, st', tr)
    /\ Step.Msg (Step.InfraStep.Meta st') = "start terraform apply:no binary"
    /\ Step.Infra_counts st' = (1, 0, 0)%Z.
Proof.
  destruct (StepFacts.InfraStep_apply_not_started join mkdir_ok write_ok
              expand_ok merge range_listed []
              (infra_step_on cloud_fake
                 (tf_failing [] [] (Some "no binary") []))
              sp_fake
              {| Terraform.Text := "Plan"; Terraform.Errors := [];
                 Terraform.PlanAdded := 1; Terraform.PlanChanged := 0;
                 Terraform.PlanDeleted := 0 |}
              None [] "no binary")
    as (st' & tr & Hrun & _ & Hmsg & Hcounts & _).
  - split; [repeat split|]. simpl. repeat split; lia.
  - reflexivity.
  - exists st', tr. repeat split; assumption.
Defined.

Lemma InfraStep_apply_errors_witness :
  exists st' tr,
    Infra_Execute
      (infra_step_on cloud_fake
         (tf_failing [] [] None
            [record_failed "Error" ["quota exceeded"; "timeout"]]))
    = (Returned false, st', tr)
    /\ Step.Msg (Step.InfraStep.Meta st') = "quota exceeded, timeout".
Proof.
  destruct (StepFacts.InfraStep_apply_errors join mkdir_ok write_ok
              expand_ok merge range_listed []
              (infra_step_on cloud_fake
                 (tf_failing [] [] None
                    [record_failed "Error" ["quota exceeded"; "timeout"]]))
              sp_fake
              {| Terraform.Text := "Plan"; Terraform.Errors := [];
                 Terraform.PlanAdded := 1; Terraform.PlanChanged := 0;
                 Terraform.PlanDeleted := 0 |}
              None [record_failed "Error" ["quota exceeded"; "timeout"]]
              (record_failed "Error" ["quota exceeded"; "timeout"]))
    as (st' & tr & Hrun & _ & Hmsg & _).
  - split; [repeat split|]. simpl. repeat split; lia.
  - reflexivity.
  - reflexivity.
  - discriminate.
  - exists st', tr. split; assumption.
Defined.

Lemma InfraStep_apply_ready_witness :
  exists st' tr,
    Infra_Execute
      (infra_step no_budget 1 0 0 [record_done "Apply complete" 1 0 0])
    = (Returned true, st', tr)
    /\ Step.Msg (Step.InfraStep.Meta st')
       = "terraform apply errors=0 added=1 changed=0 deleted=0"
    /\ Step.Infra_counts st' = (1, 0, 0)%Z.
Proof.
  destruct (StepFacts.InfraStep_apply_ready join mkdir_ok write_ok
              expand_ok merge range_listed []
              (infra_step no_budget 1 0 0
                 [record_done "Apply complete" 1 0 0])
              sp_fake (plan_result 1 0 0) None
              [record_done "Apply complete" 1 0 0]
              (record_done "Apply complete" 1 0 0))
    as (st' & tr & Hrun & Hmsg & Hcounts & _).
  - split; [repeat split|]. simpl. repeat split; lia.
  - reflexivity.
  - reflexivity.
  - reflexivity.
  - exists st', tr. repeat split; assumption.
Defined.

Lemma DestroyStep_init_errors_witness :
  exists st' tr,
    Destroy_Execute (destroy_step_on (tf_failing ["no backend"] [] None []))
    = (Returned false, st', tr)
    /\ Step.Msg (Step.DestroyStep.Meta st') = "terraform init no backend"
    /\ length (Step.writes tr) = 1.
Proof.
  destruct (StepFacts.DestroyStep_init_errors join mkdir_ok write_ok
              expand_ok []
              (destroy_step_on (tf_failing ["no backend"] [] None []))
              "no backend" [])
    as (st' & tr & Hrun & _ & Hmsg & _ & Hw & _).
  - reflexivity.
  - reflexivity.
  - exists st', tr. repeat split; assumption.
Defined.

Lemma DestroyStep_destroy_errors_witness :
  exists st' tr,
    Destroy_Execute
      (destroy_step_on
         (tf_failing [] [] None [record_failed "Error" ["locked"]]))
    = (Returned false, st', tr)
    /\ Step.Msg (Step.DestroyStep.Meta st') = "locked".
Proof.
  destruct (StepFacts.DestroyStep_destroy_errors join mkdir_ok write_ok
              expand_ok []
              (destroy_step_on
                 (tf_failing [] [] None [record_failed "Error" ["locked"]]))
              None [record_failed "Error" ["locked"]]
              (record_failed "Error" ["locked"]))
    as (st' & tr & Hrun & _ & Hmsg & _).
  - split; reflexivity.
  - reflexivity.
  - reflexivity.
  - discriminate.
  - exists st', tr. split; assumption.
Defined.


End Scenarios.
